(** * GreenWatch AI: claim extraction, certificate matching, risk scoring
      and the seller ledger

    A shallow embedding of the four modules of [backend/modules]
    ([nlp_engine.py], [cert_matcher.py], [risk_scorer.py],
    [predictive_engine.py]) and of the routes of [backend/main.py], and
    the properties of the analysis pipeline that follow from the code.

    Conventions.
    - A Python [str] is a list of Unicode code points ([PyStr.str]); string
      literals of the source are written as UTF-8 literals and decoded by
      [PyStr.u].
    - A Python [dict] whose iteration order matters is an association list
      in insertion order.
    - Python integers are [Z]; Python floats are exact rationals ([Q]).
    - Code that can raise returns a [result]; the mutable module state of
      [predictive_engine.py] is passed explicitly, and a call that raises
      hands back the state as it was left at the point of the exception. *)

From Stdlib Require Import List ZArith NArith QArith Qround String Ascii Bool Lia.
From Stdlib Require Import DecimalString.
From Stdlib Require Import Sorted.
Import ListNotations.

Local Open Scope Z_scope.

(* ================================================================== *)
(** * Python strings *)
(* ================================================================== *)

Module PyStr.

(** A code point. *)
Definition char := N.

(** A Python [str]: indices count code points, as in Python 3. *)
Definition str := list char.

(** Decoder of UTF-8 literals; malformed input stops the decoding. *)
Fixpoint u (s : string) : str :=
  match s with
  | EmptyString => []
  | String a s1 =>
      let b := N_of_ascii a in
      if (b <? 128)%N then b :: u s1
      else
        match s1 with
        | EmptyString => []
        | String a1 s2 =>
            let b1 := (N_of_ascii a1 - 128)%N in
            if (b <? 224)%N then ((b - 192) * 64 + b1)%N :: u s2
            else
              match s2 with
              | EmptyString => []
              | String a2 s3 =>
                  let b2 := (N_of_ascii a2 - 128)%N in
                  if (b <? 240)%N
                  then ((b - 224) * 4096 + b1 * 64 + b2)%N :: u s3
                  else
                    match s3 with
                    | EmptyString => []
                    | String a3 s4 =>
                        let b3 := (N_of_ascii a3 - 128)%N in
                        ((b - 240) * 262144 + b1 * 4096 + b2 * 64 + b3)%N
                          :: u s4
                    end
              end
        end
  end.

(** [a == b] on strings. *)
Fixpoint eqb (a b : str) : bool :=
  match a, b with
  | [], [] => true
  | c :: a', d :: b' => (c =? d)%N && eqb a' b'
  | _, _ => false
  end.

(** [x in l] for a list of strings. *)
Definition mem (x : str) (l : list str) : bool := existsb (eqb x) l.

(** [len(s)], of a string or of a list. *)
Definition len {A : Type} (s : list A) : Z := Z.of_nat (List.length s).

(** Lower-case mapping of one code point, as [str.lower] applies it.
    The table covers Basic Latin and Latin-1 (code points below 256) and
    U+0130 LATIN CAPITAL LETTER I WITH DOT ABOVE, the one code point whose
    lower case is two code points long (U+0069 U+0307).  The case pairs of
    other scripts are not tabulated: such code points are left as they are. *)
Definition lower_char (c : char) : str :=
  if ((65 <=? c) && (c <=? 90))%N then [(c + 32)%N]
  else if ((192 <=? c) && (c <=? 222) && negb (c =? 215))%N then [(c + 32)%N]
  else if (c =? 304)%N then [105%N; 775%N]
  else [c].

(** [s.lower()]. *)
Definition lower (s : str) : str := flat_map lower_char s.

(** [s.startswith(p)]. *)
Fixpoint startswith (p s : str) : bool :=
  match p, s with
  | [], _ => true
  | c :: p', d :: s' => (c =? d)%N && startswith p' s'
  | _ :: _, [] => false
  end.

Fixpoint find_from (sub s : str) (i : Z) : Z :=
  if startswith sub s then i
  else match s with
       | [] => -1
       | _ :: s' => find_from sub s' (i + 1)
       end.

(** [s.find(sub)]: the lowest index where [sub] occurs, [-1] when it does
    not occur. *)
Definition find (sub s : str) : Z := find_from sub s 0.

(** [sub in s]. *)
Definition contains (sub s : str) : bool := 0 <=? find sub s.

(** [s[a:b]] for [0 <= a]; the slice is cut at the end of [s] and empty
    when [b <= a]. *)
Definition slice (s : str) (a b : Z) : str :=
  firstn (Z.to_nat (b - a)) (skipn (Z.to_nat a) s).

(** [str.isspace] of one code point (Unicode 14, complete). *)
Definition isspace (c : char) : bool :=
  (((9 <=? c) && (c <=? 13)) || ((28 <=? c) && (c <=? 32))
   || (c =? 133) || (c =? 160) || (c =? 5760)
   || ((8192 <=? c) && (c <=? 8202)) || (c =? 8232) || (c =? 8233)
   || (c =? 8239) || (c =? 8287) || (c =? 12288))%N.

(** The ranges of the decimal digits (Unicode 14, category Nd), first and
    last code point of each. *)
Definition digit_ranges : list (N * N) :=
  [ (48, 57); (1632, 1641); (1776, 1785); (1984, 1993); (2406, 2415);
    (2534, 2543); (2662, 2671); (2790, 2799); (2918, 2927); (3046, 3055);
    (3174, 3183); (3302, 3311); (3430, 3439); (3558, 3567); (3664, 3673);
    (3792, 3801); (3872, 3881); (4160, 4169); (4240, 4249); (6112, 6121);
    (6160, 6169); (6470, 6479); (6608, 6617); (6784, 6793); (6800, 6809);
    (6992, 7001); (7088, 7097); (7232, 7241); (7248, 7257); (42528, 42537);
    (43216, 43225); (43264, 43273); (43472, 43481); (43504, 43513);
    (43600, 43609); (44016, 44025); (65296, 65305); (66720, 66729);
    (68912, 68921); (69734, 69743); (69872, 69881); (69942, 69951);
    (70096, 70105); (70384, 70393); (70736, 70745); (70864, 70873);
    (71248, 71257); (71360, 71369); (71472, 71481); (71904, 71913);
    (72016, 72025); (72784, 72793); (73040, 73049); (73120, 73129);
    (92768, 92777); (92864, 92873); (93008, 93017); (120782, 120831);
    (123200, 123209); (123632, 123641); (125264, 125273);
    (130032, 130041) ]%N.

(** Decimal digits, the class [\d] of [re] on a [str] (complete). *)
Definition isdigit (c : char) : bool :=
  existsb (fun r : N * N => ((fst r <=? c) && (c <=? snd r))%N) digit_ranges.

(** Word characters, the class [\w] of [re]; code points below 256 only. *)
Definition isword (c : char) : bool :=
  (((48 <=? c) && (c <=? 57)) || ((65 <=? c) && (c <=? 90)) || (c =? 95)
   || ((97 <=? c) && (c <=? 122)) || (c =? 170) || (c =? 178) || (c =? 179)
   || (c =? 181) || (c =? 185) || (c =? 186) || ((188 <=? c) && (c <=? 190))
   || ((192 <=? c) && (c <=? 214)) || ((216 <=? c) && (c <=? 246))
   || ((248 <=? c) && (c <=? 255)))%N.

(** Tokens of [s.split()]: maximal runs of non-space code points.
    [cur] is the token being read, in reverse. *)
Fixpoint split_ws (cur : str) (s : str) : list str :=
  match s with
  | [] => match cur with [] => [] | _ => [rev cur] end
  | c :: s' =>
      if isspace c
      then match cur with
           | [] => split_ws [] s'
           | _ => rev cur :: split_ws [] s'
           end
      else split_ws (c :: cur) s'
  end.

(** [s.split()]. *)
Definition split (s : str) : list str := split_ws [] s.

(** Pieces of [s.split(sep)] for a separator of one code point; the
    result always has at least one piece. *)
Fixpoint split_on_aux (sep : char) (cur : str) (s : str) : list str :=
  match s with
  | [] => [rev cur]
  | c :: s' =>
      if (c =? sep)%N then rev cur :: split_on_aux sep [] s'
      else split_on_aux sep (c :: cur) s'
  end.

Definition split_on (sep : char) (s : str) : list str :=
  split_on_aux sep [] s.

(** [sep.join(l)]. *)
Fixpoint join (sep : str) (l : list str) : str :=
  match l with
  | [] => []
  | [x] => x
  | x :: l' => x ++ sep ++ join sep l'
  end.

(** [str(n)] for an integer. *)
Definition str_of_Z (n : Z) : str := u (NilZero.string_of_int (Z.to_int n)).

(** Decimal text of [n], padded with zeros on the left to [w] digits. *)
Definition zfill (w : nat) (n : Z) : str :=
  let d := str_of_Z n in
  repeat 48%N (w - List.length d) ++ d.

End PyStr.

Import PyStr.

(* ================================================================== *)
(** * Python dictionaries, dates and rounding *)
(* ================================================================== *)

Module PyDict.

(** A [dict] with string keys, in insertion order. *)
Definition dict (V : Type) := list (str * V).

Section Dict.
Context {V : Type}.

(** [d.get(k)]: [None] when the key is absent. *)
Fixpoint get (d : dict V) (k : str) : option V :=
  match d with
  | [] => None
  | (k', v) :: d' => if eqb k k' then Some v else get d' k
  end.

(** [d.get(k, default)]. *)
Definition get_default (d : dict V) (k : str) (default : V) : V :=
  match get d k with
  | Some v => v
  | None => default
  end.

(** [d[k] = v]: a present key keeps its place, a new key goes last. *)
Fixpoint set (d : dict V) (k : str) (v : V) : dict V :=
  match d with
  | [] => [(k, v)]
  | (k', v') :: d' =>
      if eqb k k' then (k', v) :: d' else (k', v') :: set d' k v
  end.

(** [k in d]. *)
Definition has_key (d : dict V) (k : str) : bool :=
  match get d k with Some _ => true | None => false end.

End Dict.

End PyDict.

Module PyDate.

(** A [datetime.date]. *)
Record date := { year : Z; month : Z; day : Z }.

Definition is_leap (y : Z) : bool :=
  (y mod 4 =? 0) && (negb (y mod 100 =? 0) || (y mod 400 =? 0)).

Definition days_before_year (y : Z) : Z :=
  let y1 := y - 1 in y1 * 365 + y1 / 4 - y1 / 100 + y1 / 400.

Definition days_before_month (y m : Z) : Z :=
  nth (Z.to_nat m) [0; 0; 31; 59; 90; 120; 151; 181; 212; 243; 273; 304; 334] 0
  + (if (2 <? m) && is_leap y then 1 else 0).

(** [d.toordinal()]: the day number in the proleptic Gregorian calendar;
    the [.days] of the difference of two dates is the difference of their
    ordinals. *)
Definition toordinal (d : date) : Z :=
  days_before_year (year d) + days_before_month (year d) (month d) + day d.

(** [a < b] on dates: the order of [(year, month, day)]. *)
Definition ltb (a b : date) : bool :=
  (year a <? year b)
  || ((year a =? year b)
      && ((month a <? month b)
          || ((month a =? month b) && (day a <? day b)))).

(** The text [YYYY-MM-DD] of a date. *)
Definition isoformat (d : date) : str :=
  zfill 4 (year d) ++ u "-" ++ zfill 2 (month d) ++ u "-" ++ zfill 2 (day d).

End PyDate.

Module PyNum.

(** [round(x)] of a float: to the nearest integer, ties to the even one. *)
Definition round (q : Q) : Z :=
  let n := Qnum q in
  let d := Zpos (Qden q) in
  let f := n / d in
  let r2 := 2 * (n mod d) in
  if r2 <? d then f
  else if d <? r2 then f + 1
  else if Z.even f then f else f + 1.

(** [round(x, k)]: [x] to [k] decimal places, on the exact value. *)
Definition round_to (q : Q) (k : nat) : Q :=
  let p := 10 ^ Z.of_nat k in
  (inject_Z (round (q * inject_Z p)) / inject_Z p)%Q.

(** [a < b] on floats. *)
Definition Qltb (a b : Q) : bool :=
  Qnum a * Zpos (Qden b) <? Qnum b * Zpos (Qden a).

(** [a <= b] on floats. *)
Definition Qleb (a b : Q) : bool :=
  Qnum a * Zpos (Qden b) <=? Qnum b * Zpos (Qden a).

(** [min(a, b)] on floats. *)
Definition fmin (a b : Q) : Q := if Qltb b a then b else a.

(** [a / b] for integers, with a divisor that is not zero. *)
Definition true_div (a b : Z) : Q := (inject_Z a / inject_Z b)%Q.

End PyNum.

(** Exceptions the modelled code can raise. *)
Inductive exn :=
| KeyError (key : str)
| ZeroDivisionError.

(** Outcome of a call that may raise. *)
Inductive result (A : Type) :=
| Ok (a : A)
| Raise (e : exn).
Arguments Ok {A} a.
Arguments Raise {A} e.

(* ================================================================== *)
(** * cert_matcher.py *)
(* ================================================================== *)

Module cert_matcher.

Import PyDict PyDate.
Local Open Scope string_scope.
Local Open Scope list_scope.
Local Open Scope Z_scope.

(** A value of a guidance or remediation dictionary. *)
Inductive value :=
| VStr (s : str)
| VList (l : list str).

(** One record of the certificate registry ([cert_registry.json]).  The
    registry file holds [expiry] as the text [YYYY-MM-DD], which the code
    parses with [strptime]; a record here holds the parsed date, and
    [isoformat] gives the text back. *)
Record record := {
  company : str;
  cert_type : str;
  expiry : date;
  applicable_categories : list str;
  certificate_number : str;
  issuing_body : str
}.

(** The result of verifying one claimed certificate.  A key that only some
    of the four result shapes carry is an [option], [None] when the key
    is absent; [expiry_warning] is [Some None] for Python's [None]. *)
Record cert_result := {
  cert : str;
  status : str;
  severity : str;
  reason : str;
  res_certificate_number : option str;
  res_expiry : option str;
  res_issuing_body : option str;
  remediation : option (dict value);
  expiry_warning : option (option str);
  registry_checked : bool
}.

(** One entry of [missing_recommended]. *)
Record missing_cert := {
  m_cert : str;
  m_reason : str;
  guidance : dict value
}.

(** The dictionary [verify_certificates] returns. *)
Record verification := {
  verification_results : list cert_result;
  missing_recommended : list missing_cert;
  overall_cert_status : str
}.

Definition guidance_entry (full_name url timeline cost_tier description : string)
    (steps : list string) : dict value :=
  [ (u "full_name", VStr (u full_name));
    (u "url", VStr (u url));
    (u "timeline", VStr (u timeline));
    (u "cost_tier", VStr (u cost_tier));
    (u "description", VStr (u description));
    (u "steps", VList (map u steps)) ].

(** Certification guidance for SME remediation pathways. *)
Definition CERT_GUIDANCE : dict (dict value) :=
  [ (u "FSC", guidance_entry
       "Forest Stewardship Council"
       "https://fsc.org/en/for-business/certification"
       "3–6 months"
       "Low–Medium (₹50,000–₹2,00,000)"
       "Required for timber, paper, wood-based, and packaging products"
       [ "Contact an FSC-accredited certification body in your region";
         "Undergo a forest management or chain-of-custody audit";
         "Implement required changes and corrective actions";
         "Receive FSC certificate valid for 5 years with annual audits" ]);
    (u "PEFC", guidance_entry
       "Programme for Endorsement of Forest Certification"
       "https://pefc.org/find-certified/certified-businesses"
       "2–4 months"
       "Low (₹30,000–₹1,00,000)"
       "Alternative to FSC for forest and paper product certification"
       [ "Apply through a PEFC-endorsed national scheme";
         "Complete chain-of-custody certification process";
         "Annual surveillance audits required" ]);
    (u "Rainforest Alliance", guidance_entry
       "Rainforest Alliance Certification"
       "https://www.rainforest-alliance.org/business/certification"
       "4–8 months"
       "Medium (₹75,000–₹3,00,000)"
       "For agricultural commodities, food, and beverage products"
       [ "Register on the Rainforest Alliance certification portal";
         "Complete a self-assessment against the 2020 Sustainable Agriculture Standard";
         "Schedule a third-party audit";
         "Implement required sustainability practices" ]);
    (u "ISO 14001", guidance_entry
       "ISO 14001 Environmental Management System"
       "https://www.iso.org/iso-14001-environmental-management.html"
       "6–12 months"
       "Medium–High (₹1,00,000–₹5,00,000)"
       "Environmental management system standard applicable to any industry"
       [ "Conduct a gap analysis against ISO 14001:2015 requirements";
         "Develop and implement an Environmental Management System (EMS)";
         "Complete internal audits and management review";
         "Apply for third-party certification audit" ]);
    (u "CITES", guidance_entry
       "Convention on International Trade in Endangered Species"
       "https://cites.org/eng/resources/permits.php"
       "3–5 months"
       "Low (₹20,000–₹80,000)"
       "Required for products derived from or containing wildlife materials"
       [ "Determine if your product contains CITES-listed species";
         "Apply for CITES permits through your national Management Authority";
         "Ensure legal acquisition documentation for all wildlife-derived materials" ]);
    (u "TNFD", guidance_entry
       "Taskforce on Nature-related Financial Disclosures"
       "https://tnfd.global/engage/adopt-and-report"
       "Ongoing (reporting framework)"
       "Variable — internal assessment costs"
       "Nature-related risk disclosure framework for financial reporting"
       [ "Register as a TNFD adopter";
         "Conduct LEAP (Locate, Evaluate, Assess, Prepare) nature assessment";
         "Integrate nature-related disclosures into annual reporting" ]);
    (u "Carbon Trust", guidance_entry
       "Carbon Trust Standard"
       "https://www.carbontrust.com/our-work/certifications-and-standards"
       "3–6 months"
       "Medium (₹80,000–₹2,50,000)"
       "Carbon footprint measurement and reduction certification"
       [ "Measure your product or organisational carbon footprint";
         "Set and demonstrate year-on-year reduction targets";
         "Submit to independent verification by Carbon Trust" ]) ].

(** The status and severity words. *)
Definition NOT_FOUND : str := u "NOT_FOUND".
Definition EXPIRED : str := u "EXPIRED".
Definition SCOPE_MISMATCH : str := u "SCOPE_MISMATCH".
Definition VERIFIED : str := u "VERIFIED".
Definition NO_CERTS_CLAIMED : str := u "NO_CERTS_CLAIMED".
Definition ALL_VERIFIED : str := u "ALL_VERIFIED".
Definition FAILED : str := u "FAILED".
Definition PARTIAL : str := u "PARTIAL".

Section Matcher.

(** The registry loaded from [cert_registry.json], in file order. *)
Variable REGISTRY : list record.

(** The value of [date.today()] at the call. *)
Variable today : date.

(** The condition of the list comprehension that selects the records of a
    company and certificate type. *)
Definition record_matches (company_name cert_name : str) (r : record) : bool :=
  eqb (lower (company r)) (lower company_name)
  && eqb (lower (cert_type r)) (lower cert_name).

(** Verify a single certificate claim. *)
Definition _verify_single_cert (company_name cert_name category : str)
    : cert_result :=
  let matches := filter (record_matches company_name cert_name) REGISTRY in
  match matches with
  | [] =>
      {| cert := cert_name;
         status := NOT_FOUND;
         severity := u "high";
         reason := u "No " ++ cert_name
                   ++ u " certificate found in registry for " ++ company_name;
         res_certificate_number := None;
         res_expiry := None;
         res_issuing_body := None;
         remediation := Some (get_default CERT_GUIDANCE cert_name []);
         expiry_warning := None;
         registry_checked := true |}
  | rec :: _ =>
      let expiry_date := expiry rec in
      let is_expired := PyDate.ltb expiry_date today in
      let days_until_expiry := toordinal expiry_date - toordinal today in
      if is_expired then
        {| cert := cert_name;
           status := EXPIRED;
           severity := u "high";
           reason := u "Certificate expired on " ++ isoformat (expiry rec)
                     ++ u " (" ++ str_of_Z (Z.abs days_until_expiry)
                     ++ u " days ago)";
           res_certificate_number := Some (certificate_number rec);
           res_expiry := None;
           res_issuing_body := None;
           remediation :=
             Some (set (get_default CERT_GUIDANCE cert_name []) (u "action")
                       (VStr (u "Renew your existing certificate through your certifying body")));
           expiry_warning := None;
           registry_checked := true |}
      else if negb (mem (lower category)
                        (map lower (applicable_categories rec))) then
        {| cert := cert_name;
           status := SCOPE_MISMATCH;
           severity := u "medium";
           reason := u "Certificate covers "
                     ++ join (u ", ") (applicable_categories rec)
                     ++ u " — does not extend to '" ++ category ++ u "'";
           res_certificate_number := Some (certificate_number rec);
           res_expiry := Some (isoformat (expiry rec));
           res_issuing_body := None;
           remediation :=
             Some (set (get_default CERT_GUIDANCE cert_name []) (u "action")
                       (VStr (u "Contact " ++ issuing_body rec
                              ++ u " to extend scope to cover " ++ category
                              ++ u " products")));
           expiry_warning := None;
           registry_checked := true |}
      else
        let warning :=
          if (0 <? days_until_expiry) && (days_until_expiry <? 90)
          then Some (u "Certificate expires in " ++ str_of_Z days_until_expiry
                     ++ u " days — plan renewal soon")
          else None in
        {| cert := cert_name;
           status := VERIFIED;
           severity := u "none";
           reason := u "Valid until " ++ isoformat (expiry rec);
           res_certificate_number := Some (certificate_number rec);
           res_expiry := None;
           res_issuing_body := Some (issuing_body rec);
           remediation := None;
           expiry_warning := Some warning;
           registry_checked := true |}
  end.

(** The table of certifications recommended per product category. *)
Definition recommendations : dict (list str) :=
  [ (u "timber", [u "FSC"; u "PEFC"; u "Carbon Trust"]);
    (u "paper", [u "FSC"; u "PEFC"]);
    (u "furniture", [u "FSC"; u "ISO 14001"]);
    (u "textiles", [u "PEFC"; u "ISO 14001"]);
    (u "food", [u "Rainforest Alliance"]);
    (u "agriculture", [u "Rainforest Alliance"; u "ISO 14001"]);
    (u "cosmetics", [u "ISO 14001"]);
    (u "personal care", [u "ISO 14001"]);
    (u "packaging", [u "FSC"; u "Carbon Trust"]);
    (u "wildlife products", [u "CITES"]);
    (u "exotic materials", [u "CITES"]);
    (u "leather", [u "CITES"; u "ISO 14001"]) ].

(** Identify certifications that are recommended for a product category
    but not claimed. *)
Definition _identify_missing_certs (category : str) (claimed : list str)
    : list missing_cert :=
  let recommended := get_default recommendations (lower category) [] in
  map (fun c =>
         {| m_cert := c;
            m_reason := u "Recommended for " ++ category ++ u " products";
            guidance := get_default CERT_GUIDANCE c [] |})
      (filter (fun c => negb (mem c claimed)) recommended).

(** Compute overall certificate verification status. *)
Definition _overall_status (results : list cert_result) : str :=
  match results with
  | [] => NO_CERTS_CLAIMED
  | _ =>
      let statuses := map status results in
      if forallb (fun s => eqb s VERIFIED) statuses then ALL_VERIFIED
      else if existsb (fun s => mem s [NOT_FOUND; EXPIRED]) statuses then FAILED
      else PARTIAL
  end.

(** Verify each claimed certificate against the registry. *)
Definition verify_certificates (company_name : str) (claimed_certs : list str)
    (product_category : str) : verification :=
  let results :=
    map (fun c => _verify_single_cert company_name c product_category)
        claimed_certs in
  let missing_required :=
    _identify_missing_certs product_category claimed_certs in
  {| verification_results := results;
     missing_recommended := missing_required;
     overall_cert_status := _overall_status results |}.

End Matcher.

End cert_matcher.

(* ================================================================== *)
(** * The fragment of [re] the code uses *)
(* ================================================================== *)

Module PyRe.

(** One item of a pattern. *)
Inductive atom :=
| Lit (s : str)            (** literal text *)
| Alt (alts : list str)    (** [(a|b|c)], the alternatives tried in order *)
| WordB                    (** [\b] *)
| Digits1                  (** [\d+], greedy *)
| Spaces0.                 (** [\s*], greedy *)

(** A pattern: alternatives at top level, each a sequence of atoms. *)
Definition pattern := list (list atom).

(** [\b] holds between a word character and a non-word character; the two
    ends of the text count as non-word. *)
Definition at_boundary (prev : option char) (s : str) : bool :=
  xorb (match prev with Some c => isword c | None => false end)
       (match s with c :: _ => isword c | [] => false end).

Fixpoint run_length (p : char -> bool) (s : str) : nat :=
  match s with
  | c :: s' => if p c then S (run_length p s') else O
  | [] => O
  end.

(** [hi, hi - 1, ..., lo]: the lengths a greedy repetition tries. *)
Definition countdown (hi lo : nat) : list nat := rev (List.seq lo (S hi - lo)).

(** The lengths an atom can consume at the head of [s], in the order the
    backtracking matcher tries them. *)
Definition atom_lengths (a : atom) (prev : option char) (s : str) : list nat :=
  match a with
  | Lit l => if startswith l s then [List.length l] else []
  | Alt alts => map (@List.length char) (filter (fun a => startswith a s) alts)
  | WordB => if at_boundary prev s then [O] else []
  | Digits1 => countdown (run_length isdigit s) 1
  | Spaces0 => countdown (run_length isspace s) 0
  end.

(** The code point before the position reached after [n] more code points. *)
Definition prev_after (n : nat) (prev : option char) (s : str) : option char :=
  match n with
  | O => prev
  | S k => nth_error s k
  end.

Fixpoint first_some {A B : Type} (f : A -> option B) (l : list A) : option B :=
  match l with
  | [] => None
  | x :: l' => match f x with
               | Some y => Some y
               | None => first_some f l'
               end
  end.

(** Length of the first match of a sequence of atoms at the head of [s]. *)
Fixpoint match_seq (atoms : list atom) (prev : option char) (s : str)
    : option nat :=
  match atoms with
  | [] => Some O
  | a :: rest =>
      first_some
        (fun n => option_map (Nat.add n)
                    (match_seq rest (prev_after n prev s) (skipn n s)))
        (atom_lengths a prev s)
  end.

Definition match_at (p : pattern) (prev : option char) (s : str) : option nat :=
  first_some (fun atoms => match_seq atoms prev s) p.

Fixpoint search_from (p : pattern) (prev : option char) (s : str) (i : Z)
    : option (Z * str) :=
  match match_at p prev s with
  | Some n => Some (i, firstn n s)
  | None =>
      match s with
      | [] => None
      | c :: s' => search_from p (Some c) s' (i + 1)
      end
  end.

(** [re.search(p, s)]: the leftmost match, as [(match.start(),
    match.group())]. *)
Definition search (p : pattern) (s : str) : option (Z * str) :=
  search_from p None s 0.

End PyRe.

(* ================================================================== *)
(** * nlp_engine.py *)
(* ================================================================== *)

Module nlp_engine.

Import PyDict PyNum PyRe.
Local Open Scope string_scope.
Local Open Scope list_scope.
Local Open Scope Z_scope.

(** A detected claim. *)
Record claim := {
  phrase : str;
  type : str;
  confidence : Q;
  position : Z;
  context : str
}.

(** A detected linguistic red flag. *)
Record red_flag := {
  pattern_text : str;      (** the key ["pattern"]: the matched text *)
  description : str;
  flag_position : Z
}.

(** The AI-generated-content assessment. *)
Record ai_risk := {
  risk : str;
  score : Z;
  indicators : list str
}.

(** The dictionary [extract_claims] returns. *)
Record extraction := {
  claims : list claim;
  red_flags : list red_flag;
  has_proof_markers : bool;
  claim_count : Z;
  is_ai_generated_risk : ai_risk
}.

(** Extract surrounding context for a detected claim phrase. *)
Definition _extract_context (text : str) (start length : Z) : str :=
  let window := 40 in
  let ctx_start := Z.max 0 (start - window) in
  let ctx_end := Z.min (len text) (start + length + window) in
  let snippet := slice text ctx_start ctx_end in
  if 0 <? ctx_start then u "..." ++ snippet ++ u "..."
  else snippet ++ u "...".

(** The patterns of [flag_descriptions], in the order of the dictionary. *)
Definition flag_descriptions : list (pattern * str) :=
  [ ([[WordB;
       Alt [u "our commitment to"; u "we are committed to"; u "we strive to";
            u "we aim to"];
       WordB]],
     u "Vague pledge without measurable target");
    ([[WordB; Alt [u "up to"; u "as much as"; u "can be"; u "may be"]; WordB]],
     u "Hedging language undermining claim strength");
    ([[WordB;
       Alt [u "greener"; u "more sustainable"; u "better for"; u "cleaner than"];
       WordB]],
     u "Unqualified comparative — no reference point given");
    ([[WordB;
       Alt [u "designed with"; u "made with"; u "crafted with"; u "inspired by"];
       Lit (u " nature"); WordB]],
     u "Nature-association language without substance");
    ([[WordB; Alt [u "responsibly"; u "thoughtfully"; u "carefully"];
       Lit (u " "); Alt [u "made"; u "sourced"; u "crafted"]; WordB]],
     u "Adverb-washing — adverb not backed by standard") ].

(** Detect linguistic patterns associated with greenwashing tactics. *)
Definition _detect_red_flags (text : str) : list red_flag :=
  let text_lower := lower text in
  flat_map
    (fun pd : pattern * str =>
       match search (fst pd) text_lower with
       | Some (start, group) =>
           [ {| pattern_text := group;
                description := snd pd;
                flag_position := start |} ]
       | None => []
       end)
    flag_descriptions.

Definition proof_markers : list str :=
  [ u "certificate"; u "certified"; u "certification"; u "verified by";
    u "audited by"; u "third-party"; u "third party"; u "iso "; u "fsc";
    u "pefc"; u "rainforest alliance"; u "carbon trust"; u "cites";
    u "registration number"; u "cert no"; u "license no" ].

(** Check if text contains any verifiable proof markers. *)
Definition _has_proof_markers (text_lower : str) : bool :=
  existsb (fun marker => contains marker text_lower) proof_markers.

Definition green_words : list str :=
  [ u "sustainable"; u "eco"; u "green"; u "natural"; u "organic";
    u "biodegradable"; u "renewable"; u "ethical"; u "responsible";
    u "conscious" ].

(** The pattern [\d+%|\d+\s*(kg|tonnes|hectares|km)]. *)
Definition numbers_pattern : pattern :=
  [ [Digits1; Lit (u "%")];
    [Digits1; Spaces0; Alt [u "kg"; u "tonnes"; u "hectares"; u "km"]] ].

(** The text of [f"{x:.1%}"], on the exact value of [x >= 0]. *)
Definition format_percent1 (x : Q) : str :=
  let tenths := round (x * 1000) in
  str_of_Z (tenths / 10) ++ u "." ++ str_of_Z (tenths mod 10) ++ u "%".

(** Heuristic assessment of whether text may be AI-generated greenwashing. *)
Definition _assess_ai_generated_risk (text : str) : ai_risk :=
  let words := split text in
  match words with
  | [] => {| risk := u "low"; score := 0; indicators := [] |}
  | _ =>
      let green_word_count :=
        len (filter (fun w => mem (lower w) green_words) words) in
      let density := true_div green_word_count (len words) in
      let '(score1, indicators1) :=
        if Qltb (8 # 100) density
        then (30, [u "High green keyword density ("
                   ++ format_percent1 density ++ u ")"])
        else (0, []) in
      let sentences := split_on 46%N text in
      let avg_len :=
        true_div (fold_right Z.add 0 (map (fun s => len (split s)) sentences))
                 (Z.max (len sentences) 1) in
      let '(score2, indicators2) :=
        if Qltb 15 avg_len && Qltb avg_len 22
        then (score1 + 20,
              indicators1 ++ [u "Unusually uniform sentence length pattern"])
        else (score1, indicators1) in
      let has_numbers :=
        match search numbers_pattern text with
        | Some _ => true
        | None => false
        end in
      let '(score3, indicators3) :=
        if negb has_numbers && (30 <? len words)
        then (score2 + 25,
              indicators2 ++ [u "No specific measurements or data points found"])
        else (score2, indicators2) in
      let risk_level :=
        if 50 <=? score3 then u "high"
        else if 25 <=? score3 then u "medium"
        else u "low" in
      {| risk := risk_level; score := score3; indicators := indicators3 |}
  end.

Section Extractor.

(** The taxonomy loaded from [greenwashing_keywords.json]: claim type to
    phrases, in file order. *)
Variable KEYWORDS : dict (list str).

Definition base_confidence (claim_type : str) : Q :=
  get_default [ (u "absolute", 92 # 100); (u "misleading", 85 # 100);
                (u "vague", 78 # 100) ]
              claim_type (75 # 100).

(** The body of the inner loop: [st] is [(detected, seen_phrases)]. *)
Definition extract_phrase (text text_lower claim_type : str)
    (st : list claim * list str) (phrase : str) : list claim * list str :=
  let '(detected, seen_phrases) := st in
  if contains (lower phrase) text_lower && negb (mem phrase seen_phrases) then
    let start_idx := find (lower phrase) text_lower in
    let position_boost : Q := if start_idx <? 50 then 5 # 100 else 0 # 1 in
    (detected ++
       [ {| phrase := phrase;
            type := claim_type;
            confidence :=
              round_to (fmin (base_confidence claim_type + position_boost)
                             (99 # 100)) 2;
            position := start_idx;
            context := _extract_context text start_idx (len phrase) |} ],
     phrase :: seen_phrases)
  else st.

(** Extract and classify environmental claims from product text. *)
Definition extract_claims (text : str) : extraction :=
  let text_lower := lower text in
  let '(detected, _) :=
    fold_left
      (fun st (kv : str * list str) =>
         fold_left (extract_phrase text text_lower (fst kv)) (snd kv) st)
      KEYWORDS ([], []) in
  let flags := _detect_red_flags text in
  let has_proof := _has_proof_markers text_lower in
  {| claims := detected;
     red_flags := flags;
     has_proof_markers := has_proof;
     claim_count := len detected;
     is_ai_generated_risk := _assess_ai_generated_risk text |}.

End Extractor.

End nlp_engine.

(* ================================================================== *)
(** * risk_scorer.py *)
(* ================================================================== *)

Module risk_scorer.

Import PyDict PyNum.
Local Open Scope string_scope.
Local Open Scope list_scope.
Local Open Scope Z_scope.

(** One entry of the SDG target table ([sdg15_targets.json]). *)
Record target_data := {
  label : str;
  severity : Q;
  keywords : list str
}.

(** What [_find_sdg_target] returns on a hit. *)
Record sdg_hit := {
  target : str;
  hit_label : str;
  hit_severity : Q
}.

(** One entry of [score_breakdown]. *)
Record breakdown_entry := {
  source : str;
  entry_type : str;        (** the key ["type"] *)
  points : Q;
  sdg_target : option str
}.

Record visibility := {
  action : str;
  adjustment : str;
  badge : str;
  badge_color : str;
  vis_description : str
}.

(** The dictionary [calculate_risk_score] returns. *)
Record risk_assessment := {
  risk_score : Z;
  verdict : str;
  sdg_targets_affected : list (str * target_data);
  score_breakdown : list breakdown_entry;
  visibility_impact : visibility;
  total_claims : Z;
  total_cert_failures : Z
}.

(** Base weights per claim type. *)
Definition CLAIM_WEIGHTS : dict Z :=
  [ (u "absolute", 40); (u "misleading", 30); (u "vague", 15) ].

(** Cert failure penalty weights. *)
Definition CERT_STATUS_PENALTIES : dict Z :=
  [ (u "NOT_FOUND", 25); (u "EXPIRED", 20); (u "SCOPE_MISMATCH", 15);
    (u "NO_CERTS_CLAIMED", 10) ].

(** Classify final verdict based on risk score. *)
Definition _classify_verdict (score : Z) : str :=
  if score <? 20 then u "VERIFIED"
  else if score <? 50 then u "REVIEW_REQUIRED"
  else u "GREENWASHED".

(** Calculate marketplace visibility impact based on risk score. *)
Definition _calculate_visibility_impact (score : Z) : visibility :=
  if score <? 20 then
    {| action := u "BOOST";
       adjustment := u "+25% search ranking";
       badge := u "✓ Verified Green Product";
       badge_color := u "green";
       vis_description :=
         u "Product eligible for verified sustainability badge and search promotion" |}
  else if score <? 50 then
    {| action := u "HOLD";
       adjustment := u "No ranking change — pending review";
       badge := u "⚠ Under Review";
       badge_color := u "amber";
       vis_description :=
         u "Product listing held pending seller clarification or certification submission" |}
  else
    {| action := u "DEMOTE";
       adjustment := u "-40% search ranking";
       badge := u "✗ Unverified Claims";
       badge_color := u "red";
       vis_description :=
         u "Product demoted in search results until claims are verified or removed" |}.

Section Scorer.

(** The table loaded from [sdg15_targets.json]: target id to target data,
    in file order. *)
Variable SDG_TARGETS : dict target_data.

(** Find the SDG 15 target most relevant to a detected claim phrase. *)
Definition _find_sdg_target (phrase : str) : option sdg_hit :=
  let phrase_lower := lower phrase in
  PyRe.first_some
    (fun kv : str * target_data =>
       let '(target_id, data) := kv in
       if existsb
            (fun keyword =>
               contains (lower keyword) phrase_lower
               || contains phrase_lower (lower keyword))
            (keywords data)
       then Some {| target := target_id;
                    hit_label := label data;
                    hit_severity := severity data |}
       else None)
    SDG_TARGETS.

(** The running state of the scorer: [(score, breakdown, sdg_flags)]. *)
Definition scoring : Type :=
  (Q * list breakdown_entry * dict target_data)%type.

(** 1. Score each detected claim. *)
Definition score_claim (st : scoring) (c : nlp_engine.claim) : scoring :=
  let '(score, breakdown, sdg_flags) := st in
  let base := get_default CLAIM_WEIGHTS (nlp_engine.type c) 10 in
  let hit := _find_sdg_target (nlp_engine.phrase c) in
  let multiplier : Q :=
    match hit with Some h => hit_severity h | None => 1%Q end in
  let claim_score := (inject_Z base * multiplier)%Q in
  let entry :=
    {| source := u "Claim: '" ++ nlp_engine.phrase c ++ u "'";
       entry_type := nlp_engine.type c;
       points := round_to claim_score 1;
       sdg_target := option_map target hit |} in
  let sdg_flags' :=
    match hit with
    | Some h =>
        if has_key sdg_flags (target h) then sdg_flags
        else
          match get SDG_TARGETS (target h) with
          | Some data => set sdg_flags (target h) data
          | None => sdg_flags
          end
    | None => sdg_flags
    end in
  ((score + claim_score)%Q, breakdown ++ [entry], sdg_flags').

(** 2. Penalise for failed certificates, with the penalties of [table]. *)
Definition score_cert (table : dict Z) (st : Q * list breakdown_entry)
    (c : cert_matcher.cert_result) : Q * list breakdown_entry :=
  let '(score, breakdown) := st in
  let penalty := get_default table (cert_matcher.status c) 0 in
  if 0 <? penalty then
    ((score + inject_Z penalty)%Q,
     breakdown ++
       [ {| source := u "Certificate: " ++ cert_matcher.cert c ++ u " — "
                      ++ cert_matcher.status c;
            entry_type := u "cert_failure";
            points := inject_Z penalty;
            sdg_target := None |} ])
  else st.

(** The first five steps of [calculate_risk_score]: the accumulated score,
    the breakdown and the SDG flags, with the table of certificate
    penalties as an argument. *)
Definition accumulate (table : dict Z)
    (claims : list nlp_engine.claim)
    (cert_results : list cert_matcher.cert_result)
    (red_flags : list nlp_engine.red_flag)
    (has_proof_markers : bool)
    (ai_generated_risk : nlp_engine.ai_risk) : scoring :=
  let '(score1, breakdown1, sdg_flags) :=
    fold_left score_claim claims (0 # 1, [], []) in
  let '(score2, breakdown2) :=
    fold_left (score_cert table) cert_results (score1, breakdown1) in
  (* 3. Penalise for no proof markers when claims exist *)
  let '(score3, breakdown3) :=
    if negb has_proof_markers && (0 <? len claims) then
      ((score2 + 10)%Q,
       breakdown2 ++
         [ {| source := u "No verifiable proof markers found in description";
              entry_type := u "missing_proof";
              points := 10%Q;
              sdg_target := None |} ])
    else (score2, breakdown2) in
  (* 4. Penalise for linguistic red flags *)
  let '(score4, breakdown4) :=
    if 0 <? len red_flags then
      let flag_penalty := Z.min (len red_flags * 5) 20 in
      ((score3 + inject_Z flag_penalty)%Q,
       breakdown3 ++
         [ {| source := str_of_Z (len red_flags)
                        ++ u " linguistic red flag(s) detected";
              entry_type := u "linguistic_flags";
              points := inject_Z flag_penalty;
              sdg_target := None |} ])
    else (score3, breakdown3) in
  (* 5. AI-generated content risk boost *)
  let ai_boost :=
    get_default [ (u "high", 15); (u "medium", 8); (u "low", 0) ]
                (nlp_engine.risk ai_generated_risk) 0 in
  if 0 <? ai_boost then
    ((score4 + inject_Z ai_boost)%Q,
     breakdown4 ++
       [ {| source := u "Possible AI-generated greenwashing content detected";
            entry_type := u "ai_generated_risk";
            points := inject_Z ai_boost;
            sdg_target := None |} ],
     sdg_flags)
  else (score4, breakdown4, sdg_flags).

(** [calculate_risk_score] with the table of certificate penalties as an
    argument. *)
Definition calculate_risk_score_with (table : dict Z)
    (claims : list nlp_engine.claim)
    (cert_results : list cert_matcher.cert_result)
    (red_flags : list nlp_engine.red_flag)
    (has_proof_markers : bool)
    (ai_generated_risk : nlp_engine.ai_risk) : risk_assessment :=
  let '(score, breakdown, sdg_flags) :=
    accumulate table claims cert_results red_flags has_proof_markers
               ai_generated_risk in
  let final_score := Z.min (round score) 100 in
  {| risk_score := final_score;
     verdict := _classify_verdict final_score;
     sdg_targets_affected := sdg_flags;
     score_breakdown := breakdown;
     visibility_impact := _calculate_visibility_impact final_score;
     total_claims := len claims;
     total_cert_failures :=
       len (filter (fun c => negb (eqb (cert_matcher.status c)
                                       cert_matcher.VERIFIED))
                   cert_results) |}.

(** Calculate comprehensive greenwashing risk score (0-100). *)
Definition calculate_risk_score :=
  calculate_risk_score_with CERT_STATUS_PENALTIES.

(** The points of one claim, in the words of the specification: the base
    weight of its type times the severity of the first SDG target hit. *)
Definition spec_claim_points (c : nlp_engine.claim) : Q :=
  let t := nlp_engine.type c in
  let base :=
    if eqb t (u "absolute") then 40
    else if eqb t (u "misleading") then 30
    else if eqb t (u "vague") then 15
    else 10 in
  Qmult (inject_Z base)
        match _find_sdg_target (nlp_engine.phrase c) with
        | Some h => hit_severity h
        | None => 1%Q
        end.

(** The penalty of one certificate result, in the words of the
    specification. *)
Definition spec_cert_points (c : cert_matcher.cert_result) : Z :=
  let s := cert_matcher.status c in
  if eqb s (u "NOT_FOUND") then 25
  else if eqb s (u "EXPIRED") then 20
  else if eqb s (u "SCOPE_MISMATCH") then 15
  else if eqb s (u "NO_CERTS_CLAIMED") then 10
  else 0.

(** The score before rounding, in the words of the specification: the sum
    of the contributions of its five kinds. *)
Definition spec_accumulated_score
    (claims : list nlp_engine.claim)
    (cert_results : list cert_matcher.cert_result)
    (red_flags : list nlp_engine.red_flag)
    (has_proof_markers : bool)
    (ai_generated_risk : nlp_engine.ai_risk) : Q :=
  let r := nlp_engine.risk ai_generated_risk in
  Qplus
    (fold_right Qplus (0 # 1) (map spec_claim_points claims))
    (inject_Z
       (fold_right Z.add 0 (map spec_cert_points cert_results)
        + (if negb has_proof_markers && negb (len claims =? 0) then 10 else 0)
        + Z.min (5 * len red_flags) 20
        + (if eqb r (u "high") then 15
           else if eqb r (u "medium") then 8 else 0))).

End Scorer.

End risk_scorer.

(* ================================================================== *)
(** * predictive_engine.py *)
(* ================================================================== *)

Module predictive_engine.

Import PyDict PyNum.
Local Open Scope string_scope.
Local Open Scope list_scope.
Local Open Scope Z_scope.

(** One entry of [SUBMISSION_HISTORY]. *)
Record entry := {
  e_company : str;
  product : str;
  verdict : str;
  risk_score : Z;
  claim_count : Z;
  timestamp : str;
  claim_phrases : list str
}.

(** The value under ["recurring_phrases"]: a [defaultdict(int)] when the
    profile is created, the plain [dict] that line 64 puts in its place at
    the end of every update. *)
Inductive phrase_counts :=
| DefaultDict (d : dict Z)
| PlainDict (d : dict Z).

Definition counts (pc : phrase_counts) : dict Z :=
  match pc with
  | DefaultDict d => d
  | PlainDict d => d
  end.

(** A seller profile.  The key ["avg_risk_score"] is absent until the
    first update reaches line 63. *)
Record profile := {
  company : str;
  total_submissions : Z;
  greenwashed_count : Z;
  review_count : Z;
  verified_count : Z;
  total_risk_score : Z;
  recurring_phrases : phrase_counts;
  first_seen : str;
  last_seen : str;
  alert_level : str;
  avg_risk_score : option Z
}.

(** The module state. *)
Record ledger := {
  SUBMISSION_HISTORY : list entry;
  SELLER_PROFILES : dict profile
}.

Definition empty_ledger : ledger :=
  {| SUBMISSION_HISTORY := []; SELLER_PROFILES := [] |}.

(** [profile["recurring_phrases"][phrase] += 1]: a [defaultdict(int)]
    starts a missing key at 0, a plain [dict] raises [KeyError]. *)
Definition incr_phrase (pc : phrase_counts) (phrase : str)
    : result phrase_counts :=
  match pc with
  | DefaultDict d => Ok (DefaultDict (set d phrase (get_default d phrase 0 + 1)))
  | PlainDict d =>
      match get d phrase with
      | Some c => Ok (PlainDict (set d phrase (c + 1)))
      | None => Raise (KeyError phrase)
      end
  end.

(** The loop of lines 58-59: the counts when the loop ends, and the
    exception when it ends by one. *)
Fixpoint incr_phrases (pc : phrase_counts) (phrases : list str)
    : phrase_counts * option exn :=
  match phrases with
  | [] => (pc, None)
  | phrase :: rest =>
      match incr_phrase pc phrase with
      | Ok pc' => incr_phrases pc' rest
      | Raise e => (pc, Some e)
      end
  end.

(** Compute seller alert level based on recidivism pattern. *)
Definition _compute_alert_level (p : profile) : str :=
  let greenwash_rate :=
    true_div (greenwashed_count p) (Z.max (total_submissions p) 1) in
  if Qleb (6 # 10) greenwash_rate || (3 <=? greenwashed_count p) then u "HIGH"
  else if Qleb (3 # 10) greenwash_rate || (2 <=? greenwashed_count p)
       then u "MEDIUM"
  else u "LOW".

(** Update cumulative seller risk profile.  Returns the profiles as the
    call leaves them, also when it raises. *)
Definition _update_seller_profile (profiles : dict profile) (company_name : str)
    (e : entry) : dict profile * result unit :=
  let p0 :=
    match get profiles company_name with
    | Some p => p
    | None =>
        {| company := company_name;
           total_submissions := 0;
           greenwashed_count := 0;
           review_count := 0;
           verified_count := 0;
           total_risk_score := 0;
           recurring_phrases := DefaultDict [];
           first_seen := timestamp e;
           last_seen := timestamp e;
           alert_level := u "LOW";
           avg_risk_score := None |}
    end in
  let is_greenwashed := eqb (verdict e) (u "GREENWASHED") in
  let is_review := negb is_greenwashed && eqb (verdict e) (u "REVIEW_REQUIRED") in
  let is_verified := negb is_greenwashed && negb is_review in
  let '(phrases, raised) :=
    incr_phrases (recurring_phrases p0) (claim_phrases e) in
  (* lines 47-59 *)
  let p1 :=
    {| company := company p0;
       total_submissions := total_submissions p0 + 1;
       greenwashed_count :=
         greenwashed_count p0 + (if is_greenwashed then 1 else 0);
       review_count := review_count p0 + (if is_review then 1 else 0);
       verified_count := verified_count p0 + (if is_verified then 1 else 0);
       total_risk_score := total_risk_score p0 + risk_score e;
       recurring_phrases := phrases;
       first_seen := first_seen p0;
       last_seen := timestamp e;
       alert_level := alert_level p0;
       avg_risk_score := avg_risk_score p0 |} in
  match raised with
  | Some ex => (set profiles company_name p1, Raise ex)
  | None =>
      (* line 62 *)
      let level := _compute_alert_level p1 in
      let p2 :=
        {| company := company p1;
           total_submissions := total_submissions p1;
           greenwashed_count := greenwashed_count p1;
           review_count := review_count p1;
           verified_count := verified_count p1;
           total_risk_score := total_risk_score p1;
           recurring_phrases := recurring_phrases p1;
           first_seen := first_seen p1;
           last_seen := last_seen p1;
           alert_level := level;
           avg_risk_score := avg_risk_score p1 |} in
      if total_submissions p1 =? 0
      then (set profiles company_name p2, Raise ZeroDivisionError)
      else
        (* lines 63-64 *)
        let p3 :=
          {| company := company p2;
             total_submissions := total_submissions p2;
             greenwashed_count := greenwashed_count p2;
             review_count := review_count p2;
             verified_count := verified_count p2;
             total_risk_score := total_risk_score p2;
             recurring_phrases := PlainDict (counts (recurring_phrases p2));
             first_seen := first_seen p2;
             last_seen := last_seen p2;
             alert_level := alert_level p2;
             avg_risk_score :=
               Some (round (true_div (total_risk_score p2)
                                     (total_submissions p2))) |} in
        (set profiles company_name p3, Ok tt)
  end.

(** Record a product submission for recidivism tracking.  [now] is the
    text of [datetime.now().isoformat()] at the call. *)
Definition record_submission (L : ledger) (now : str)
    (company_name product_name verdict_name : str) (score : Z)
    (claims : list nlp_engine.claim) : ledger * result unit :=
  let e :=
    {| e_company := company_name;
       product := product_name;
       verdict := verdict_name;
       risk_score := score;
       claim_count := len claims;
       timestamp := now;
       claim_phrases := map nlp_engine.phrase claims |} in
  let history := SUBMISSION_HISTORY L ++ [e] in
  let '(profiles, outcome) :=
    _update_seller_profile (SELLER_PROFILES L) company_name e in
  ({| SUBMISSION_HISTORY := history; SELLER_PROFILES := profiles |}, outcome).

(** The placeholder of [get_seller_risk_profile]. *)
Record placeholder := {
  ph_company : str;
  ph_total_submissions : Z;
  ph_alert_level : str;
  message : str
}.

(** Get risk profile for a specific seller. *)
Definition get_seller_risk_profile (L : ledger) (company_name : str)
    : profile + placeholder :=
  match get (SELLER_PROFILES L) company_name with
  | Some p => inl p
  | None =>
      inr {| ph_company := company_name;
             ph_total_submissions := 0;
             ph_alert_level := u "LOW";
             message := u "No prior submission history found" |}
  end.

(** Generate recommended regulatory action based on alert level. *)
Definition _recommend_action (p : profile) : str :=
  if eqb (alert_level p) (u "HIGH") then
    u "Escalate for formal investigation — pattern of repeated greenwashing detected"
  else if eqb (alert_level p) (u "MEDIUM") then
    u "Issue warning notice and require certification submission within 14 days"
  else u "Monitor — flag for review if next submission is also non-compliant".

(** [sorted(l, key=..., reverse=True)]: descending by key, elements of
    equal key in their original order.  [ltb a b] says that the key of
    [a] is below the key of [b]. *)
Section Sorted.
Context {A : Type} (ltb : A -> A -> bool).

Fixpoint insert_desc (x : A) (l : list A) : list A :=
  match l with
  | [] => [x]
  | y :: l' => if ltb x y then y :: insert_desc x l' else x :: l
  end.

Definition sorted_desc (l : list A) : list A := fold_right insert_desc [] l.

End Sorted.

(** One entry of the early-alert list. *)
Record alert := {
  a_company : str;
  a_alert_level : str;
  a_greenwashed_count : Z;
  a_total_submissions : Z;
  a_avg_risk_score : Z;
  recurring_patterns : list (str * Z);   (** phrase, occurrences *)
  recommended_action : str;
  a_last_seen : str
}.

(** The alert of one profile (lines 94-109). *)
Definition alert_of (company_name : str) (p : profile) : alert :=
  let recurring :=
    firstn 3
      (sorted_desc (fun a b : str * Z => snd a <? snd b)
         (filter (fun pc : str * Z => 1 <? snd pc)
                 (counts (recurring_phrases p)))) in
  {| a_company := company_name;
     a_alert_level := alert_level p;
     a_greenwashed_count := greenwashed_count p;
     a_total_submissions := total_submissions p;
     a_avg_risk_score :=
       match avg_risk_score p with Some a => a | None => 0 end;
     recurring_patterns := recurring;
     recommended_action := _recommend_action p;
     a_last_seen := last_seen p |}.

(** The order of the sort key [(alert_level == "HIGH", greenwashed_count)]. *)
Definition alert_key_ltb (a b : alert) : bool :=
  let ha := eqb (a_alert_level a) (u "HIGH") in
  let hb := eqb (a_alert_level b) (u "HIGH") in
  (negb ha && hb)
  || (Bool.eqb ha hb && (a_greenwashed_count a <? a_greenwashed_count b)).

(** Get list of high-risk sellers for regulator early alert dashboard. *)
Definition get_early_alerts (L : ledger) : list alert :=
  let alerts :=
    flat_map
      (fun kv : str * profile =>
         if mem (alert_level (snd kv)) [u "HIGH"; u "MEDIUM"]
         then [alert_of (fst kv) (snd kv)]
         else [])
      (SELLER_PROFILES L) in
  sorted_desc alert_key_ltb alerts.

(** Return all submission history for regulator audit log. *)
Definition get_all_submissions (L : ledger) : list entry :=
  rev (SUBMISSION_HISTORY L).

(** The dictionary [get_platform_stats] returns. *)
Record platform_stats := {
  total_scanned : Z;
  greenwashed : Z;
  under_review : Z;
  verified : Z;
  high_risk_sellers : Z;
  stats_avg_risk_score : Z
}.

(** [verdicts.count(v)]. *)
Definition count_verdict (v : str) (history : list entry) : Z :=
  len (filter (fun s => eqb s v) (map verdict history)).

(** Aggregate stats for regulator dashboard. *)
Definition get_platform_stats (L : ledger) : platform_stats :=
  match SUBMISSION_HISTORY L with
  | [] =>
      {| total_scanned := 0; greenwashed := 0; under_review := 0;
         verified := 0; high_risk_sellers := 0; stats_avg_risk_score := 0 |}
  | _ =>
      let history := SUBMISSION_HISTORY L in
      {| total_scanned := len history;
         greenwashed := count_verdict (u "GREENWASHED") history;
         under_review := count_verdict (u "REVIEW_REQUIRED") history;
         verified := count_verdict (u "VERIFIED") history;
         high_risk_sellers :=
           len (filter (fun kv : str * profile =>
                          eqb (alert_level (snd kv)) (u "HIGH"))
                       (SELLER_PROFILES L));
         stats_avg_risk_score :=
           round (true_div (fold_right Z.add 0 (map risk_score history))
                           (len history)) |}
  end.

End predictive_engine.

(* ================================================================== *)
(** * Sequences of submissions *)
(* ================================================================== *)

Module History.

Import predictive_engine.

(** The arguments of one call of [record_submission], with the clock
    reading of the call. *)
Record submission := {
  s_now : str;
  s_company : str;
  s_product : str;
  s_verdict : str;
  s_score : Z;
  s_claims : list nlp_engine.claim
}.

(** One call of [record_submission]. *)
Definition submit (L : ledger) (s : submission) : ledger * result unit :=
  record_submission L (s_now s) (s_company s) (s_product s) (s_verdict s)
    (s_score s) (s_claims s).

(** The ledger after a sequence of calls from the empty ledger; a call
    that raises leaves the ledger as it was at the exception, and the
    calls after it go on from there. *)
Definition ledger_after (subs : list submission) : ledger :=
  fold_left (fun L s => fst (submit L s)) subs empty_ledger.

(** The outcome of the last call of a sequence of calls. *)
Definition last_outcome (subs : list submission) : result unit :=
  match rev subs with
  | [] => Ok tt
  | s :: before => snd (submit (ledger_after (rev before)) s)
  end.

End History.

(* ================================================================== *)
(** * main.py *)
(* ================================================================== *)

Module main.

Import PyDict.
Local Open Scope string_scope.
Local Open Scope list_scope.
Local Open Scope Z_scope.

(** The request body of [/analyze]. *)
Record ProductSubmission := {
  company_name : str;
  product_title : str;
  product_description : str;
  product_category : str;
  claimed_certifications : list str
}.

(** The parts of the response of [/analyze]. *)
Record product_info := {
  title : str;
  company : str;
  category : str
}.

Record nlp_analysis := {
  claims_detected : list nlp_engine.claim;
  red_flags : list nlp_engine.red_flag;
  has_proof_markers : bool;
  ai_generated_risk : nlp_engine.ai_risk;
  claim_count : Z
}.

Record risk_part := {
  risk_score : Z;
  verdict : str;
  score_breakdown : list risk_scorer.breakdown_entry;
  visibility_impact : risk_scorer.visibility
}.

Record seller_history := {
  alert_level : str;
  prior_submissions : Z;
  prior_greenwash_count : Z
}.

Record analysis := {
  product : product_info;
  nlp : nlp_analysis;
  certificate_analysis : cert_matcher.verification;
  risk_assessment : risk_part;
  history : seller_history
}.

(** One warning of [/analyze-live]. *)
Record warning := {
  w_phrase : str;
  w_type : str;
  w_text : str
}.

Record live_result := {
  warnings : list warning;
  warning_count : Z;
  live_has_proof_markers : bool
}.

Definition _live_warning_message (claim_type : str) : str :=
  get_default
    [ (u "vague",
       u "Vague claim — consider adding a specific certified standard");
      (u "absolute",
       u "Absolute claim — requires third-party certification to substantiate");
      (u "misleading",
       u "Potentially misleading — must be backed by a recognized eco-label") ]
    claim_type
    (u "Environmental claim detected — verification recommended").

Section Routes.

(** The three data files, and the clock readings of one request:
    [date.today()] in the matcher and [datetime.now().isoformat()] in the
    ledger. *)
Variable KEYWORDS : dict (list str).
Variable REGISTRY : list cert_matcher.record.
Variable SDG_TARGETS : dict risk_scorer.target_data.
Variable today : PyDate.date.
Variable now : str.

(** Full greenwashing analysis pipeline.  [prior_profile] is the
    dictionary [get_seller_risk_profile] returns: for a seller with a
    profile it is the profile object of the ledger itself, which
    [record_submission] then updates in place, and the response is built
    after that call, so the three values of [seller_history] are read
    from the updated profile; for a seller without a profile it is the
    fresh placeholder, which has no ["greenwashed_count"].  A call of
    [record_submission] that raises ends the request without a response. *)
Definition analyze_product (L : predictive_engine.ledger)
    (submission : ProductSubmission)
    : predictive_engine.ledger * result analysis :=
  let full_text :=
    product_title submission ++ u ". " ++ product_description submission in
  (* Stage 1: NLP extraction *)
  let nlp_result := nlp_engine.extract_claims KEYWORDS full_text in
  let claims := nlp_engine.claims nlp_result in
  let flags := nlp_engine.red_flags nlp_result in
  let has_proof := nlp_engine.has_proof_markers nlp_result in
  let ai_risk := nlp_engine.is_ai_generated_risk nlp_result in
  (* Stage 2: Certificate verification *)
  let cert_result :=
    cert_matcher.verify_certificates REGISTRY today (company_name submission)
      (claimed_certifications submission) (product_category submission) in
  let cert_verifications := cert_matcher.verification_results cert_result in
  (* Stage 3: Risk scoring *)
  let risk :=
    risk_scorer.calculate_risk_score SDG_TARGETS claims cert_verifications
      flags has_proof ai_risk in
  (* Stage 5: Get prior seller profile for recidivism context *)
  let prior_profile :=
    predictive_engine.get_seller_risk_profile L (company_name submission) in
  (* Record this submission *)
  let '(L', outcome) :=
    predictive_engine.record_submission L now (company_name submission)
      (product_title submission) (risk_scorer.verdict risk)
      (risk_scorer.risk_score risk) claims in
  match outcome with
  | Raise e => (L', Raise e)
  | Ok _ =>
      let seen :=
        match prior_profile with
        | inl stored =>
            let p :=
              match get (predictive_engine.SELLER_PROFILES L')
                        (company_name submission) with
              | Some updated => updated
              | None => stored
              end in
            {| alert_level := predictive_engine.alert_level p;
               prior_submissions := predictive_engine.total_submissions p;
               prior_greenwash_count := predictive_engine.greenwashed_count p |}
        | inr fresh =>
            {| alert_level := predictive_engine.ph_alert_level fresh;
               prior_submissions := predictive_engine.ph_total_submissions fresh;
               prior_greenwash_count := 0 |}
        end in
      (L',
       Ok {| product :=
               {| title := product_title submission;
                  company := company_name submission;
                  category := product_category submission |};
             nlp :=
               {| claims_detected := claims;
                  red_flags := flags;
                  has_proof_markers := has_proof;
                  ai_generated_risk := ai_risk;
                  claim_count := nlp_engine.claim_count nlp_result |};
             certificate_analysis := cert_result;
             risk_assessment :=
               {| risk_score := risk_scorer.risk_score risk;
                  verdict := risk_scorer.verdict risk;
                  score_breakdown := risk_scorer.score_breakdown risk;
                  visibility_impact := risk_scorer.visibility_impact risk |};
             history := seen |})
  end.

(** Real-time claim interception as seller types. *)
Definition analyze_live (text : str) : live_result :=
  let nlp_result := nlp_engine.extract_claims KEYWORDS text in
  let claim_warnings :=
    map (fun c =>
           {| w_phrase := nlp_engine.phrase c;
              w_type := nlp_engine.type c;
              w_text := _live_warning_message (nlp_engine.type c) |})
        (nlp_engine.claims nlp_result) in
  let flag_warnings :=
    map (fun f =>
           {| w_phrase := nlp_engine.pattern_text f;
              w_type := u "linguistic_flag";
              w_text := nlp_engine.description f |})
        (nlp_engine.red_flags nlp_result) in
  let all := claim_warnings ++ flag_warnings in
  {| warnings := all;
     warning_count := len all;
     live_has_proof_markers := nlp_engine.has_proof_markers nlp_result |}.

(** [get_seller_risk_profile], [get_early_alerts], [get_all_submissions]
    and [get_platform_stats] are served as they are by the four read
    routes. *)

End Routes.

End main.

(* ================================================================== *)
(** * Vocabulary of the properties *)
(* ================================================================== *)

Section ScorerVocabulary.

Import PyDict risk_scorer.

(** The multipliers of the table are not negative. *)
Definition severities_nonneg (SDG_TARGETS : dict target_data) : Prop :=
  forall id data, In (id, data) SDG_TARGETS -> (0 <= severity data)%Q.

End ScorerVocabulary.

Section MatcherVocabulary.

Import PyDict PyDate cert_matcher.

(** A record matches a company and a certificate type when the two names
    agree after lower-casing. *)
Definition matches_ci (company_name cert_name : str) (r : record) : Prop :=
  lower (company r) = lower company_name
  /\ lower (cert_type r) = lower cert_name.

(** [r] is the first record of the registry, in its order, that matches. *)
Definition first_matching (REGISTRY : list record) (company_name cert_name : str)
    (r : record) : Prop :=
  exists pre post,
    REGISTRY = pre ++ r :: post
    /\ Forall (fun x => ~ matches_ci company_name cert_name x) pre
    /\ matches_ci company_name cert_name r.

(** The category is among the applicable categories of the record, both
    sides lower-cased. *)
Definition in_scope (category : str) (r : record) : Prop :=
  In (lower category) (map lower (applicable_categories r)).

(** Days from [today] to the expiry of the record. *)
Definition days_until_expiry (today : date) (r : record) : Z :=
  toordinal (expiry r) - toordinal today.

(** The statuses [_verify_single_cert] can give. *)
Definition per_cert_statuses : list str :=
  [NOT_FOUND; EXPIRED; SCOPE_MISMATCH; VERIFIED].

(** The penalty table without its entry for NO_CERTS_CLAIMED. *)
Definition penalties_without_no_certs_claimed : dict Z :=
  filter (fun kv : str * Z => negb (eqb (fst kv) NO_CERTS_CLAIMED))
         risk_scorer.CERT_STATUS_PENALTIES.

End MatcherVocabulary.

Section ExtractorVocabulary.

Import PyDict PyRe nlp_engine.

(** No phrase of the taxonomy is the empty string. *)
Definition no_empty_phrase (KEYWORDS : dict (list str)) : Prop :=
  forall claim_type phrases, In (claim_type, phrases) KEYWORDS -> ~ In [] phrases.

(** Number of tokens of the text. *)
Definition token_count (text : str) : Z := len (split text).

(** Number of tokens that are, lower-cased, in the green vocabulary. *)
Definition green_token_count (text : str) : Z :=
  len (filter (fun w => mem (lower w) green_words) (split text)).

(** Number of pieces of the text between full stops, and the number of
    tokens in all of them. *)
Definition sentence_count (text : str) : Z := len (split_on 46%N text).

Definition sentence_token_total (text : str) : Z :=
  fold_right Z.add 0 (map (fun s => len (split s)) (split_on 46%N text)).

(** The test of line 161: the pattern of the code is found in the text. *)
Definition has_measurement (text : str) : bool :=
  match search numbers_pattern text with
  | Some _ => true
  | None => false
  end.

(** The units of a measurement, in the words of the specification. *)
Definition measurement_units : list str :=
  [u "kg"; u "tonnes"; u "hectares"; u "km"].

(** In the words of the specification, a measurement at the head of a
    string: a number, one decimal digit or more, followed by [%] (a
    percentage) or, after any white space, by one of the units. *)
Definition begins_measurement (s : str) : Prop :=
  exists digits rest,
    s = digits ++ rest /\ digits <> []
    /\ Forall (fun c => isdigit c = true) digits
    /\ ((exists post, rest = u "%" ++ post)
        \/ exists ws unit post,
             rest = ws ++ unit ++ post
             /\ Forall (fun c => isspace c = true) ws
             /\ In unit measurement_units).

(** The text holds a percentage or a number with a unit. *)
Definition measured (text : str) : Prop :=
  exists pre s, text = pre ++ s /\ begins_measurement s.

(** The string does not hold U+0130. *)
Definition dotless (s : str) : Prop := ~ In 304%N s.

(** The lower case of a code point other than U+0130. *)
Definition lower1 (c : char) : char :=
  match lower_char c with
  | d :: _ => d
  | [] => c
  end.

(** All code points of the string are below 256. *)
Definition latin1 (s : str) : Prop := Forall (fun c => (c < 256)%N) s.

(** Every detected claim is a phrase of the taxonomy found in the
    lower-cased text, and its position is the offset found there. *)
Definition located (KEYWORDS : dict (list str)) (text_lower : str) (c : claim)
    : Prop :=
  (exists claim_type phrases,
      In (claim_type, phrases) KEYWORDS /\ In (phrase c) phrases)
  /\ 0 <= find (lower (phrase c)) text_lower
  /\ position c = find (lower (phrase c)) text_lower.

End ExtractorVocabulary.

Section LedgerVocabulary.

Import predictive_engine.

(** Every profile of the ledger holds its counts in a plain [dict]. *)
Definition plain_counts (L : ledger) : Prop :=
  forall k p, In (k, p) (SELLER_PROFILES L) ->
              exists d, recurring_phrases p = PlainDict d.

End LedgerVocabulary.

Section HistoryVocabulary.

Import PyDict predictive_engine History.

(** The entry [record_submission] appends for a call. *)
Definition entry_of (s : submission) : entry :=
  {| e_company := s_company s;
     product := s_product s;
     verdict := s_verdict s;
     risk_score := s_score s;
     claim_count := len (s_claims s);
     timestamp := s_now s;
     claim_phrases := map nlp_engine.phrase (s_claims s) |}.

(** The entries of a company in a history. *)
Definition entries_of (k : str) (history : list entry) : list entry :=
  filter (fun e => eqb (e_company e) k) history.

(** The profile a first submission starts from (lines 33-44). *)
Definition blank_profile (k : str) (e : entry) : profile :=
  {| company := k;
     total_submissions := 0;
     greenwashed_count := 0;
     review_count := 0;
     verified_count := 0;
     total_risk_score := 0;
     recurring_phrases := DefaultDict [];
     first_seen := timestamp e;
     last_seen := timestamp e;
     alert_level := u "LOW";
     avg_risk_score := None |}.

(** Number of times a phrase occurs in a list of phrases. *)
Definition occurrences (q : str) (phrases : list str) : Z :=
  len (filter (eqb q) phrases).

(** The count a profile holds for a phrase, 0 when it holds none. *)
Definition counted (p : profile) (q : str) : Z :=
  get_default (counts (recurring_phrases p)) q 0.

(** What the counters of a profile say about the entries of its company:
    the company has entries, and the counters are their number, the
    numbers of their verdicts, the sum of their scores and the times of
    the first and the last of them. *)
Definition summarises (p : profile) (k : str) (mine : list entry) : Prop :=
  mine <> []
  /\ company p = k
  /\ total_submissions p = len mine
  /\ greenwashed_count p = count_verdict (u "GREENWASHED") mine
  /\ review_count p = count_verdict (u "REVIEW_REQUIRED") mine
  /\ verified_count p
     = len mine - count_verdict (u "GREENWASHED") mine
       - count_verdict (u "REVIEW_REQUIRED") mine
  /\ total_risk_score p = fold_right Z.add 0 (map risk_score mine)
  /\ hd_error (map timestamp mine) = Some (first_seen p)
  /\ hd_error (rev (map timestamp mine)) = Some (last_seen p).

(** The ledger agrees with its history, company by company. *)
Definition consistent (L : ledger) : Prop :=
  forall k,
    match get (SELLER_PROFILES L) k with
    | None => entries_of k (SUBMISSION_HISTORY L) = []
    | Some p => summarises p k (entries_of k (SUBMISSION_HISTORY L))
    end.

(** The order of two entries of the early-alert list: a HIGH alert is
    not behind an alert of another level, and among alerts of one level
    the greenwashed counts do not go up. *)
Definition alert_order (a b : alert) : Prop :=
  (a_alert_level b = u "HIGH" -> a_alert_level a = u "HIGH")
  /\ (a_alert_level a = a_alert_level b ->
      a_greenwashed_count b <= a_greenwashed_count a).

(** The profile is at HIGH or at MEDIUM. *)
Definition alerting (p : profile) : Prop :=
  alert_level p = u "HIGH" \/ alert_level p = u "MEDIUM".

End HistoryVocabulary.

Section ScorerShapeVocabulary.

Import PyDict risk_scorer.

(** The certificate result costs points. *)
Definition penalised (c : cert_matcher.cert_result) : bool :=
  0 <? spec_cert_points c.

(** The SDG flags list each target once, are entries of the table, and
    are the targets the breakdown names. *)
Definition flags_follow_breakdown (SDG_TARGETS : dict target_data)
    (b : list breakdown_entry) (f : dict target_data) : Prop :=
  NoDup (map fst f)
  /\ (forall id, In id (map fst f)
                 <-> exists e, In e b /\ sdg_target e = Some id)
  /\ (forall id data, In (id, data) f -> get SDG_TARGETS id = Some data).

End ScorerShapeVocabulary.

Section ExtractionVocabulary.

Import PyDict PyRe nlp_engine.

(** What the extractor guarantees of one reported claim. *)
Definition reported (KEYWORDS : dict (list str)) (text : str) (c : claim)
    : Prop :=
  (exists phrases, In (type c, phrases) KEYWORDS /\ In (phrase c) phrases)
  /\ contains (lower (phrase c)) (lower text) = true
  /\ position c = find (lower (phrase c)) (lower text)
  /\ 0 <= position c
  /\ position c + len (lower (phrase c)) <= len (lower text)
  /\ (75 # 100 <= confidence c)%Q /\ (confidence c <= 99 # 100)%Q
  /\ context c = _extract_context text (position c) (len (phrase c)).

(** The state of the two loops: the claims so far are as reported, their
    phrases are the phrases seen, latest first, and no phrase is seen
    twice. *)
Definition extraction_state (KEYWORDS : dict (list str)) (text : str)
    (st : list claim * list str) : Prop :=
  Forall (reported KEYWORDS text) (fst st)
  /\ snd st = rev (map phrase (fst st))
  /\ NoDup (snd st).

(** The flags of a list of patterns with their descriptions. *)
Definition flags_of (text_lower : str) (patterns : list (pattern * str))
    : list red_flag :=
  flat_map
    (fun pd : pattern * str =>
       match search (fst pd) text_lower with
       | Some (start, group) =>
           [ {| pattern_text := group;
                description := snd pd;
                flag_position := start |} ]
       | None => []
       end)
    patterns.

(** The three indicators of the heuristic, on whole numbers. *)
Definition dense (text : str) : bool :=
  8 * token_count text <? 100 * green_token_count text.

Definition uniform (text : str) : bool :=
  (15 * sentence_count text <? sentence_token_total text)
  && (sentence_token_total text <? 22 * sentence_count text).

Definition bare (text : str) : bool :=
  negb (has_measurement text) && (30 <? token_count text).

End ExtractionVocabulary.

Section CalendarVocabulary.

Import PyDate.

(** Number of days of a month. *)
Definition days_in_month (y m : Z) : Z :=
  nth (Z.to_nat m) [0; 31; 28; 31; 30; 31; 30; 31; 31; 30; 31; 30; 31] 0
  + (if (m =? 2) && is_leap y then 1 else 0).

(** A date of the calendar, as [datetime.date] builds them. *)
Definition valid_date (d : date) : Prop :=
  1 <= year d /\ 1 <= month d <= 12
  /\ 1 <= day d <= days_in_month (year d) (month d).

End CalendarVocabulary.

(** Looks up the month tables at the months that are numerals. *)
Ltac table_lookup :=
  repeat match goal with
         | |- context [Z.to_nat ?k] =>
             let n := eval vm_compute in (Z.to_nat k) in
             change (Z.to_nat k) with n
         | H : context [Z.to_nat ?k] |- _ =>
             let n := eval vm_compute in (Z.to_nat k) in
             change (Z.to_nat k) with n in H
         end;
  cbn [nth Z.ltb Z.eqb Z.compare Pos.compare Pos.compare_cont Pos.eqb andb]
    in *.

Section PipelineVocabulary.

Import PyDict predictive_engine History.

(** The three data files the modules load. *)
Record data_files := {
  f_keywords : dict (list str);
  f_registry : list cert_matcher.record;
  f_sdg_targets : dict risk_scorer.target_data
}.

(** One request of [/analyze] with the two clock readings of its
    handling. *)
Record request := {
  r_today : PyDate.date;
  r_now : str;
  r_body : main.ProductSubmission
}.

Variable D : data_files.

(** The text the route extracts claims from. *)
Definition full_text (body : main.ProductSubmission) : str :=
  main.product_title body ++ u ". " ++ main.product_description body.

(** The claims the route extracts for a request (stage 1). *)
Definition extracted (q : request) : list nlp_engine.claim :=
  nlp_engine.claims
    (nlp_engine.extract_claims (f_keywords D) (full_text (r_body q))).

(** The risk assessment of a request (stages 1 to 3 of the route). *)
Definition assessed (q : request) : risk_scorer.risk_assessment :=
  let ex := nlp_engine.extract_claims (f_keywords D) (full_text (r_body q)) in
  let v := cert_matcher.verify_certificates (f_registry D) (r_today q)
             (main.company_name (r_body q))
             (main.claimed_certifications (r_body q))
             (main.product_category (r_body q)) in
  risk_scorer.calculate_risk_score (f_sdg_targets D) (nlp_engine.claims ex)
    (cert_matcher.verification_results v) (nlp_engine.red_flags ex)
    (nlp_engine.has_proof_markers ex) (nlp_engine.is_ai_generated_risk ex).

(** The call of [record_submission] that the route makes for a request. *)
Definition recorded (q : request) : submission :=
  {| s_now := r_now q;
     s_company := main.company_name (r_body q);
     s_product := main.product_title (r_body q);
     s_verdict := risk_scorer.verdict (assessed q);
     s_score := risk_scorer.risk_score (assessed q);
     s_claims := extracted q |}.

(** One request served by the route, and the ledger after a sequence of
    requests from the empty ledger. *)
Definition serve (L : ledger) (q : request) : ledger * result main.analysis :=
  main.analyze_product (f_keywords D) (f_registry D) (f_sdg_targets D)
    (r_today q) (r_now q) L (r_body q).

Definition served (reqs : list request) : ledger :=
  fold_left (fun L q => fst (serve L q)) reqs empty_ledger.

(** The phrase is listed by the taxonomy and occurs in the lower-cased
    text of the request. *)
Definition claimed_in (q : request) (p : str) : Prop :=
  exists claim_type phrases,
    In (claim_type, phrases) (f_keywords D) /\ In p phrases
    /\ contains (lower p) (lower (full_text (r_body q))) = true.

End PipelineVocabulary.

Section FirstSubmissionVocabulary.

Import PyDict predictive_engine.

(** The phrase counts of every profile have the phrases of the first
    entry of its company as keys, and no other. *)
Definition keys_of_first_entry (L : ledger) : Prop :=
  forall k p,
    get (SELLER_PROFILES L) k = Some p ->
    exists e rest,
      entries_of k (SUBMISSION_HISTORY L) = e :: rest
      /\ forall q, get (counts (recurring_phrases p)) q <> None
                   <-> In q (claim_phrases e).

End FirstSubmissionVocabulary.

Section TargetVocabulary.

Import risk_scorer.

(** The phrase and the target share a keyword: lower-cased, a keyword of
    the target occurs in the phrase or the phrase occurs in it. *)
Definition related (phrase : str) (data : target_data) : Prop :=
  exists keyword,
    In keyword (keywords data)
    /\ (contains (lower keyword) (lower phrase) = true
        \/ contains (lower phrase) (lower keyword) = true).

End TargetVocabulary.

(* ================================================================== *)
(** * Sample data *)
(* ================================================================== *)

Module Samples.

Import PyDate.
Local Open Scope string_scope.
Local Open Scope list_scope.
Local Open Scope Z_scope.

(** A table of SDG targets with two entries. *)
Definition sdg_table : PyDict.dict risk_scorer.target_data :=
  [ (u "15.2",
     {| risk_scorer.label := u "Sustainable forest management";
        risk_scorer.severity := 3 # 2;
        risk_scorer.keywords := [u "sustainably sourced"; u "deforestation"] |});
    (u "15.5",
     {| risk_scorer.label := u "Protect biodiversity";
        risk_scorer.severity := 13 # 10;
        risk_scorer.keywords := [u "wildlife"; u "eco-friendly"] |}) ].

(** A taxonomy with two claim types. *)
Definition keywords : PyDict.dict (list str) :=
  [ (u "absolute", [u "100% eco-friendly"; u "zero impact"]);
    (u "vague", [u "eco-friendly"; u "sustainably sourced"]) ].

Definition listing : str :=
  u "100% eco-friendly, sustainably sourced timber, up to 80% recycled".

(** A description of 34 tokens in one sentence, without any figure. *)
Definition brochure : str :=
  u "Our sustainable and natural range is crafted from organic and renewable materials by people who care about forests and rivers and want every home to feel closer to the green world around us all.".

(** The brochure followed by a sentence with two figures. *)
Definition data_sheet : str :=
  brochure ++ u " It holds 80% recycled fibre and saves 12 kg of wood.".

(** A text that starts with U+0130, LATIN CAPITAL LETTER I WITH DOT ABOVE. *)
Definition dotted_listing : str := 304%N :: u " eco-friendly".

Definition today : date := {| year := 2026; month := 11; day := 4 |}.

(** Three registry records.  GreenWood Ltd holds two FSC records: the
    first one expired, the second one valid and covering timber. *)
Definition fsc_expired : cert_matcher.record :=
  {| cert_matcher.company := u "GreenWood Ltd";
     cert_matcher.cert_type := u "FSC";
     cert_matcher.expiry := {| year := 2024; month := 6; day := 30 |};
     cert_matcher.applicable_categories := [u "timber"];
     cert_matcher.certificate_number := u "FSC-C000001";
     cert_matcher.issuing_body := u "FSC International" |}.

Definition fsc_valid : cert_matcher.record :=
  {| cert_matcher.company := u "greenwood ltd";
     cert_matcher.cert_type := u "fsc";
     cert_matcher.expiry := {| year := 2029; month := 1; day := 15 |};
     cert_matcher.applicable_categories := [u "timber"; u "paper"];
     cert_matcher.certificate_number := u "FSC-C000002";
     cert_matcher.issuing_body := u "FSC International" |}.

Definition pefc_timberline : cert_matcher.record :=
  {| cert_matcher.company := u "Timberline Co";
     cert_matcher.cert_type := u "PEFC";
     cert_matcher.expiry := {| year := 2027; month := 1; day := 10 |};
     cert_matcher.applicable_categories := [u "Timber"];
     cert_matcher.certificate_number := u "PEFC-22-31-07";
     cert_matcher.issuing_body := u "PEFC Council" |}.

Definition registry : list cert_matcher.record :=
  [fsc_expired; fsc_valid; pefc_timberline].

(** A claim as the ledger reads it: only the phrase matters there. *)
Definition claim_of (p : string) : nlp_engine.claim :=
  {| nlp_engine.phrase := u p;
     nlp_engine.type := u "vague";
     nlp_engine.confidence := 83 # 100;
     nlp_engine.position := 0;
     nlp_engine.context := u p ++ u "..." |}.

(** Three submissions of GreenWood Ltd, all judged GREENWASHED; the
    second one brings a phrase the first one did not have. *)
Definition greenwood : list History.submission :=
  [ {| History.s_now := u "2026-11-02T09:15:00";
       History.s_company := u "GreenWood Ltd";
       History.s_product := u "Bamboo Desk";
       History.s_verdict := u "GREENWASHED";
       History.s_score := 80;
       History.s_claims := [claim_of "eco-friendly"] |};
    {| History.s_now := u "2026-11-03T10:30:00";
       History.s_company := u "GreenWood Ltd";
       History.s_product := u "Oak Chair";
       History.s_verdict := u "GREENWASHED";
       History.s_score := 75;
       History.s_claims := [claim_of "eco-friendly"; claim_of "zero impact"] |};
    {| History.s_now := u "2026-11-04T11:45:00";
       History.s_company := u "GreenWood Ltd";
       History.s_product := u "Pine Shelf";
       History.s_verdict := u "GREENWASHED";
       History.s_score := 90;
       History.s_claims := [claim_of "zero impact"] |} ].

(** Two submissions of Timberline Co, the first one VERIFIED, the second
    one GREENWASHED with a new phrase, and then one of another seller. *)
Definition timberline : list History.submission :=
  [ {| History.s_now := u "2026-11-02T09:15:00";
       History.s_company := u "Timberline Co";
       History.s_product := u "Garden Bench";
       History.s_verdict := u "VERIFIED";
       History.s_score := 10;
       History.s_claims := [claim_of "eco-friendly"] |};
    {| History.s_now := u "2026-11-03T10:30:00";
       History.s_company := u "Timberline Co";
       History.s_product := u "Deck Tiles";
       History.s_verdict := u "GREENWASHED";
       History.s_score := 80;
       History.s_claims := [claim_of "zero impact"] |};
    {| History.s_now := u "2026-11-04T11:45:00";
       History.s_company := u "Paper Mill Inc";
       History.s_product := u "Notebook";
       History.s_verdict := u "VERIFIED";
       History.s_score := 5;
       History.s_claims := [] |} ].

(** The three tables as one set of data files, and a request of
    GreenWood Ltd for the listing. *)
Definition data : data_files :=
  {| f_keywords := keywords;
     f_registry := registry;
     f_sdg_targets := sdg_table |}.

Definition desk_request : request :=
  {| r_today := today;
     r_now := u "2026-11-04T11:45:00";
     r_body :=
       {| main.company_name := u "GreenWood Ltd";
          main.product_title := u "Bamboo Desk";
          main.product_description := listing;
          main.product_category := u "timber";
          main.claimed_certifications := [u "FSC"] |} |}.

End Samples.

(* ================================================================== *)
(** * Facts about strings, dictionaries and numbers *)
(* ================================================================== *)

Lemma eqb_eq (a b : str) : eqb a b = true <-> a = b.
Proof.
  revert b; induction a as [|c a IH]; intros [|d b]; simpl; split;
    try congruence; try reflexivity.
  - intros H. apply andb_true_iff in H as [Hc Hab].
    apply N.eqb_eq in Hc. apply IH in Hab. congruence.
  - intros H. injection H as -> ->. rewrite N.eqb_refl. simpl. now apply IH.
Qed.

Lemma eqb_refl (a : str) : eqb a a = true.
Proof. now apply eqb_eq. Qed.

Lemma eqb_neq (a b : str) : eqb a b = false <-> a <> b.
Proof.
  split.
  - intros H E. apply eqb_eq in E. congruence.
  - intros H. destruct (eqb a b) eqn:E; [apply eqb_eq in E; contradiction | reflexivity].
Qed.

Lemma mem_In (x : str) (l : list str) : mem x l = true <-> In x l.
Proof.
  unfold mem. rewrite existsb_exists. split.
  - intros [y [Hy E]]. apply eqb_eq in E. now subst.
  - intros H. exists x. split; [assumption | apply eqb_refl].
Qed.

Lemma mem_not_In (x : str) (l : list str) : mem x l = false <-> ~ In x l.
Proof.
  rewrite <- mem_In. destruct (mem x l); split; congruence.
Qed.

Lemma len_nonneg {A : Type} (l : list A) : 0 <= len l.
Proof. unfold len. lia. Qed.

Lemma len_zero {A : Type} (l : list A) : len l = 0 <-> l = [].
Proof.
  unfold len. destruct l; simpl; split; intros H; try reflexivity;
    try discriminate; lia.
Qed.

Lemma first_some_In {A B : Type} (f : A -> option B) (l : list A) (y : B) :
  PyRe.first_some f l = Some y -> exists x, In x l /\ f x = Some y.
Proof.
  induction l as [|x l IH]; simpl; [discriminate|].
  destruct (f x) eqn:E.
  - intros H. injection H as ->. exists x. auto.
  - intros H. destruct (IH H) as [x' [Hin Hx']]. exists x'. auto.
Qed.

Lemma round_nonneg (q : Q) : (0 <= q)%Q -> 0 <= PyNum.round q.
Proof.
  intros H. unfold PyNum.round. destruct q as [n d]. cbn [Qnum Qden].
  assert (Hn : 0 <= n) by (unfold Qle in H; cbn [Qnum Qden] in H; lia).
  assert (Hf : 0 <= n / Z.pos d) by (apply Z.div_pos; lia).
  destruct (2 * (n mod Z.pos d) <? Z.pos d); [lia|].
  destruct (Z.pos d <? 2 * (n mod Z.pos d)); [lia|].
  destruct (Z.even (n / Z.pos d)); lia.
Qed.

Lemma round_Qeq (p q : Q) : (p == q)%Q -> PyNum.round p = PyNum.round q.
Proof.
  intros H. unfold PyNum.round.
  destruct p as [n d], q as [m e]. unfold Qeq in H. cbn [Qnum Qden] in *.
  assert (Hdiv : n / Z.pos d = m / Z.pos e).
  { rewrite <- (Z.div_mul_cancel_r n (Z.pos d) (Z.pos e)) by lia.
    rewrite H. rewrite (Z.mul_comm (Z.pos d) (Z.pos e)).
    rewrite Z.div_mul_cancel_r by lia. reflexivity. }
  assert (Hmod : (n mod Z.pos d) * Z.pos e = (m mod Z.pos e) * Z.pos d).
  { rewrite !Z.mod_eq by lia. rewrite <- Hdiv.
    rewrite !Z.mul_sub_distr_r. rewrite H.
    f_equal. ring. }
  rewrite <- Hdiv.
  assert (H1 : (2 * (n mod Z.pos d) <? Z.pos d)
               = (2 * (m mod Z.pos e) <? Z.pos e)).
  { destruct (Z.ltb_spec (2 * (n mod Z.pos d)) (Z.pos d));
      destruct (Z.ltb_spec (2 * (m mod Z.pos e)) (Z.pos e));
      try reflexivity; exfalso; nia. }
  assert (H2 : (Z.pos d <? 2 * (n mod Z.pos d))
               = (Z.pos e <? 2 * (m mod Z.pos e))).
  { destruct (Z.ltb_spec (Z.pos d) (2 * (n mod Z.pos d)));
      destruct (Z.ltb_spec (Z.pos e) (2 * (m mod Z.pos e)));
      try reflexivity; exfalso; nia. }
  rewrite H1, H2. reflexivity.
Qed.

(* ================================================================== *)
(** * The risk scorer *)
(* ================================================================== *)

Lemma Qplus_nonneg (a b : Q) : (0 <= a -> 0 <= b -> 0 <= a + b)%Q.
Proof.
  intros Ha Hb. apply (Qle_trans _ (0 + 0)).
  - unfold Qle; simpl; lia.
  - now apply Qplus_le_compat.
Qed.

Section ScorerFacts.

Import PyDict PyNum risk_scorer.

Variable SDG_TARGETS : dict target_data.

Lemma claim_score_spec (c : nlp_engine.claim) :
  Qmult (inject_Z (get_default CLAIM_WEIGHTS (nlp_engine.type c) 10))
        match _find_sdg_target SDG_TARGETS (nlp_engine.phrase c) with
        | Some h => hit_severity h
        | None => 1%Q
        end
  = spec_claim_points SDG_TARGETS c.
Proof.
  unfold spec_claim_points, get_default, CLAIM_WEIGHTS. cbn [get].
  destruct (eqb (nlp_engine.type c) (u "absolute")); [reflexivity|].
  destruct (eqb (nlp_engine.type c) (u "misleading")); [reflexivity|].
  destruct (eqb (nlp_engine.type c) (u "vague")); reflexivity.
Qed.

Lemma find_sdg_target_severity (phrase : str) (h : sdg_hit) :
  _find_sdg_target SDG_TARGETS phrase = Some h ->
  exists id data, In (id, data) SDG_TARGETS /\ hit_severity h = severity data.
Proof.
  unfold _find_sdg_target. intros H.
  apply first_some_In in H as [[id data] [Hin Hf]].
  destruct (existsb _ (keywords data)); [|discriminate].
  injection Hf as <-. exists id, data. auto.
Qed.

Lemma spec_claim_points_nonneg (c : nlp_engine.claim) :
  severities_nonneg SDG_TARGETS -> (0 <= spec_claim_points SDG_TARGETS c)%Q.
Proof.
  intros Hsev. unfold spec_claim_points.
  apply Qmult_le_0_compat.
  - destruct (eqb _ _); [|destruct (eqb _ _); [|destruct (eqb _ _)]];
      unfold Qle; simpl; lia.
  - destruct (_find_sdg_target SDG_TARGETS (nlp_engine.phrase c)) as [h|] eqn:E.
    + apply find_sdg_target_severity in E as [id [data [Hin ->]]].
      exact (Hsev id data Hin).
    + unfold Qle; simpl; lia.
Qed.

Lemma sum_claim_points_nonneg (claims : list nlp_engine.claim) :
  severities_nonneg SDG_TARGETS ->
  (0 <= fold_right Qplus (0 # 1) (map (spec_claim_points SDG_TARGETS) claims))%Q.
Proof.
  intros Hsev. induction claims as [|c l IH]; simpl.
  - unfold Qle; simpl; lia.
  - apply Qplus_nonneg; [now apply spec_claim_points_nonneg | exact IH].
Qed.

Lemma score_claim_fst (st : scoring) (c : nlp_engine.claim) :
  fst (fst (score_claim SDG_TARGETS st c))
  = (fst (fst st) + spec_claim_points SDG_TARGETS c)%Q.
Proof.
  destruct st as [[s b] f]. unfold score_claim. cbn [fst].
  now rewrite claim_score_spec.
Qed.

Lemma fold_score_claim (claims : list nlp_engine.claim) (st : scoring) :
  (fst (fst (fold_left (score_claim SDG_TARGETS) claims st))
   == fst (fst st)
      + fold_right Qplus (0 # 1) (map (spec_claim_points SDG_TARGETS) claims))%Q.
Proof.
  revert st. induction claims as [|c l IH]; intros st;
    cbn [fold_left map fold_right].
  - ring.
  - rewrite IH, score_claim_fst. ring.
Qed.

Lemma cert_penalty_spec (c : cert_matcher.cert_result) :
  get_default CERT_STATUS_PENALTIES (cert_matcher.status c) 0
  = spec_cert_points c.
Proof.
  unfold spec_cert_points, get_default, CERT_STATUS_PENALTIES. cbn [get].
  destruct (eqb (cert_matcher.status c) (u "NOT_FOUND")); [reflexivity|].
  destruct (eqb (cert_matcher.status c) (u "EXPIRED")); [reflexivity|].
  destruct (eqb (cert_matcher.status c) (u "SCOPE_MISMATCH")); [reflexivity|].
  destruct (eqb (cert_matcher.status c) (u "NO_CERTS_CLAIMED")); reflexivity.
Qed.

Lemma spec_cert_points_nonneg (c : cert_matcher.cert_result) :
  0 <= spec_cert_points c.
Proof.
  unfold spec_cert_points.
  repeat (destruct (eqb _ _); [lia|]). lia.
Qed.

Lemma sum_cert_points_nonneg (l : list cert_matcher.cert_result) :
  0 <= fold_right Z.add 0 (map spec_cert_points l).
Proof.
  induction l as [|c l IH]; simpl; [lia|].
  pose proof (spec_cert_points_nonneg c). lia.
Qed.

Lemma score_cert_fst (st : Q * list breakdown_entry)
    (c : cert_matcher.cert_result) :
  (fst (score_cert CERT_STATUS_PENALTIES st c)
   == fst st + inject_Z (spec_cert_points c))%Q.
Proof.
  destruct st as [s b]. unfold score_cert. rewrite cert_penalty_spec.
  pose proof (spec_cert_points_nonneg c) as Hc.
  destruct (Z.ltb_spec 0 (spec_cert_points c)); cbn [fst].
  - reflexivity.
  - replace (spec_cert_points c) with 0 by lia. unfold inject_Z. ring.
Qed.

Lemma fold_score_cert (certs : list cert_matcher.cert_result)
    (st : Q * list breakdown_entry) :
  (fst (fold_left (score_cert CERT_STATUS_PENALTIES) certs st)
   == fst st + inject_Z (fold_right Z.add 0%Z (map spec_cert_points certs)))%Q.
Proof.
  revert st. induction certs as [|c l IH]; intros st;
    cbn [fold_left map fold_right].
  - unfold inject_Z. ring.
  - rewrite IH, score_cert_fst, inject_Z_plus. ring.
Qed.

(** The score the code accumulates is the sum of the specification. *)
Lemma accumulate_spec claims certs flags proof ai :
  (fst (fst (accumulate SDG_TARGETS CERT_STATUS_PENALTIES claims certs flags
                        proof ai))
   == spec_accumulated_score SDG_TARGETS claims certs flags proof ai)%Q.
Proof.
  unfold accumulate, spec_accumulated_score.
  pose proof (fold_score_claim claims (0 # 1, [], [])) as H1.
  destruct (fold_left (score_claim SDG_TARGETS) claims (0 # 1, [], []))
    as [[s1 b1] f1].
  pose proof (fold_score_cert certs (s1, b1)) as H2.
  destruct (fold_left (score_cert CERT_STATUS_PENALTIES) certs (s1, b1))
    as [s2 b2].
  cbn [fst] in H1, H2.
  pose proof (len_nonneg claims) as Hc.
  pose proof (len_nonneg flags) as Hf.
  assert (E3 : (0 <? len claims) = negb (len claims =? 0)).
  { destruct (Z.ltb_spec 0 (len claims)), (Z.eqb_spec (len claims) 0);
      simpl; try reflexivity; lia. }
  rewrite E3.
  set (p3 := negb proof && negb (len claims =? 0)).
  unfold get_default. cbn [get].
  rewrite !inject_Z_plus.
  destruct p3; destruct (Z.ltb_spec 0 (len flags));
    destruct (eqb (nlp_engine.risk ai) (u "high"));
    try destruct (eqb (nlp_engine.risk ai) (u "medium"));
    try destruct (eqb (nlp_engine.risk ai) (u "low"));
    cbn [fst Z.ltb Z.compare];
    rewrite ?H2, ?H1;
    try (replace (len flags) with 0 by lia);
    try (replace (len flags * 5) with (5 * len flags) by lia);
    cbn [Z.mul Z.min Z.compare]; unfold inject_Z; ring.
Qed.

Lemma spec_accumulated_score_nonneg claims certs flags proof ai :
  severities_nonneg SDG_TARGETS ->
  (0 <= spec_accumulated_score SDG_TARGETS claims certs flags proof ai)%Q.
Proof.
  intros Hsev. unfold spec_accumulated_score.
  apply Qplus_nonneg; [now apply sum_claim_points_nonneg|].
  pose proof (sum_cert_points_nonneg certs).
  pose proof (len_nonneg flags).
  change (0 # 1)%Q with (inject_Z 0). rewrite <- Zle_Qle.
  assert (0 <= Z.min (5 * len flags) 20) by lia.
  assert (0 <= (if negb proof && negb (len claims =? 0) then 10 else 0))
    by (destruct (negb proof && negb (len claims =? 0)); lia).
  assert (0 <= (if eqb (nlp_engine.risk ai) (u "high") then 15
                else if eqb (nlp_engine.risk ai) (u "medium") then 8 else 0))
    by (repeat (destruct (eqb _ _); [lia|]); lia).
  lia.
Qed.

End ScorerFacts.

Lemma verdict_words_distinct :
  u "VERIFIED" <> u "REVIEW_REQUIRED"
  /\ u "VERIFIED" <> u "GREENWASHED"
  /\ u "REVIEW_REQUIRED" <> u "GREENWASHED".
Proof. repeat split; vm_compute; discriminate. Qed.

(** Claim C2.  The returned [risk_score] is the rounded accumulated score
    clamped at 100, so at most 100, and the verdict is VERIFIED exactly
    below 20, REVIEW_REQUIRED exactly from 20 to 49 and GREENWASHED
    exactly from 50 on; with multipliers of the SDG table that are not
    negative every contribution is non-negative, so the accumulated score
    and the [risk_score] are at least 0 without a lower clamp. *)
Theorem risk_score_bounded_and_classified :
  forall (SDG_TARGETS : PyDict.dict risk_scorer.target_data)
         (claims : list nlp_engine.claim)
         (cert_results : list cert_matcher.cert_result)
         (red_flags : list nlp_engine.red_flag)
         (has_proof_markers : bool)
         (ai_generated_risk : nlp_engine.ai_risk),
    let r := risk_scorer.calculate_risk_score SDG_TARGETS claims cert_results
               red_flags has_proof_markers ai_generated_risk in
    let acc := risk_scorer.spec_accumulated_score SDG_TARGETS claims
                 cert_results red_flags has_proof_markers ai_generated_risk in
    risk_scorer.risk_score r = Z.min (PyNum.round acc) 100
    /\ risk_scorer.risk_score r <= 100
    /\ (risk_scorer.verdict r = u "VERIFIED" <-> risk_scorer.risk_score r < 20)
    /\ (risk_scorer.verdict r = u "REVIEW_REQUIRED"
        <-> 20 <= risk_scorer.risk_score r < 50)
    /\ (risk_scorer.verdict r = u "GREENWASHED"
        <-> 50 <= risk_scorer.risk_score r)
    /\ (severities_nonneg SDG_TARGETS ->
        (0 <= acc)%Q /\ 0 <= risk_scorer.risk_score r <= 100).
Proof.
  intros SDG claims certs flags proof ai r acc.
  pose proof (accumulate_spec SDG claims certs flags proof ai) as Hspec.
  fold acc in Hspec.
  assert (Hr : risk_scorer.risk_score r = Z.min (PyNum.round acc) 100
               /\ risk_scorer.verdict r
                  = risk_scorer._classify_verdict (risk_scorer.risk_score r)).
  { subst r. unfold risk_scorer.calculate_risk_score,
      risk_scorer.calculate_risk_score_with.
    destruct (risk_scorer.accumulate SDG risk_scorer.CERT_STATUS_PENALTIES
                claims certs flags proof ai) as [[s b] f].
    cbn [fst] in Hspec. cbn [risk_scorer.risk_score risk_scorer.verdict].
    rewrite (round_Qeq _ _ Hspec). split; reflexivity. }
  destruct Hr as [Hscore Hverdict].
  destruct verdict_words_distinct as [D1 [D2 D3]].
  split; [exact Hscore|]. split; [lia|].
  assert (Hlast : severities_nonneg SDG ->
                  (0 <= acc)%Q /\ 0 <= risk_scorer.risk_score r <= 100).
  { intros Hsev.
    pose proof (spec_accumulated_score_nonneg SDG claims certs flags proof ai
                  Hsev) as Hacc.
    fold acc in Hacc. pose proof (round_nonneg acc Hacc) as Hround.
    split; [exact Hacc | lia]. }
  rewrite Hverdict. unfold risk_scorer._classify_verdict.
  destruct (Z.ltb_spec (risk_scorer.risk_score r) 20);
    [|destruct (Z.ltb_spec (risk_scorer.risk_score r) 50)];
    repeat split; intros; try lia; try congruence; try (now apply Hlast).
Qed.

(** The theorem of claim C2 at the sample listing, with the sample table
    of SDG targets. *)
Lemma risk_score_bounded_and_classified_witness :
  let ex := nlp_engine.extract_claims Samples.keywords Samples.listing in
  let certs :=
    cert_matcher.verification_results
      (cert_matcher.verify_certificates Samples.registry Samples.today
         (u "GreenWood Ltd") [u "FSC"] (u "timber")) in
  let r := risk_scorer.calculate_risk_score Samples.sdg_table
             (nlp_engine.claims ex) certs (nlp_engine.red_flags ex)
             (nlp_engine.has_proof_markers ex)
             (nlp_engine.is_ai_generated_risk ex) in
  severities_nonneg Samples.sdg_table
  /\ 0 <= risk_scorer.risk_score r <= 100
  /\ (risk_scorer.verdict r = u "GREENWASHED" <-> 50 <= risk_scorer.risk_score r).
Proof.
  intros ex certs r.
  assert (Hsev : severities_nonneg Samples.sdg_table).
  { intros id data [H | [H | []]]; injection H as _ <-;
      unfold Qle; simpl; lia. }
  split; [exact Hsev|].
  pose proof (risk_score_bounded_and_classified Samples.sdg_table
                (nlp_engine.claims ex) certs (nlp_engine.red_flags ex)
                (nlp_engine.has_proof_markers ex)
                (nlp_engine.is_ai_generated_risk ex)) as H.
  cbv zeta in H. destruct H as [_ [_ [_ [_ [Hg Hnn]]]]].
  split; [exact (proj2 (Hnn Hsev)) | exact Hg].
Defined.

(* ================================================================== *)
(** * The certificate matcher *)
(* ================================================================== *)

Section MatcherFacts.

Import PyDict PyDate cert_matcher.

Lemma record_matches_iff company_name cert_name r :
  record_matches company_name cert_name r = true
  <-> matches_ci company_name cert_name r.
Proof.
  unfold record_matches, matches_ci.
  rewrite andb_true_iff, !eqb_eq. reflexivity.
Qed.

Lemma record_matches_false company_name cert_name r :
  record_matches company_name cert_name r = false
  <-> ~ matches_ci company_name cert_name r.
Proof.
  rewrite <- record_matches_iff.
  destruct (record_matches company_name cert_name r); split; congruence.
Qed.

Lemma filter_no_match (REGISTRY : list record) company_name cert_name :
  (forall r, In r REGISTRY -> ~ matches_ci company_name cert_name r) ->
  filter (record_matches company_name cert_name) REGISTRY = [].
Proof.
  induction REGISTRY as [|x l IH]; intros H; simpl; [reflexivity|].
  assert (Hx : record_matches company_name cert_name x = false)
    by (apply record_matches_false, H; now left).
  rewrite Hx. apply IH. intros r Hr. apply H. now right.
Qed.

Lemma filter_first_matching (REGISTRY : list record) company_name cert_name r :
  first_matching REGISTRY company_name cert_name r ->
  exists rest,
    filter (record_matches company_name cert_name) REGISTRY = r :: rest.
Proof.
  intros [pre [post [-> [Hpre Hr]]]].
  rewrite filter_app.
  rewrite (filter_no_match pre).
  - simpl. apply record_matches_iff in Hr. rewrite Hr. eauto.
  - intros x Hx. rewrite Forall_forall in Hpre. now apply Hpre.
Qed.

Lemma status_words_distinct :
  NOT_FOUND <> VERIFIED /\ EXPIRED <> VERIFIED /\ SCOPE_MISMATCH <> VERIFIED
  /\ NOT_FOUND <> NO_CERTS_CLAIMED /\ EXPIRED <> NO_CERTS_CLAIMED
  /\ SCOPE_MISMATCH <> NO_CERTS_CLAIMED /\ VERIFIED <> NO_CERTS_CLAIMED
  /\ SCOPE_MISMATCH <> NOT_FOUND /\ SCOPE_MISMATCH <> EXPIRED
  /\ NOT_FOUND <> EXPIRED.
Proof. repeat split; vm_compute; discriminate. Qed.

(** The four shapes of a verification result, by the first matching
    record. *)
Lemma verify_single_cert_cases (REGISTRY : list record) (today : date)
    (company_name cert_name category : str) :
  let res := _verify_single_cert REGISTRY today company_name cert_name category in
  match filter (record_matches company_name cert_name) REGISTRY with
  | [] =>
      status res = NOT_FOUND /\ severity res = u "high"
      /\ remediation res = Some (get_default CERT_GUIDANCE cert_name [])
  | r :: _ =>
      if PyDate.ltb (expiry r) today then
        status res = EXPIRED /\ severity res = u "high"
      else if mem (lower category) (map lower (applicable_categories r)) then
        status res = VERIFIED /\ severity res = u "none"
        /\ expiry_warning res
           = Some (if (0 <? days_until_expiry today r)
                      && (days_until_expiry today r <? 90)
                   then Some (u "Certificate expires in "
                              ++ str_of_Z (days_until_expiry today r)
                              ++ u " days — plan renewal soon")
                   else None)
      else status res = SCOPE_MISMATCH /\ severity res = u "medium"
  end.
Proof.
  unfold _verify_single_cert, days_until_expiry.
  destruct (filter (record_matches company_name cert_name) REGISTRY) as [|r rest].
  - cbn. auto.
  - destruct (PyDate.ltb (expiry r) today); [cbn; auto|].
    destruct (mem (lower category) (map lower (applicable_categories r)));
      cbn; auto.
Qed.

End MatcherFacts.

(** Claim C3.  The decision order of [_verify_single_cert]: NOT_FOUND
    (high) when no record matches case-insensitively; otherwise, by the
    first matching record, EXPIRED (high) when its expiry date is before
    today; else SCOPE_MISMATCH (medium) when the category is not among
    its applicable categories case-insensitively, as for a valid
    certificate for timber checked against textiles; else VERIFIED (none)
    with an [expiry_warning] that is not [None] exactly when the days
    until expiry are strictly between 0 and 90. *)
Theorem verification_decision_order :
  forall (REGISTRY : list cert_matcher.record) (today : PyDate.date)
         (company_name cert_name category : str),
    let res := cert_matcher._verify_single_cert REGISTRY today company_name
                 cert_name category in
    ((forall r, In r REGISTRY -> ~ matches_ci company_name cert_name r) ->
     cert_matcher.status res = cert_matcher.NOT_FOUND
     /\ cert_matcher.severity res = u "high")
    /\ (forall r, first_matching REGISTRY company_name cert_name r ->
          (PyDate.ltb (cert_matcher.expiry r) today = true ->
           cert_matcher.status res = cert_matcher.EXPIRED
           /\ cert_matcher.severity res = u "high")
          /\ (PyDate.ltb (cert_matcher.expiry r) today = false ->
              ~ in_scope category r ->
              cert_matcher.status res = cert_matcher.SCOPE_MISMATCH
              /\ cert_matcher.severity res = u "medium")
          /\ (PyDate.ltb (cert_matcher.expiry r) today = false ->
              cert_matcher.applicable_categories r = [u "timber"] ->
              category = u "textiles" ->
              cert_matcher.status res = cert_matcher.SCOPE_MISMATCH
              /\ cert_matcher.status res <> cert_matcher.VERIFIED)
          /\ (PyDate.ltb (cert_matcher.expiry r) today = false ->
              in_scope category r ->
              cert_matcher.status res = cert_matcher.VERIFIED
              /\ cert_matcher.severity res = u "none"
              /\ exists w, cert_matcher.expiry_warning res = Some w
                           /\ (w <> None <-> 0 < days_until_expiry today r < 90))).
Proof.
  intros REGISTRY today company_name cert_name category res.
  pose proof (verify_single_cert_cases REGISTRY today company_name cert_name
                category) as Hcases.
  cbv zeta in Hcases. fold res in Hcases.
  split.
  - intros Hnone. rewrite (filter_no_match _ _ _ Hnone) in Hcases.
    split; apply Hcases.
  - intros r Hfirst.
    destruct (filter_first_matching _ _ _ _ Hfirst) as [rest Hfilter].
    rewrite Hfilter in Hcases.
    assert (Hscope : forall c,
               mem (lower c) (map lower (cert_matcher.applicable_categories r))
               = false <-> ~ in_scope c r)
      by (intros c; apply mem_not_In).
    split; [|split; [|split]].
    + intros He. rewrite He in Hcases. split; apply Hcases.
    + intros He Hout. rewrite He in Hcases.
      apply Hscope in Hout. rewrite Hout in Hcases. split; apply Hcases.
    + intros He Hcat ->. rewrite He, Hcat in Hcases.
      destruct Hcases as [Hs _]. split; [exact Hs|].
      rewrite Hs. apply status_words_distinct.
    + intros He Hin. rewrite He in Hcases.
      apply mem_In in Hin. rewrite Hin in Hcases.
      destruct Hcases as [Hs [Hv Hw]].
      split; [exact Hs|]. split; [exact Hv|].
      eexists. split; [exact Hw|].
      destruct (Z.ltb_spec 0 (days_until_expiry today r));
        destruct (Z.ltb_spec (days_until_expiry today r) 90);
        cbn [andb]; split; intros Hx; try lia; try discriminate;
        exfalso; apply Hx; reflexivity.
Qed.

(** The theorem of claim C3 at the sample registry: the PEFC record of
    Timberline Co, 67 days before its expiry, verified for timber. *)
Lemma verification_decision_order_witness :
  let r := Samples.pefc_timberline in
  let res := cert_matcher._verify_single_cert Samples.registry Samples.today
               (u "timberline co") (u "pefc") (u "TIMBER") in
  first_matching Samples.registry (u "timberline co") (u "pefc") r
  /\ PyDate.ltb (cert_matcher.expiry r) Samples.today = false
  /\ in_scope (u "TIMBER") r
  /\ cert_matcher.status res = cert_matcher.VERIFIED
  /\ cert_matcher.severity res = u "none"
  /\ exists w, cert_matcher.expiry_warning res = Some w
               /\ (w <> None <-> 0 < days_until_expiry Samples.today r < 90).
Proof.
  intros r res.
  assert (Hfirst : first_matching Samples.registry (u "timberline co")
                     (u "pefc") r).
  { exists [Samples.fsc_expired; Samples.fsc_valid], [].
    split; [reflexivity|]. split.
    - repeat constructor; intros [H _]; vm_compute in H; discriminate.
    - split; reflexivity. }
  assert (Hvalid : PyDate.ltb (cert_matcher.expiry r) Samples.today = false)
    by reflexivity.
  assert (Hscope : in_scope (u "TIMBER") r) by (left; reflexivity).
  split; [exact Hfirst|]. split; [exact Hvalid|]. split; [exact Hscope|].
  exact (proj2 (proj2 (proj2
           (proj2 (verification_decision_order Samples.registry Samples.today
                     (u "timberline co") (u "pefc") (u "TIMBER"))
                  r Hfirst)))
           Hvalid Hscope).
Defined.

(** Claim C10.  With several matching records only the first one, in
    registry order, is inspected: the result is the result on the registry
    made of that record alone, so EXPIRED when it is expired and
    SCOPE_MISMATCH when it is valid but out of scope, whatever the later
    records are. *)
Theorem first_matching_record_decides :
  forall (pre post : list cert_matcher.record) (r : cert_matcher.record)
         (today : PyDate.date) (company_name cert_name category : str),
    Forall (fun x => ~ matches_ci company_name cert_name x) pre ->
    matches_ci company_name cert_name r ->
    let res := cert_matcher._verify_single_cert (pre ++ r :: post) today
                 company_name cert_name category in
    res = cert_matcher._verify_single_cert [r] today company_name cert_name
            category
    /\ (PyDate.ltb (cert_matcher.expiry r) today = true ->
        cert_matcher.status res = cert_matcher.EXPIRED)
    /\ (PyDate.ltb (cert_matcher.expiry r) today = false ->
        ~ in_scope category r ->
        cert_matcher.status res = cert_matcher.SCOPE_MISMATCH).
Proof.
  intros pre post r today company_name cert_name category Hpre Hr res.
  assert (Hfirst : first_matching (pre ++ r :: post) company_name cert_name r)
    by (exists pre, post; auto).
  split.
  - subst res. unfold cert_matcher._verify_single_cert.
    destruct (filter_first_matching _ _ _ _ Hfirst) as [rest ->].
    cbn [filter]. apply record_matches_iff in Hr. rewrite Hr. reflexivity.
  - pose proof (verify_single_cert_cases (pre ++ r :: post) today company_name
                  cert_name category) as Hcases.
    cbv zeta in Hcases. fold res in Hcases.
    destruct (filter_first_matching _ _ _ _ Hfirst) as [rest Hfilter].
    rewrite Hfilter in Hcases.
    split.
    + intros He. rewrite He in Hcases. apply Hcases.
    + intros He Hout. rewrite He in Hcases.
      apply mem_not_In in Hout. rewrite Hout in Hcases. apply Hcases.
Qed.

(** The theorem of claim C10 at the sample registry: GreenWood Ltd holds
    an expired FSC record followed by a valid one that covers timber, and
    the check of FSC for timber is EXPIRED. *)
Lemma first_matching_record_decides_witness :
  let r1 := Samples.fsc_expired in
  let r2 := Samples.fsc_valid in
  let res := cert_matcher._verify_single_cert Samples.registry Samples.today
               (u "GreenWood Ltd") (u "FSC") (u "timber") in
  matches_ci (u "GreenWood Ltd") (u "FSC") r1
  /\ matches_ci (u "GreenWood Ltd") (u "FSC") r2
  /\ PyDate.ltb (cert_matcher.expiry r2) Samples.today = false
  /\ in_scope (u "timber") r2
  /\ PyDate.ltb (cert_matcher.expiry r1) Samples.today = true
  /\ cert_matcher.status res = cert_matcher.EXPIRED.
Proof.
  intros r1 r2 res.
  assert (H1 : matches_ci (u "GreenWood Ltd") (u "FSC") r1)
    by (split; reflexivity).
  assert (He : PyDate.ltb (cert_matcher.expiry r1) Samples.today = true)
    by reflexivity.
  split; [exact H1|]. split; [split; reflexivity|].
  split; [reflexivity|]. split; [left; reflexivity|]. split; [exact He|].
  exact (proj1 (proj2
           (first_matching_record_decides []
              [Samples.fsc_valid; Samples.pefc_timberline] r1
              Samples.today (u "GreenWood Ltd") (u "FSC") (u "timber")
              (Forall_nil _) H1)) He).
Defined.

Section PipelineFacts.

Import PyDict cert_matcher.

Lemma verify_single_cert_status REGISTRY today company_name cert_name category :
  In (status (_verify_single_cert REGISTRY today company_name cert_name category))
     per_cert_statuses.
Proof.
  pose proof (verify_single_cert_cases REGISTRY today company_name cert_name
                category) as H.
  cbv zeta in H. unfold per_cert_statuses.
  destruct (filter (record_matches company_name cert_name) REGISTRY) as [|r rest].
  - destruct H as [-> _]. simpl; auto.
  - destruct (PyDate.ltb (expiry r) today).
    + destruct H as [-> _]. simpl; auto.
    + destruct (mem (lower category) (map lower (applicable_categories r)));
        destruct H as [-> _]; simpl; auto.
Qed.

Lemma verification_results_statuses REGISTRY today company_name claimed category :
  Forall (fun r => In (status r) per_cert_statuses)
         (verification_results
            (verify_certificates REGISTRY today company_name claimed category)).
Proof.
  unfold verify_certificates. cbn [verification_results].
  apply Forall_map, Forall_forall. intros c _.
  apply verify_single_cert_status.
Qed.

Lemma penalty_without_no_certs_claimed (s : str) :
  In s per_cert_statuses ->
  get_default risk_scorer.CERT_STATUS_PENALTIES s 0
  = get_default penalties_without_no_certs_claimed s 0.
Proof.
  intros [<- | [<- | [<- | [<- | []]]]]; reflexivity.
Qed.

Lemma fold_score_cert_without (certs : list cert_result)
    (st : Q * list risk_scorer.breakdown_entry) :
  Forall (fun r => In (status r) per_cert_statuses) certs ->
  fold_left (risk_scorer.score_cert risk_scorer.CERT_STATUS_PENALTIES) certs st
  = fold_left (risk_scorer.score_cert penalties_without_no_certs_claimed)
              certs st.
Proof.
  intros H. revert st. induction H as [|c l Hc Hl IH]; intros st;
    cbn [fold_left]; [reflexivity|].
  rewrite IH. f_equal. unfold risk_scorer.score_cert.
  destruct st as [s b]. now rewrite (penalty_without_no_certs_claimed _ Hc).
Qed.

End PipelineFacts.

(** Claim C5.  Every result of [verify_certificates] has one of the four
    statuses NOT_FOUND, EXPIRED, SCOPE_MISMATCH, VERIFIED, never
    NO_CERTS_CLAIMED, and on these results [calculate_risk_score] returns
    what it returns with the NO_CERTS_CLAIMED entry deleted from the
    penalty table: score and breakdown owe nothing to that entry. *)
Theorem no_certs_claimed_penalty_unreachable :
  forall (REGISTRY : list cert_matcher.record) (today : PyDate.date)
         (SDG_TARGETS : PyDict.dict risk_scorer.target_data)
         (company_name : str) (claimed_certs : list str) (category : str)
         (claims : list nlp_engine.claim) (red_flags : list nlp_engine.red_flag)
         (has_proof_markers : bool) (ai_generated_risk : nlp_engine.ai_risk),
    let results :=
      cert_matcher.verification_results
        (cert_matcher.verify_certificates REGISTRY today company_name
           claimed_certs category) in
    Forall (fun r => In (cert_matcher.status r) per_cert_statuses) results
    /\ Forall (fun r => cert_matcher.status r <> cert_matcher.NO_CERTS_CLAIMED)
              results
    /\ PyDict.get penalties_without_no_certs_claimed
                  cert_matcher.NO_CERTS_CLAIMED = None
    /\ risk_scorer.calculate_risk_score SDG_TARGETS claims results red_flags
         has_proof_markers ai_generated_risk
       = risk_scorer.calculate_risk_score_with SDG_TARGETS
           penalties_without_no_certs_claimed claims results red_flags
           has_proof_markers ai_generated_risk.
Proof.
  intros REGISTRY today SDG company_name claimed category claims flags proof ai
         results.
  pose proof (verification_results_statuses REGISTRY today company_name claimed
                category) as Hst.
  fold results in Hst.
  split; [exact Hst|]. split; [|split; [reflexivity|]].
  - eapply Forall_impl; [|exact Hst]. cbv beta.
    intros r [<- | [<- | [<- | [<- | []]]]]; apply status_words_distinct.
  - unfold risk_scorer.calculate_risk_score,
      risk_scorer.calculate_risk_score_with, risk_scorer.accumulate.
    destruct (fold_left (risk_scorer.score_claim SDG) claims (0 # 1, [], []))
      as [[s1 b1] f1].
    now rewrite (fold_score_cert_without results (s1, b1) Hst).
Qed.

Section OverallStatusFacts.

Import cert_matcher.

Lemma forallb_verified (results : list cert_result) :
  forallb (fun s => eqb s VERIFIED) (map status results) = true
  <-> Forall (fun r => status r = VERIFIED) results.
Proof.
  rewrite forallb_forall, Forall_forall. split.
  - intros H r Hr. apply eqb_eq, H, in_map, Hr.
  - intros H s Hs. apply in_map_iff in Hs as [r [<- Hr]].
    apply eqb_eq, H, Hr.
Qed.

Lemma existsb_failed (results : list cert_result) :
  existsb (fun s => mem s [NOT_FOUND; EXPIRED]) (map status results) = true
  <-> Exists (fun r => status r = NOT_FOUND \/ status r = EXPIRED) results.
Proof.
  rewrite existsb_exists, Exists_exists. split.
  - intros [s [Hs Hm]]. apply in_map_iff in Hs as [r [<- Hr]].
    exists r. split; [exact Hr|].
    apply mem_In in Hm. destruct Hm as [H | [H | []]]; auto.
  - intros [r [Hr H]]. exists (status r). split; [now apply in_map|].
    apply mem_In. destruct H as [-> | ->]; simpl; auto.
Qed.

Lemma overall_words_distinct :
  ALL_VERIFIED <> NO_CERTS_CLAIMED /\ FAILED <> NO_CERTS_CLAIMED
  /\ PARTIAL <> NO_CERTS_CLAIMED.
Proof. repeat split; vm_compute; discriminate. Qed.

End OverallStatusFacts.

(** Claim C7.  The overall status is NO_CERTS_CLAIMED exactly when no
    certificate is claimed; with claimed certificates it is ALL_VERIFIED
    when every result is VERIFIED, FAILED when some result is NOT_FOUND or
    EXPIRED, and PARTIAL otherwise.  For the category timber and no
    claimed certificate the recommended certificates reported missing are
    FSC, PEFC and Carbon Trust, each with its guidance. *)
Theorem overall_status_and_missing_recommended :
  forall (REGISTRY : list cert_matcher.record) (today : PyDate.date)
         (company_name : str) (claimed_certs : list str) (category : str),
    let v := cert_matcher.verify_certificates REGISTRY today company_name
               claimed_certs category in
    let results := cert_matcher.verification_results v in
    let failed r := cert_matcher.status r = cert_matcher.NOT_FOUND
                    \/ cert_matcher.status r = cert_matcher.EXPIRED in
    let verified r := cert_matcher.status r = cert_matcher.VERIFIED in
    (cert_matcher.overall_cert_status v = cert_matcher.NO_CERTS_CLAIMED
     <-> claimed_certs = [])
    /\ (claimed_certs <> [] -> Forall verified results ->
        cert_matcher.overall_cert_status v = cert_matcher.ALL_VERIFIED)
    /\ (Exists failed results ->
        cert_matcher.overall_cert_status v = cert_matcher.FAILED)
    /\ (claimed_certs <> [] -> ~ Forall verified results ->
        ~ Exists failed results ->
        cert_matcher.overall_cert_status v = cert_matcher.PARTIAL)
    /\ (claimed_certs = [] -> category = u "timber" ->
        map cert_matcher.m_cert (cert_matcher.missing_recommended v)
        = [u "FSC"; u "PEFC"; u "Carbon Trust"]
        /\ Forall (fun m => PyDict.get cert_matcher.CERT_GUIDANCE
                              (cert_matcher.m_cert m)
                            = Some (cert_matcher.guidance m))
                  (cert_matcher.missing_recommended v)).
Proof.
  intros REGISTRY today company_name claimed category v results failed verified.
  assert (Hres : results
                 = map (fun c => cert_matcher._verify_single_cert REGISTRY today
                                   company_name c category) claimed)
    by reflexivity.
  assert (Hov : cert_matcher.overall_cert_status v
                = cert_matcher._overall_status results) by reflexivity.
  rewrite Hov. clear Hov.
  destruct overall_words_distinct as [D1 [D2 D3]].
  destruct claimed as [|c claimed].
  - (* no certificate claimed *)
    rewrite Hres. cbn [map cert_matcher._overall_status].
    split; [split; reflexivity|].
    split; [intros H; contradiction|].
    split; [intros H; inversion H|].
    split; [intros H; contradiction|].
    intros _ Hcat. subst v. rewrite Hcat. cbn.
    split; [reflexivity|]. repeat constructor.
  - (* at least one certificate claimed *)
    assert (Hne : results <> []) by (rewrite Hres; discriminate).
    unfold cert_matcher._overall_status.
    destruct results as [|r0 rs] eqn:Hrs; [contradiction|].
    pose proof (forallb_verified (r0 :: rs)) as Hall.
    pose proof (existsb_failed (r0 :: rs)) as Hany.
    fold verified in Hall. fold failed in Hany.
    destruct (forallb (fun s => eqb s cert_matcher.VERIFIED)
                (map cert_matcher.status (r0 :: rs))) eqn:Eall.
    + assert (Hv : Forall verified (r0 :: rs)) by now apply Hall.
      split; [split; [intros H; now elim D1 | discriminate]|].
      split; [reflexivity|].
      split.
      * intros Hex. exfalso. apply Exists_exists in Hex as [r [Hr Hf]].
        rewrite Forall_forall in Hv. specialize (Hv r Hr).
        unfold verified in Hv. unfold failed in Hf.
        destruct status_words_distinct as [S1 [S2 _]].
        destruct Hf as [Hf | Hf]; rewrite Hf in Hv; contradiction.
      * split; [intros _ Hn; contradiction | discriminate].
    + assert (Hnv : ~ Forall verified (r0 :: rs))
        by (intros H; apply Hall in H; discriminate).
      destruct (existsb (fun s => mem s [cert_matcher.NOT_FOUND;
                                         cert_matcher.EXPIRED])
                  (map cert_matcher.status (r0 :: rs))) eqn:Eany.
      * assert (Hf : Exists failed (r0 :: rs)) by now apply Hany.
        split; [split; [intros H; now elim D2 | discriminate]|].
        split; [intros _ H; contradiction|].
        split; [reflexivity|].
        split; [intros _ _ H; contradiction | discriminate].
      * assert (Hnf : ~ Exists failed (r0 :: rs))
          by (intros H; apply Hany in H; discriminate).
        split; [split; [intros H; now elim D3 | discriminate]|].
        split; [intros _ H; contradiction|].
        split; [intros H; contradiction|].
        split; [reflexivity | discriminate].
Qed.

(** The theorem of claim C7 for the category timber with no claimed
    certificate. *)
Lemma overall_status_and_missing_recommended_witness :
  let v := cert_matcher.verify_certificates Samples.registry Samples.today
             (u "GreenWood Ltd") [] (u "timber") in
  cert_matcher.overall_cert_status v = cert_matcher.NO_CERTS_CLAIMED
  /\ map cert_matcher.m_cert (cert_matcher.missing_recommended v)
     = [u "FSC"; u "PEFC"; u "Carbon Trust"].
Proof.
  intros v.
  pose proof (overall_status_and_missing_recommended Samples.registry
                Samples.today (u "GreenWood Ltd") [] (u "timber"))
    as [H1 [_ [_ [_ H5]]]].
  split.
  - apply H1. reflexivity.
  - apply H5; reflexivity.
Defined.

(* ================================================================== *)
(** * The claim extractor *)
(* ================================================================== *)

Section ExtractorFacts.

Import PyDict PyNum PyRe nlp_engine.

Lemma Qltb_true_div_r (a : Z) (b : positive) (g n : Z) :
  0 < n -> Qltb (a # b) (true_div g n) = (a * n <? g * Z.pos b).
Proof.
  intros Hn. destruct n as [|p|p]; try lia.
  unfold Qltb, true_div, Qdiv, Qinv, Qmult, inject_Z. cbn [Qnum Qden].
  rewrite Z.mul_1_r, Pos.mul_1_l. reflexivity.
Qed.

Lemma Qltb_true_div_l (a : Z) (b : positive) (g n : Z) :
  0 < n -> Qltb (true_div g n) (a # b) = (g * Z.pos b <? a * n).
Proof.
  intros Hn. destruct n as [|p|p]; try lia.
  unfold Qltb, true_div, Qdiv, Qinv, Qmult, inject_Z. cbn [Qnum Qden].
  rewrite Z.mul_1_r, Pos.mul_1_l. reflexivity.
Qed.

Lemma split_on_aux_nonempty (sep : char) (cur s : str) :
  split_on_aux sep cur s <> [].
Proof.
  revert cur. induction s as [|c s IH]; intros cur; simpl; [discriminate|].
  destruct (c =? sep)%N; [discriminate | apply IH].
Qed.

Lemma sentence_count_pos (text : str) : 0 < sentence_count text.
Proof.
  unfold sentence_count, split_on.
  pose proof (split_on_aux_nonempty 46%N [] text) as H.
  destruct (split_on_aux 46%N [] text); [contradiction|].
  unfold len. simpl. lia.
Qed.

Lemma lower_nonempty (s : str) : s <> [] -> lower s <> [].
Proof.
  destruct s as [|c s]; [contradiction|]. intros _.
  unfold lower. cbn [flat_map]. unfold lower_char.
  destruct (_ && _)%bool; [discriminate|].
  destruct (_ && _)%bool; [discriminate|].
  destruct (c =? 304)%N; discriminate.
Qed.

Lemma contains_in_empty (p : str) : p <> [] -> contains p [] = false.
Proof. destruct p; [contradiction | reflexivity]. Qed.

Lemma extract_phrase_empty_text (claim_type : str)
    (st : list claim * list str) (phrase : str) :
  phrase <> [] -> extract_phrase [] [] claim_type st phrase = st.
Proof.
  intros H. unfold extract_phrase. destruct st as [detected seen].
  now rewrite (contains_in_empty _ (lower_nonempty _ H)).
Qed.

Lemma extract_phrases_empty_text (claim_type : str)
    (st : list claim * list str) (phrases : list str) :
  ~ In [] phrases ->
  fold_left (extract_phrase [] [] claim_type) phrases st = st.
Proof.
  revert st. induction phrases as [|p l IH]; intros st H; [reflexivity|].
  cbn [fold_left]. rewrite extract_phrase_empty_text.
  - apply IH. intros Hin. apply H. now right.
  - intros ->. apply H. now left.
Qed.

Lemma extract_keywords_empty_text (KEYWORDS : dict (list str))
    (st : list claim * list str) :
  no_empty_phrase KEYWORDS ->
  fold_left
    (fun st (kv : str * list str) =>
       fold_left (extract_phrase [] [] (fst kv)) (snd kv) st)
    KEYWORDS st = st.
Proof.
  revert st. induction KEYWORDS as [|[t ps] l IH]; intros st H; [reflexivity|].
  cbn [fold_left fst snd]. rewrite extract_phrases_empty_text.
  - apply IH. intros t' ps' Hin. apply (H t' ps'). now right.
  - apply (H t ps). now left.
Qed.

Lemma risk_words_distinct :
  u "high" <> u "medium" /\ u "high" <> u "low" /\ u "medium" <> u "low".
Proof. repeat split; vm_compute; discriminate. Qed.

End ExtractorFacts.

Section MeasurementFacts.

Import PyRe nlp_engine.

Lemma startswith_iff (p s : str) :
  startswith p s = true <-> exists post, s = p ++ post.
Proof.
  revert s. induction p as [|c p IH]; intros s; cbn [startswith].
  - split; [intros _; now exists s | reflexivity].
  - destruct s as [|d s]; [split; [discriminate | intros [post H]; discriminate]|].
    rewrite andb_true_iff, N.eqb_eq, IH. split.
    + intros [-> [post ->]]. now exists post.
    + intros [post H]. injection H as -> ->. split; [reflexivity | now exists post].
Qed.

Lemma first_some_found {A B : Type} (f : A -> option B) (l : list A) :
  first_some f l <> None <-> exists x, In x l /\ f x <> None.
Proof.
  induction l as [|x l IH]; cbn [first_some].
  - split; [congruence | intros [x [[] _]]].
  - destruct (f x) eqn:E.
    + split; [intros _; exists x; split; [now left | congruence] | discriminate].
    + rewrite IH. split.
      * intros [y [Hy Hf]]. exists y. split; [now right | exact Hf].
      * intros [y [[<- | Hy] Hf]]; [congruence | now exists y].
Qed.

Lemma In_countdown (hi lo n : nat) :
  In n (countdown hi lo) <-> (lo <= n <= hi)%nat.
Proof.
  unfold countdown. rewrite <- in_rev, in_seq. lia.
Qed.

(** The run of [p] at the head of a string covers every prefix that
    satisfies [p], and only such prefixes. *)
Lemma run_length_prefix (p : char -> bool) (s : str) (n : nat) :
  (n <= run_length p s)%nat
  <-> exists a b, s = a ++ b /\ List.length a = n
                  /\ Forall (fun c => p c = true) a.
Proof.
  revert n. induction s as [|c s IH]; intros n; cbn [run_length].
  - split.
    + intros H. exists [], []. replace n with O by lia.
      repeat split. constructor.
    + intros [a [b [H [Hn _]]]]. symmetry in H.
      apply app_eq_nil in H as [-> _]. cbn in Hn. lia.
  - destruct (p c) eqn:E.
    + destruct n as [|n].
      * split; [|lia]. intros _. exists [], (c :: s).
        repeat split. constructor.
      * rewrite <- Nat.succ_le_mono, IH. split.
        -- intros [a [b [-> [Hn Ha]]]]. exists (c :: a), b.
           split; [reflexivity|]. split; [cbn; lia|]. now constructor.
        -- intros [[|c' a] [b [H [Hn Ha]]]]; [discriminate|].
           injection H as <- ->. exists a, b.
           split; [reflexivity|]. split; [cbn in Hn; lia|].
           now inversion Ha.
    + split.
      * intros H. exists [], (c :: s). replace n with O by lia.
        repeat split. constructor.
      * intros [[|c' a] [b [H [Hn Ha]]]]; [cbn in Hn; lia|].
        injection H as <- ->. inversion Ha; subst. congruence.
Qed.

Lemma skipn_prefix (a b : str) : skipn (List.length a) (a ++ b) = b.
Proof. induction a as [|c a IH]; [reflexivity | exact IH]. Qed.

Lemma match_seq_step (a : atom) (rest : list atom) (prev : option char)
    (s : str) :
  match_seq (a :: rest) prev s <> None
  <-> exists n, In n (atom_lengths a prev s)
                /\ match_seq rest (prev_after n prev s) (skipn n s) <> None.
Proof.
  cbn [match_seq]. rewrite first_some_found.
  split; intros [n [Hn H]]; exists n; (split; [exact Hn|]).
  - destruct (match_seq rest _ _); [discriminate | contradiction].
  - destruct (match_seq rest _ _); [discriminate | contradiction].
Qed.

(** The pattern of the code matches at the head of a string exactly when
    a measurement begins there. *)
Lemma match_at_numbers (prev : option char) (s : str) :
  match_at numbers_pattern prev s <> None <-> begins_measurement s.
Proof.
  unfold match_at, numbers_pattern. rewrite first_some_found. split.
  - intros [atoms [[<- | [<- | []]] H]].
    + (* \d+% *)
      apply match_seq_step in H as [n [Hn H]].
      cbn [atom_lengths] in Hn. apply In_countdown in Hn.
      apply match_seq_step in H as [k [Hk _]].
      cbn [atom_lengths] in Hk.
      destruct (startswith (u "%") (skipn n s)) eqn:E; [|contradiction].
      apply startswith_iff in E as [post Hpost].
      destruct (proj1 (run_length_prefix isdigit s n) (proj2 Hn))
        as [digits [rest [-> [Hlen Hd]]]].
      exists digits, rest. split; [reflexivity|].
      split; [intros ->; cbn in Hlen; lia|]. split; [exact Hd|].
      left. exists post. rewrite <- Hlen, skipn_prefix in Hpost. exact Hpost.
    + (* \d+\s*(kg|tonnes|hectares|km) *)
      apply match_seq_step in H as [n [Hn H]].
      cbn [atom_lengths] in Hn. apply In_countdown in Hn.
      apply match_seq_step in H as [m [Hm H]].
      cbn [atom_lengths] in Hm. apply In_countdown in Hm.
      apply match_seq_step in H as [k [Hk _]].
      cbn [atom_lengths] in Hk.
      apply in_map_iff in Hk as [unit [_ Hunit]].
      apply filter_In in Hunit as [Hunit E].
      apply startswith_iff in E as [post Hpost].
      destruct (proj1 (run_length_prefix isdigit s n) (proj2 Hn))
        as [digits [rest [-> [Hlen Hd]]]].
      rewrite <- Hlen, skipn_prefix in Hm, Hpost.
      destruct (proj1 (run_length_prefix isspace rest m) (proj2 Hm))
        as [ws [rest' [-> [Hlen' Hw]]]].
      rewrite <- Hlen', skipn_prefix in Hpost. subst rest'.
      exists digits, (ws ++ unit ++ post). split; [reflexivity|].
      split; [intros ->; cbn in Hlen; lia|]. split; [exact Hd|].
      right. exists ws, unit, post. repeat split; assumption.
  - intros [digits [rest [-> [Hne [Hd Hrest]]]]].
    assert (Hn : (1 <= List.length digits
                  <= run_length isdigit (digits ++ rest))%nat).
    { split; [destruct digits; [contradiction | cbn; lia]|].
      apply run_length_prefix. now exists digits, rest. }
    destruct Hrest as [[post ->] | [ws [unit [post [-> [Hw Hunit]]]]]].
    + exists [Digits1; Lit (u "%")]. split; [now left|].
      apply match_seq_step. exists (List.length digits).
      split; [cbn [atom_lengths]; now apply In_countdown|].
      rewrite skipn_prefix. apply match_seq_step.
      exists (List.length (u "%")). split; [|discriminate].
      cbn [atom_lengths].
      rewrite (proj2 (startswith_iff (u "%") (u "%" ++ post)))
        by now exists post.
      now left.
    + exists [Digits1; Spaces0;
              Alt [u "kg"; u "tonnes"; u "hectares"; u "km"]].
      split; [right; now left|].
      apply match_seq_step. exists (List.length digits).
      split; [cbn [atom_lengths]; now apply In_countdown|].
      rewrite skipn_prefix. apply match_seq_step. exists (List.length ws).
      split.
      { cbn [atom_lengths]. apply In_countdown. split; [lia|].
        apply run_length_prefix. now exists ws, (unit ++ post). }
      rewrite skipn_prefix. apply match_seq_step.
      exists (List.length unit). split; [|discriminate].
      cbn [atom_lengths]. apply in_map. apply filter_In.
      split; [exact Hunit|]. apply startswith_iff. now exists post.
Qed.

Lemma search_from_numbers (prev : option char) (s : str) (i : Z) :
  search_from numbers_pattern prev s i <> None
  <-> exists pre t, s = pre ++ t /\ begins_measurement t.
Proof.
  revert prev i. induction s as [|c s IH]; intros prev i; cbn [search_from].
  - destruct (match_at numbers_pattern prev []) as [n|] eqn:E.
    + split; [|discriminate]. intros _. exists [], [].
      split; [reflexivity|]. apply (match_at_numbers prev). congruence.
    + split; [congruence|]. intros [pre [t [H Ht]]].
      symmetry in H. apply app_eq_nil in H as [_ ->].
      apply (match_at_numbers prev) in Ht. contradiction.
  - destruct (match_at numbers_pattern prev (c :: s)) as [n|] eqn:E.
    + split; [|discriminate]. intros _. exists [], (c :: s).
      split; [reflexivity|]. apply (match_at_numbers prev). congruence.
    + rewrite IH. split.
      * intros [pre [t [-> Ht]]]. now exists (c :: pre), t.
      * intros [[|c' pre] [t [H Ht]]].
        -- cbn in H. subst t. apply (match_at_numbers prev) in Ht.
           contradiction.
        -- injection H as <- ->. now exists pre, t.
Qed.

(** The test of the code agrees with the words of the specification. *)
Lemma has_measurement_measured (text : str) :
  has_measurement text = true <-> measured text.
Proof.
  unfold has_measurement, measured, search.
  rewrite <- (search_from_numbers None text 0).
  destruct (search_from numbers_pattern None text 0); split;
    congruence || discriminate || (intros H; now elim H).
Qed.

End MeasurementFacts.

(** Claim C8.  The AI-generated-content heuristic.  On a text without
    tokens the assessment is low, 0, no indicators, and on the empty text
    the extractor (with a taxonomy that has no empty phrase) returns no
    claims, no red flags and no proof markers.  On a text with tokens the
    score is 30 when more than 8% of the tokens are green words, plus 20
    when the average number of tokens per sentence is strictly between 15
    and 22, plus 25 when the text has no measurement and more than 30
    tokens, where the text has a measurement exactly when it holds a
    number followed by [%], or by any white space and one of kg, tonnes,
    hectares, km; the risk is high exactly from 50 on, medium exactly
    from 25 to 49, low exactly below 25. *)
Theorem ai_generated_risk_heuristic :
  forall (KEYWORDS : PyDict.dict (list str)) (text : str),
    let nothing :=
      {| nlp_engine.risk := u "low"; nlp_engine.score := 0;
         nlp_engine.indicators := [] |} in
    (split text = [] -> nlp_engine._assess_ai_generated_risk text = nothing)
    /\ (no_empty_phrase KEYWORDS ->
        nlp_engine.extract_claims KEYWORDS []
        = {| nlp_engine.claims := [];
             nlp_engine.red_flags := [];
             nlp_engine.has_proof_markers := false;
             nlp_engine.claim_count := 0;
             nlp_engine.is_ai_generated_risk := nothing |})
    /\ (split text <> [] ->
        let r := nlp_engine._assess_ai_generated_risk text in
        nlp_engine.score r
        = (if 8 * token_count text <? 100 * green_token_count text
           then 30 else 0)
          + (if (15 * sentence_count text <? sentence_token_total text)
                && (sentence_token_total text <? 22 * sentence_count text)
             then 20 else 0)
          + (if negb (has_measurement text) && (30 <? token_count text)
             then 25 else 0)
        /\ (has_measurement text = true <-> measured text)
        /\ (nlp_engine.risk r = u "high" <-> 50 <= nlp_engine.score r)
        /\ (nlp_engine.risk r = u "medium" <-> 25 <= nlp_engine.score r < 50)
        /\ (nlp_engine.risk r = u "low" <-> nlp_engine.score r < 25)).
Proof.
  intros KEYWORDS text nothing. split; [|split].
  - intros H. unfold nlp_engine._assess_ai_generated_risk. now rewrite H.
  - intros H. unfold nlp_engine.extract_claims.
    change (lower []) with (@nil char).
    rewrite (extract_keywords_empty_text KEYWORDS ([], []) H).
    reflexivity.
  - intros Hne r.
    pose proof (has_measurement_measured text) as Hmeasured.
    subst r.
    unfold nlp_engine._assess_ai_generated_risk.
    unfold token_count, green_token_count.
    unfold has_measurement in *.
    pose proof (sentence_count_pos text) as Hsent.
    unfold sentence_count, sentence_token_total in *.
    destruct (split text) as [|w ws] eqn:Hsplit; [contradiction|].
    assert (Hn : 0 < len (w :: ws)) by (unfold len; simpl; lia).
    rewrite (Qltb_true_div_r 8 100 _ _ Hn).
    rewrite Z.max_l by lia.
    change 15%Q with (15 # 1). change 22%Q with (22 # 1).
    rewrite (Qltb_true_div_r 15 1 _ _ Hsent).
    rewrite (Qltb_true_div_l 22 1 _ _ Hsent).
    rewrite !Z.mul_1_r.
    destruct risk_words_distinct as [D1 [D2 D3]].
    destruct (8 * len (w :: ws) <? _ * 100) eqn:E1;
      [replace (8 * len (w :: ws) <? 100 * _) with true
         by (rewrite <- E1; f_equal; lia)
      |replace (8 * len (w :: ws) <? 100 * _) with false
         by (rewrite <- E1; f_equal; lia)];
      destruct (_ && _)%bool;
      destruct (_ && _)%bool;
      cbn; repeat split; intros; try lia; try congruence;
      try (now apply Hmeasured).
Qed.

(** The theorem of claim C8 at the sample taxonomy and two texts.  The
    brochure: 5 green words among 34 tokens, 17 tokens per piece between
    full stops, no measurement.  The data sheet: the brochure and a
    sentence with the figures [80%] and [12 kg]; it has a measurement, 5
    green words among 44 tokens and three pieces between full stops. *)
Lemma ai_generated_risk_heuristic_witness :
  let r := nlp_engine._assess_ai_generated_risk Samples.brochure in
  let r' := nlp_engine._assess_ai_generated_risk Samples.data_sheet in
  no_empty_phrase Samples.keywords
  /\ split Samples.brochure <> []
  /\ split Samples.data_sheet <> []
  /\ nlp_engine.claims (nlp_engine.extract_claims Samples.keywords []) = []
  /\ nlp_engine.score r = 30 + 20 + 25
  /\ (nlp_engine.risk r = u "high" <-> 50 <= nlp_engine.score r)
  /\ ~ measured Samples.brochure
  /\ measured Samples.data_sheet
  /\ nlp_engine.score r' = 30 + 0 + 0.
Proof.
  intros r r'.
  assert (Hkw : no_empty_phrase Samples.keywords).
  { intros t ps [H | [H | []]]; injection H as _ <-;
      intros Hin; simpl in Hin; intuition discriminate. }
  assert (Htok : split Samples.brochure <> []) by (vm_compute; discriminate).
  assert (Htok' : split Samples.data_sheet <> [])
    by (vm_compute; discriminate).
  pose proof (ai_generated_risk_heuristic Samples.keywords Samples.brochure)
    as [_ [Hempty Hscore]].
  pose proof (ai_generated_risk_heuristic Samples.keywords Samples.data_sheet)
    as [_ [_ Hscore']].
  split; [exact Hkw|]. split; [exact Htok|]. split; [exact Htok'|].
  split; [now rewrite (Hempty Hkw)|].
  destruct (Hscore Htok) as [Hs [Hm [Hhigh _]]].
  destruct (Hscore' Htok') as [Hs' [Hm' _]].
  split; [exact Hs|]. split; [exact Hhigh|].
  split.
  { intros H. apply Hm in H. vm_compute in H. discriminate. }
  split; [apply Hm'; vm_compute; reflexivity | exact Hs'].
Defined.

(** Claim C6, at the text [U+0130 eco-friendly]: the extractor reports
    the phrase [eco-friendly] at position 3, the offset in the lower-cased
    text, where U+0130 has become two code points; in the text itself the
    phrase starts at offset 2, and the slice of the text at the reported
    position is [co-friendly], which is not the phrase in any case. *)
Theorem position_is_offset_in_lowered_text :
  let text := Samples.dotted_listing in
  let phrase := u "eco-friendly" in
  map (fun c => (nlp_engine.phrase c, nlp_engine.position c))
      (nlp_engine.claims (nlp_engine.extract_claims Samples.keywords text))
  = [(phrase, 3)]
  /\ len text = 14 /\ len (lower text) = 15
  /\ find (lower phrase) (lower text) = 3
  /\ find phrase text = 2
  /\ slice text 3 (3 + len phrase) = u "co-friendly"
  /\ lower (slice text 3 (3 + len phrase)) <> lower phrase
  /\ lower (slice text 2 (2 + len phrase)) = lower phrase.
Proof.
  cbv zeta. repeat split; try (vm_compute; reflexivity).
  vm_compute. discriminate.
Qed.

(** ** The reported position on Latin-1 texts

    Where the text and the taxonomy hold code points below 256 only,
    lower-casing maps code point to code point, offsets in the lower-cased
    text are offsets in the text, and the slice at the reported position is
    the phrase up to case. *)

Section PositionFacts.

Import PyDict nlp_engine.

Lemma lower_dotless (s : str) : dotless s -> lower s = map lower1 s.
Proof.
  unfold dotless, lower. induction s as [|c s IH]; intros H; [reflexivity|].
  cbn [flat_map map]. rewrite IH by (intros Hin; apply H; now right).
  assert (Hc : c <> 304%N) by (intros ->; apply H; now left).
  apply N.eqb_neq in Hc.
  unfold lower1, lower_char. rewrite Hc.
  destruct (_ && _)%bool; [reflexivity|].
  destruct (_ && _)%bool; reflexivity.
Qed.

Lemma dotless_firstn (n : nat) (s : str) : dotless s -> dotless (firstn n s).
Proof.
  unfold dotless. revert n. induction s as [|c s IH]; intros [|n] H Hin;
    simpl in Hin; try contradiction.
  destruct Hin as [-> | Hin]; [apply H; now left|].
  apply (IH n); [|exact Hin]. intros Hs. apply H. now right.
Qed.

Lemma dotless_skipn (n : nat) (s : str) : dotless s -> dotless (skipn n s).
Proof.
  unfold dotless. revert n. induction s as [|c s IH]; intros [|n] H Hin;
    simpl in Hin; try contradiction; try (now apply H).
  apply (IH n); [|exact Hin]. intros Hs. apply H. now right.
Qed.

Lemma startswith_firstn (p s : str) :
  startswith p s = true -> firstn (List.length p) s = p.
Proof.
  revert s. induction p as [|c p IH]; intros [|d s]; simpl; try reflexivity;
    try discriminate.
  intros H. apply andb_true_iff in H as [Hc Hp].
  apply N.eqb_eq in Hc. subst d. f_equal. now apply IH.
Qed.

Lemma find_from_found (sub s : str) (i : Z) :
  0 <= i -> 0 <= find_from sub s i ->
  exists k : nat,
    find_from sub s i = i + Z.of_nat k
    /\ startswith sub (skipn k s) = true.
Proof.
  revert i. induction s as [|c s IH]; intros i Hi; simpl.
  - destruct (startswith sub []) eqn:E.
    + intros _. exists O. split; [lia | exact E].
    + lia.
  - destruct (startswith sub (c :: s)) eqn:E.
    + intros _. exists O. split; [lia | exact E].
    + intros H. destruct (IH (i + 1)) as [k [Hk Hs]]; [lia | exact H |].
      exists (S k). split; [lia | exact Hs].
Qed.

Lemma extract_claims_located (KEYWORDS : dict (list str)) (text : str) :
  Forall (located KEYWORDS (lower text)) (claims (extract_claims KEYWORDS text)).
Proof.
  unfold extract_claims.
  set (step := fun st (kv : str * list str) =>
                 fold_left (extract_phrase text (lower text) (fst kv)) (snd kv) st).
  assert (Hinner : forall t ps st,
             (forall p, In p ps ->
                exists t' ps', In (t', ps') KEYWORDS /\ In p ps') ->
             Forall (located KEYWORDS (lower text)) (fst st) ->
             Forall (located KEYWORDS (lower text))
                    (fst (fold_left (extract_phrase text (lower text) t) ps st))).
  { intros t ps. induction ps as [|p ps IH]; intros st Hps Hst; [exact Hst|].
    cbn [fold_left]. apply IH; [intros q Hq; apply Hps; now right|].
    unfold extract_phrase. destruct st as [detected seen].
    destruct (contains (lower p) (lower text) && negb (mem p seen)) eqn:E;
      [|exact Hst].
    cbn [fst] in *. apply Forall_app. split; [exact Hst|].
    constructor; [|constructor].
    apply andb_true_iff in E as [Hc _]. unfold contains in Hc.
    apply Z.leb_le in Hc.
    split; [|split]; cbn [phrase position].
    - destruct (Hps p (or_introl eq_refl)) as [t' [ps' H]]. now exists t', ps'.
    - exact Hc.
    - reflexivity. }
  assert (Houter : forall kws st,
             (forall t ps, In (t, ps) kws -> In (t, ps) KEYWORDS) ->
             Forall (located KEYWORDS (lower text)) (fst st) ->
             Forall (located KEYWORDS (lower text))
                    (fst (fold_left step kws st))).
  { induction kws as [|[t ps] kws IH]; intros st Hk Hst; [exact Hst|].
    cbn [fold_left]. apply IH; [intros t' ps' H; apply Hk; now right|].
    unfold step at 1. cbn [fst snd]. apply Hinner; [|exact Hst].
    intros p Hp. exists t, ps. split; [apply Hk; now left | exact Hp]. }
  specialize (Houter KEYWORDS ([], []) (fun _ _ H => H) (Forall_nil _)).
  destruct (fold_left step KEYWORDS ([], [])) as [detected seen].
  exact Houter.
Qed.

Lemma latin1_dotless (s : str) : latin1 s -> dotless s.
Proof.
  unfold latin1, dotless. rewrite Forall_forall.
  intros H Hin. specialize (H _ Hin). lia.
Qed.

(** On a Latin-1 text, with a Latin-1 taxonomy, the slice of the text at
    the reported position is the phrase up to case. *)
Lemma position_correct_on_latin1 (KEYWORDS : dict (list str)) (text : str) :
  latin1 text ->
  (forall claim_type phrases p,
      In (claim_type, phrases) KEYWORDS -> In p phrases -> latin1 p) ->
  Forall
    (fun c =>
       lower (slice text (position c) (position c + len (phrase c)))
       = lower (phrase c))
    (claims (extract_claims KEYWORDS text)).
Proof.
  intros Htext1 Hkw1.
  assert (Htext : dotless text) by now apply latin1_dotless.
  assert (Hkw : forall claim_type phrases p,
             In (claim_type, phrases) KEYWORDS -> In p phrases -> dotless p)
    by (intros t ps p H1 H2; apply latin1_dotless; exact (Hkw1 t ps p H1 H2)).
  eapply Forall_impl; [|apply extract_claims_located].
  intros c [[t [ps [Hin Hp]]] [Hfound Hpos]].
  assert (Hphrase : dotless (phrase c)) by exact (Hkw t ps _ Hin Hp).
  rewrite Hpos. unfold find in *.
  destruct (find_from_found _ _ 0 (Z.le_refl 0) Hfound) as [k [Hk Hs]].
  rewrite Hk. unfold slice, len.
  replace (Z.to_nat (0 + Z.of_nat k + Z.of_nat (List.length (phrase c))
                     - (0 + Z.of_nat k)))
    with (List.length (phrase c)) by lia.
  replace (Z.to_nat (0 + Z.of_nat k)) with k by lia.
  rewrite (lower_dotless _ (dotless_firstn _ _ (dotless_skipn k _ Htext))).
  rewrite (lower_dotless _ Htext), (lower_dotless _ Hphrase) in Hs.
  rewrite (lower_dotless _ Hphrase).
  rewrite <- firstn_map, <- skipn_map.
  apply startswith_firstn in Hs. rewrite length_map in Hs. exact Hs.
Qed.

End PositionFacts.

(* ================================================================== *)
(** * The seller ledger *)
(* ================================================================== *)

Section LedgerFacts.

Import PyDict PyNum predictive_engine.

Lemma get_set {V : Type} (d : dict V) (k k' : str) (v : V) :
  get (set d k v) k' = if eqb k' k then Some v else get d k'.
Proof.
  induction d as [|[k0 v0] d IH]; cbn [set get].
  - reflexivity.
  - destruct (eqb k k0) eqn:E; cbn [get].
    + apply eqb_eq in E. subst k0. destruct (eqb k' k); reflexivity.
    + rewrite IH. destruct (eqb k' k0) eqn:E0; [|reflexivity].
      destruct (eqb k' k) eqn:E1; [|reflexivity].
      apply eqb_eq in E0, E1. subst. rewrite eqb_refl in E. discriminate.
Qed.

Lemma in_set {V : Type} (d : dict V) (k k' : str) (v v' : V) :
  In (k', v') (set d k v) -> In (k', v') d \/ v' = v.
Proof.
  induction d as [|[k0 v0] d IH]; cbn [set].
  - intros [H | []]. injection H as _ <-. now right.
  - destruct (eqb k k0).
    + intros [H | H]; [injection H as _ <-; now right | left; now right].
    + intros [H | H]; [left; now left|].
      destruct (IH H) as [H' | H']; [left; now right | now right].
Qed.

(** The profile a call works on, the profile it leaves, and its outcome. *)
Lemma update_seller_profile_sets (profiles : dict profile) (company_name : str)
    (e : entry) :
  exists p,
    fst (_update_seller_profile profiles company_name e)
    = set profiles company_name p.
Proof.
  unfold _update_seller_profile.
  destruct (incr_phrases _ (claim_phrases e)) as [phrases [ex|]];
    [eexists; reflexivity|].
  cbv zeta. cbn [total_submissions].
  destruct (_ =? 0); eexists; reflexivity.
Qed.

(** A call touches the profile of its own company only. *)
Lemma record_submission_other (L : ledger) (now company_name product_name
    verdict_name : str) (score : Z) (claims : list nlp_engine.claim) (k : str) :
  k <> company_name ->
  get (SELLER_PROFILES (fst (record_submission L now company_name product_name
                               verdict_name score claims))) k
  = get (SELLER_PROFILES L) k.
Proof.
  intros Hk. unfold record_submission.
  match goal with
  | |- context [_update_seller_profile ?a ?b ?c] =>
      destruct (update_seller_profile_sets a b c) as [p Hp];
      destruct (_update_seller_profile a b c) as [profiles outcome]
  end.
  cbn [fst SELLER_PROFILES] in *. subst profiles.
  rewrite get_set. apply eqb_neq in Hk. now rewrite Hk.
Qed.

(** On a plain [dict] the loop over the phrases raises [KeyError] as soon
    as a phrase is not a key. *)
Lemma incr_phrases_plain (d : dict Z) (phrases : list str) :
  (exists q, In q phrases /\ get d q = None) ->
  exists d' q, incr_phrases (PlainDict d) phrases
               = (PlainDict d', Some (KeyError q))
               /\ In q phrases /\ get d q = None.
Proof.
  revert d. induction phrases as [|p l IH]; intros d [q [Hq Hnone]];
    [contradiction|].
  cbn [incr_phrases incr_phrase].
  destruct (get d p) as [c|] eqn:Ep.
  - destruct Hq as [-> | Hq]; [congruence|].
    destruct (IH (set d p (c + 1))) as [d' [q' [H1 [H2 H3]]]].
    + exists q. split; [exact Hq|]. rewrite get_set.
      destruct (eqb q p) eqn:E; [|exact Hnone].
      apply eqb_eq in E. congruence.
    + exists d', q'. split; [exact H1|]. split; [now right|].
      rewrite get_set in H3. destruct (eqb q' p); [discriminate | exact H3].
  - exists d, p. split; [reflexivity|]. split; [now left | exact Ep].
Qed.

(** A seller that has a profile with plain counts cannot submit a phrase
    that is not yet counted: the call raises [KeyError]. *)
Lemma known_seller_new_phrase_raises (L : ledger) (now company_name
    product_name verdict_name : str) (score : Z)
    (claims : list nlp_engine.claim) (p : profile) (d : dict Z) :
  get (SELLER_PROFILES L) company_name = Some p ->
  recurring_phrases p = PlainDict d ->
  (exists c, In c claims /\ get d (nlp_engine.phrase c) = None) ->
  exists q,
    snd (record_submission L now company_name product_name verdict_name score
           claims) = Raise (KeyError q)
    /\ get d q = None.
Proof.
  intros Hp Hd [c [Hc Hnone]].
  unfold record_submission, _update_seller_profile.
  cbn [claim_phrases timestamp verdict risk_score]. rewrite Hp, Hd.
  destruct (incr_phrases_plain d (map nlp_engine.phrase claims))
    as [d' [q [Hq [_ Hqn]]]].
  { exists (nlp_engine.phrase c). split; [now apply in_map | exact Hnone]. }
  rewrite Hq. cbn [snd]. exists q. split; [reflexivity | exact Hqn].
Qed.

(** A call that returns leaves the profile of its company with the alert
    level and the average of its counters. *)
Lemma completed_submission_fresh (L : ledger) (now company_name product_name
    verdict_name : str) (score : Z) (claims : list nlp_engine.claim) :
  snd (record_submission L now company_name product_name verdict_name score
         claims) = Ok tt ->
  exists p,
    get (SELLER_PROFILES (fst (record_submission L now company_name
                                 product_name verdict_name score claims)))
        company_name = Some p
    /\ alert_level p = _compute_alert_level p
    /\ avg_risk_score p
       = Some (round (true_div (total_risk_score p) (total_submissions p)))
    /\ exists d, recurring_phrases p = PlainDict d.
Proof.
  unfold record_submission, _update_seller_profile.
  cbn [claim_phrases timestamp verdict risk_score].
  destruct (incr_phrases _ (map nlp_engine.phrase claims)) as [phrases [ex|]];
    [cbn [snd]; discriminate|].
  cbv zeta. cbn [total_submissions].
  destruct (_ =? 0); [cbn [snd]; discriminate|].
  intros _. cbn [fst SELLER_PROFILES].
  eexists. rewrite get_set, eqb_refl. split; [reflexivity|].
  cbn [alert_level avg_risk_score total_risk_score total_submissions
       recurring_phrases].
  split; [reflexivity|]. split; [reflexivity|]. eexists; reflexivity.
Qed.

End LedgerFacts.

(** Claim C1, at three GREENWASHED submissions of one seller of which the
    second brings the new phrase [zero impact]: the first call returns,
    the second and the third raise [KeyError] for that phrase, which is
    never counted; the seller does appear in the early alerts at HIGH with
    the escalation message, but its recurring counts are those of
    [eco-friendly] alone, 2, and not the counts of all three submissions
    ([eco-friendly] 2 and [zero impact] 2). *)
Theorem later_new_phrase_raises_key_error :
  let L := History.ledger_after Samples.greenwood in
  History.last_outcome (firstn 1 Samples.greenwood) = Ok tt
  /\ History.last_outcome (firstn 2 Samples.greenwood)
     = Raise (KeyError (u "zero impact"))
  /\ History.last_outcome Samples.greenwood
     = Raise (KeyError (u "zero impact"))
  /\ map (fun a => (predictive_engine.a_company a,
                    predictive_engine.a_alert_level a,
                    predictive_engine.a_greenwashed_count a,
                    predictive_engine.recurring_patterns a,
                    predictive_engine.recommended_action a))
         (predictive_engine.get_early_alerts L)
     = [ (u "GreenWood Ltd", u "HIGH", 3, [(u "eco-friendly", 2)],
          u "Escalate for formal investigation — pattern of repeated greenwashing detected") ]
  /\ map (fun kv => predictive_engine.counts
                      (predictive_engine.recurring_phrases (snd kv)))
         (predictive_engine.SELLER_PROFILES L)
     = [ [(u "eco-friendly", 2)] ].
Proof. cbv zeta. repeat split; vm_compute; reflexivity. Qed.

(** Claim C4, at a VERIFIED submission of a seller followed by a
    GREENWASHED one with a new phrase: the second call raises [KeyError]
    after the counters are updated and before the alert level and the
    average are recomputed.  The profile then has 1 greenwashed
    submission out of 2 and a total score of 90, but still says LOW and an
    average of 10, where the rule gives MEDIUM and the average is 45; a
    later call for another seller returns and leaves it so. *)
Theorem failed_update_leaves_stale_alert_level :
  let L := History.ledger_after Samples.timberline in
  History.last_outcome (firstn 2 Samples.timberline)
  = Raise (KeyError (u "zero impact"))
  /\ History.last_outcome Samples.timberline = Ok tt
  /\ exists p,
       PyDict.get (predictive_engine.SELLER_PROFILES L) (u "Timberline Co")
       = Some p
       /\ predictive_engine.total_submissions p = 2
       /\ predictive_engine.greenwashed_count p = 1
       /\ predictive_engine.total_risk_score p = 90
       /\ predictive_engine.alert_level p = u "LOW"
       /\ predictive_engine._compute_alert_level p = u "MEDIUM"
       /\ predictive_engine.avg_risk_score p = Some 10
       /\ PyNum.round (PyNum.true_div (predictive_engine.total_risk_score p)
                         (predictive_engine.total_submissions p)) = 45.
Proof.
  cbv zeta. split; [vm_compute; reflexivity|].
  split; [vm_compute; reflexivity|].
  eexists. split; [vm_compute; reflexivity|].
  repeat split; vm_compute; reflexivity.
Qed.

Section HistoryFacts.

Import PyDict predictive_engine History.

Lemma get_In {V : Type} (d : dict V) (k : str) (v : V) :
  get d k = Some v -> exists k', In (k', v) d.
Proof.
  induction d as [|[k0 v0] d IH]; cbn [get]; [discriminate|].
  destruct (eqb k k0).
  - intros H. injection H as ->. exists k0. now left.
  - intros H. destruct (IH H) as [k' Hk']. exists k'. now right.
Qed.

Lemma incr_phrases_keeps_plain (d : dict Z) (phrases : list str) :
  exists d', fst (incr_phrases (PlainDict d) phrases) = PlainDict d'.
Proof.
  revert d. induction phrases as [|q l IH]; intros d;
    cbn [incr_phrases incr_phrase]; [eexists; reflexivity|].
  destruct (get d q); [apply IH | eexists; reflexivity].
Qed.

Lemma incr_phrases_default_returns (pc : phrase_counts) (phrases : list str)
    (d : dict Z) :
  pc = DefaultDict d -> snd (incr_phrases pc phrases) = None.
Proof.
  revert pc d. induction phrases as [|q l IH]; intros pc d ->;
    cbn [incr_phrases incr_phrase]; [reflexivity|].
  eapply IH. reflexivity.
Qed.

Lemma submit_plain_counts (L : ledger) (s : submission) :
  plain_counts L -> plain_counts (fst (submit L s)).
Proof.
  intros HL k p. unfold submit, record_submission, _update_seller_profile.
  cbn [claim_phrases timestamp verdict risk_score].
  set (phrases := map nlp_engine.phrase (s_claims s)).
  destruct (get (SELLER_PROFILES L) (s_company s)) as [p0|] eqn:Hget.
  - (* a seller with a profile *)
    destruct (get_In _ _ _ Hget) as [k0 Hk0].
    destruct (HL _ _ Hk0) as [d Hd]. rewrite Hd.
    destruct (incr_phrases_keeps_plain d phrases) as [d' Hd'].
    destruct (incr_phrases (PlainDict d) phrases) as [pc [ex|]];
      cbn [fst] in Hd'; subst pc.
    + cbn [fst SELLER_PROFILES]. intros Hin.
      apply in_set in Hin as [Hin | ->]; [exact (HL _ _ Hin)|].
      eexists; reflexivity.
    + cbv zeta. cbn [total_submissions].
      destruct (_ =? 0); cbn [fst SELLER_PROFILES]; intros Hin;
        apply in_set in Hin as [Hin | ->];
        try exact (HL _ _ Hin); eexists; reflexivity.
  - (* a new seller *)
    cbn [recurring_phrases].
    pose proof (incr_phrases_default_returns (DefaultDict []) phrases []
                  eq_refl) as Hret.
    destruct (incr_phrases (DefaultDict []) phrases) as [pc ex].
    cbn [snd] in Hret. subst ex.
    cbv zeta. cbn [total_submissions]. change (0 + 1 =? 0) with false.
    cbn [fst SELLER_PROFILES]. intros Hin.
    apply in_set in Hin as [Hin | ->]; [exact (HL _ _ Hin)|].
    eexists; reflexivity.
Qed.

Lemma fold_submit_plain_counts (subs : list submission) (L : ledger) :
  plain_counts L ->
  plain_counts (fold_left (fun L s => fst (submit L s)) subs L).
Proof.
  revert L. induction subs as [|s l IH]; intros L HL; [exact HL|].
  cbn [fold_left]. apply IH. now apply submit_plain_counts.
Qed.

(** After any sequence of calls every profile holds plain counts. *)
Lemma ledger_after_plain_counts (subs : list submission) :
  plain_counts (ledger_after subs).
Proof.
  apply fold_submit_plain_counts. intros k p [].
Qed.

(** After any sequence of calls, a seller that has a profile cannot
    submit a phrase that its profile does not count yet: the call raises
    [KeyError]. *)
Lemma returning_seller_new_phrase_raises (subs : list submission)
    (s : submission) (p : profile) :
  get (SELLER_PROFILES (ledger_after subs)) (s_company s) = Some p ->
  (exists c, In c (s_claims s)
             /\ get (counts (recurring_phrases p)) (nlp_engine.phrase c) = None) ->
  exists q, snd (submit (ledger_after subs) s) = Raise (KeyError q).
Proof.
  intros Hp Hnew.
  destruct (get_In _ _ _ Hp) as [k Hk].
  destruct (ledger_after_plain_counts subs _ _ Hk) as [d Hd].
  rewrite Hd in Hnew. cbn [counts] in Hnew.
  destruct (known_seller_new_phrase_raises (ledger_after subs) (s_now s)
              (s_company s) (s_product s) (s_verdict s) (s_score s)
              (s_claims s) p d Hp Hd Hnew) as [q [Hq _]].
  exists q. exact Hq.
Qed.

Lemma fold_submit_no_profile (subs : list submission) (L : ledger)
    (company_name : str) :
  get (SELLER_PROFILES L) company_name = None ->
  Forall (fun s => s_company s <> company_name) subs ->
  get (SELLER_PROFILES (fold_left (fun L s => fst (submit L s)) subs L))
      company_name = None.
Proof.
  revert L. induction subs as [|s l IH]; intros L HL Hsubs; [exact HL|].
  cbn [fold_left]. inversion Hsubs as [|s' l' Hs Hl]; subst.
  apply IH; [|exact Hl]. unfold submit.
  rewrite record_submission_other by congruence. exact HL.
Qed.

End HistoryFacts.

(** Claim C9.  Lookup misses give defaults.  A claimed certificate type
    that the registry does not hold for the company gets a NOT_FOUND
    result among the verification results, with an empty remediation when
    the guidance table has no entry for it; a category that the table of
    recommendations does not hold gives no missing recommendation; a
    company without any submission gets the placeholder profile with 0
    submissions, LOW and the message of no prior history. *)
Theorem lookup_misses_degrade_to_defaults :
  forall (REGISTRY : list cert_matcher.record) (today : PyDate.date)
         (company_name : str) (claimed_certs : list str) (category : str),
    let v := cert_matcher.verify_certificates REGISTRY today company_name
               claimed_certs category in
    (forall c,
        In c claimed_certs ->
        (forall r, In r REGISTRY -> ~ matches_ci company_name c r) ->
        let res := cert_matcher._verify_single_cert REGISTRY today company_name
                     c category in
        In res (cert_matcher.verification_results v)
        /\ cert_matcher.cert res = c
        /\ cert_matcher.status res = cert_matcher.NOT_FOUND
        /\ cert_matcher.remediation res
           = Some (PyDict.get_default cert_matcher.CERT_GUIDANCE c [])
        /\ (PyDict.get cert_matcher.CERT_GUIDANCE c = None ->
            cert_matcher.remediation res = Some []))
    /\ (PyDict.get cert_matcher.recommendations (lower category) = None ->
        cert_matcher.missing_recommended v = [])
    /\ (forall subs,
           Forall (fun s => History.s_company s <> company_name) subs ->
           predictive_engine.get_seller_risk_profile (History.ledger_after subs)
             company_name
           = inr {| predictive_engine.ph_company := company_name;
                    predictive_engine.ph_total_submissions := 0;
                    predictive_engine.ph_alert_level := u "LOW";
                    predictive_engine.message :=
                      u "No prior submission history found" |}).
Proof.
  intros REGISTRY today company_name claimed category v.
  split; [|split].
  - intros c Hc Hnone res.
    pose proof (verify_single_cert_cases REGISTRY today company_name c category)
      as Hcases.
    cbv zeta in Hcases. fold res in Hcases.
    rewrite (filter_no_match _ _ _ Hnone) in Hcases.
    destruct Hcases as [Hs [_ Hrem]].
    split; [|split; [|split; [exact Hs | split; [exact Hrem|]]]].
    + subst v res. unfold cert_matcher.verify_certificates.
      cbn [cert_matcher.verification_results].
      apply (in_map (fun c0 => cert_matcher._verify_single_cert REGISTRY today
                                 company_name c0 category)).
      exact Hc.
    + subst res. unfold cert_matcher._verify_single_cert.
      rewrite (filter_no_match _ _ _ Hnone). reflexivity.
    + intros Hg. rewrite Hrem. unfold PyDict.get_default. now rewrite Hg.
  - intros Hcat. subst v.
    unfold cert_matcher.verify_certificates,
      cert_matcher._identify_missing_certs, PyDict.get_default.
    cbn [cert_matcher.missing_recommended]. now rewrite Hcat.
  - intros subs Hsubs. unfold predictive_engine.get_seller_risk_profile.
    unfold History.ledger_after.
    now rewrite (fold_submit_no_profile subs predictive_engine.empty_ledger
                   company_name eq_refl Hsubs).
Qed.

(** The theorem of claim C9 for a company that is neither in the sample
    registry nor in the ledger, a certificate type without guidance and a
    category without recommendations. *)
Lemma lookup_misses_degrade_to_defaults_witness :
  let v := cert_matcher.verify_certificates Samples.registry Samples.today
             (u "Nordic Pulp AB") [u "FSC"; u "B Corp"] (u "electronics") in
  let res := cert_matcher._verify_single_cert Samples.registry Samples.today
               (u "Nordic Pulp AB") (u "B Corp") (u "electronics") in
  (forall r, In r Samples.registry ->
             ~ matches_ci (u "Nordic Pulp AB") (u "B Corp") r)
  /\ PyDict.get cert_matcher.CERT_GUIDANCE (u "B Corp") = None
  /\ PyDict.get cert_matcher.recommendations (lower (u "electronics")) = None
  /\ Forall (fun s => History.s_company s <> u "Nordic Pulp AB")
            Samples.greenwood
  /\ cert_matcher.status res = cert_matcher.NOT_FOUND
  /\ cert_matcher.remediation res = Some []
  /\ cert_matcher.missing_recommended v = []
  /\ predictive_engine.get_seller_risk_profile
       (History.ledger_after Samples.greenwood) (u "Nordic Pulp AB")
     = inr {| predictive_engine.ph_company := u "Nordic Pulp AB";
              predictive_engine.ph_total_submissions := 0;
              predictive_engine.ph_alert_level := u "LOW";
              predictive_engine.message :=
                u "No prior submission history found" |}.
Proof.
  intros v res.
  assert (Hnone : forall r, In r Samples.registry ->
                            ~ matches_ci (u "Nordic Pulp AB") (u "B Corp") r).
  { intros r [<- | [<- | [<- | []]]] [H _]; vm_compute in H; discriminate. }
  assert (Hsubs : Forall (fun s => History.s_company s <> u "Nordic Pulp AB")
                         Samples.greenwood).
  { repeat constructor; vm_compute; discriminate. }
  pose proof (lookup_misses_degrade_to_defaults Samples.registry Samples.today
                (u "Nordic Pulp AB") [u "FSC"; u "B Corp"] (u "electronics"))
    as [Hcert [Hcat Hprofile]].
  destruct (Hcert (u "B Corp") (or_intror (or_introl eq_refl)) Hnone)
    as [_ [_ [Hs [_ Hrem]]]].
  split; [exact Hnone|]. split; [reflexivity|]. split; [reflexivity|].
  split; [exact Hsubs|]. split; [exact Hs|].
  split; [exact (Hrem eq_refl)|]. split; [exact (Hcat eq_refl)|].
  exact (Hprofile Samples.greenwood Hsubs).
Defined.

(* ================================================================== *)
(** * More on the seller ledger *)
(* ================================================================== *)

Section LedgerHistoryFacts.

Import PyDict PyNum predictive_engine History.

Lemma len_app {A : Type} (l m : list A) : len (l ++ m) = len l + len m.
Proof. unfold len. rewrite length_app. lia. Qed.

Lemma submit_history (L : ledger) (s : submission) :
  SUBMISSION_HISTORY (fst (submit L s)) = SUBMISSION_HISTORY L ++ [entry_of s].
Proof.
  unfold submit, record_submission.
  destruct (_update_seller_profile _ _ _) as [profiles outcome]. reflexivity.
Qed.

Lemma fold_submit_history (subs : list submission) (L : ledger) :
  SUBMISSION_HISTORY (fold_left (fun L s => fst (submit L s)) subs L)
  = SUBMISSION_HISTORY L ++ map entry_of subs.
Proof.
  revert L. induction subs as [|s l IH]; intros L; cbn [fold_left map].
  - now rewrite app_nil_r.
  - rewrite IH, submit_history, <- app_assoc. reflexivity.
Qed.

Lemma review_branch (v : str) :
  negb (eqb v (u "GREENWASHED")) && eqb v (u "REVIEW_REQUIRED")
  = eqb v (u "REVIEW_REQUIRED").
Proof.
  destruct (eqb v (u "REVIEW_REQUIRED")) eqn:E; [|apply andb_false_r].
  apply eqb_eq in E. subst v. reflexivity.
Qed.

(** The counters a call leaves in the profile of its company, whether it
    returns or raises. *)
Lemma update_seller_profile_counters (profiles : dict profile) (k : str)
    (e : entry) :
  let p0 := match get profiles k with
            | Some p => p
            | None => blank_profile k e
            end in
  let gw := if eqb (verdict e) (u "GREENWASHED") then 1 else 0 in
  let rv := if eqb (verdict e) (u "REVIEW_REQUIRED") then 1 else 0 in
  exists p,
    get (fst (_update_seller_profile profiles k e)) k = Some p
    /\ company p = company p0
    /\ total_submissions p = total_submissions p0 + 1
    /\ greenwashed_count p = greenwashed_count p0 + gw
    /\ review_count p = review_count p0 + rv
    /\ verified_count p = verified_count p0 + (1 - gw - rv)
    /\ total_risk_score p = total_risk_score p0 + risk_score e
    /\ first_seen p = first_seen p0
    /\ last_seen p = timestamp e.
Proof.
  intros p0 gw rv. unfold _update_seller_profile.
  fold (blank_profile k e). fold p0. rewrite review_branch.
  assert (Hv : (if negb (eqb (verdict e) (u "GREENWASHED"))
                   && negb (eqb (verdict e) (u "REVIEW_REQUIRED"))
                then 1 else 0) = 1 - gw - rv).
  { subst gw rv. destruct (eqb (verdict e) (u "GREENWASHED")) eqn:E1;
      destruct (eqb (verdict e) (u "REVIEW_REQUIRED")) eqn:E2;
      try reflexivity.
    apply eqb_eq in E1, E2. rewrite E1 in E2. vm_compute in E2. discriminate. }
  destruct (incr_phrases (recurring_phrases p0) (claim_phrases e))
    as [phrases [ex|]].
  - cbn [fst]. eexists. rewrite get_set, eqb_refl. split; [reflexivity|].
    cbn [company total_submissions greenwashed_count review_count
         verified_count total_risk_score first_seen last_seen].
    rewrite Hv. repeat split; reflexivity.
  - cbv zeta. cbn [total_submissions].
    destruct (_ =? 0); cbn [fst]; eexists; rewrite get_set, eqb_refl;
      (split; [reflexivity|]);
      cbn [company total_submissions greenwashed_count review_count
           verified_count total_risk_score first_seen last_seen];
      rewrite Hv; repeat split; reflexivity.
Qed.

Lemma entries_of_snoc (k : str) (history : list entry) (e : entry) :
  entries_of k (history ++ [e])
  = entries_of k history ++ (if eqb (e_company e) k then [e] else []).
Proof.
  unfold entries_of. rewrite filter_app. cbn [filter].
  destruct (eqb (e_company e) k); reflexivity.
Qed.

Lemma count_verdict_snoc (v : str) (history : list entry) (e : entry) :
  count_verdict v (history ++ [e])
  = count_verdict v history + (if eqb (verdict e) v then 1 else 0).
Proof.
  unfold count_verdict. rewrite map_app, filter_app, len_app. cbn [map filter].
  destruct (eqb (verdict e) v); reflexivity.
Qed.

Lemma sum_scores_snoc (history : list entry) (e : entry) :
  fold_right Z.add 0 (map risk_score (history ++ [e]))
  = fold_right Z.add 0 (map risk_score history) + risk_score e.
Proof.
  induction history as [|x l IH]; cbn [app map fold_right]; lia.
Qed.

Lemma count_verdict_nonneg (v : str) (history : list entry) :
  0 <= count_verdict v history.
Proof. unfold count_verdict. apply len_nonneg. Qed.

(** A call keeps the ledger in agreement with its history. *)
Lemma submit_consistent (L : ledger) (s : submission) :
  consistent L -> consistent (fst (submit L s)).
Proof.
  intros HL k. rewrite submit_history, entries_of_snoc.
  cbn [entry_of e_company].
  destruct (eqb (s_company s) k) eqn:Ek.
  - (* the company of the call *)
    apply eqb_eq in Ek. subst k.
    specialize (HL (s_company s)).
    destruct (update_seller_profile_counters (SELLER_PROFILES L) (s_company s)
                (entry_of s))
      as [p [Hget [Hco [Ht [Hg [Hr [Hv [Hs [Hf Hl]]]]]]]]].
    assert (Hget' : get (SELLER_PROFILES (fst (submit L s))) (s_company s)
                    = Some p).
    { unfold submit, record_submission.
      fold (entry_of s).
      destruct (_update_seller_profile (SELLER_PROFILES L) (s_company s)
                  (entry_of s)) as [profiles outcome].
      exact Hget. }
    rewrite Hget'. clear Hget Hget'.
    set (mine := entries_of (s_company s) (SUBMISSION_HISTORY L)) in *.
    unfold summarises.
    rewrite len_app, !count_verdict_snoc, sum_scores_snoc, map_app, rev_app_distr.
    cbn [entry_of verdict risk_score timestamp map rev app hd_error len
         List.length] in *.
    change (len [entry_of s]) with 1.
    destruct (get (SELLER_PROFILES L) (s_company s)) as [p0|].
    + destruct HL as [Hne [Hc0 [Ht0 [Hg0 [Hr0 [Hv0 [Hs0 [Hf0 Hl0]]]]]]]].
      split; [destruct mine; discriminate|].
      split; [congruence|]. split; [lia|].
      split; [lia|]. split; [lia|].
      split; [lia|]. split; [lia|].
      split; [|congruence].
      destruct mine as [|e0 rest]; [contradiction|].
      cbn [map app hd_error] in *. congruence.
    + rewrite HL. cbn [blank_profile company total_submissions
                       greenwashed_count review_count verified_count
                       total_risk_score first_seen] in *.
      cbn [app map hd_error fold_right len List.length count_verdict filter].
      unfold count_verdict in *. cbn [map filter len List.length] in *.
      split; [discriminate|]. split; [exact Hco|].
      split; [exact Ht|]. split; [exact Hg|]. split; [exact Hr|].
      split; [rewrite Hv; cbn; lia|]. split; [exact Hs|].
      split; [rewrite Hf; reflexivity | congruence].
  - (* another company *)
    apply eqb_neq in Ek.
    unfold submit. rewrite record_submission_other by congruence.
    rewrite app_nil_r. apply HL.
Qed.

Lemma fold_submit_consistent (subs : list submission) (L : ledger) :
  consistent L -> consistent (fold_left (fun L s => fst (submit L s)) subs L).
Proof.
  revert L. induction subs as [|s l IH]; intros L HL; [exact HL|].
  cbn [fold_left]. apply IH. now apply submit_consistent.
Qed.

Lemma ledger_after_consistent (subs : list submission) :
  consistent (ledger_after subs).
Proof. apply fold_submit_consistent. intros k. reflexivity. Qed.

End LedgerHistoryFacts.

Section LedgerCallFacts.

Import PyDict PyNum predictive_engine History.

Lemma get_default_set (d : dict Z) (k q : str) (v : Z) :
  get_default (set d k v) q 0 = if eqb q k then v else get_default d q 0.
Proof.
  unfold get_default. rewrite get_set. destruct (eqb q k); reflexivity.
Qed.

Lemma occurrences_cons (q p : str) (l : list str) :
  occurrences q (p :: l) = (if eqb q p then 1 else 0) + occurrences q l.
Proof.
  unfold occurrences, len. cbn [filter].
  destruct (eqb q p); cbn [List.length]; lia.
Qed.

(** One step of the loop over the phrases, when it does not raise. *)
Lemma incr_phrase_counts (pc pc' : phrase_counts) (p : str) :
  incr_phrase pc p = Ok pc' ->
  counts pc' = set (counts pc) p (get_default (counts pc) p 0 + 1)
  /\ (forall d, pc = PlainDict d -> exists d', pc' = PlainDict d').
Proof.
  destruct pc as [d|d]; cbn [incr_phrase counts].
  - intros H. injection H as <-. split; [reflexivity|]. discriminate.
  - unfold get_default. destruct (get d p) as [c|]; [|discriminate].
    intros H. injection H as <-. split; [reflexivity|].
    intros d0 _. eexists; reflexivity.
Qed.

(** A loop over the phrases that ends without exception has added to
    each count the occurrences of its phrase. *)
Lemma incr_phrases_counts (pc : phrase_counts) (phrases : list str) :
  snd (incr_phrases pc phrases) = None ->
  forall q,
    get_default (counts (fst (incr_phrases pc phrases))) q 0
    = get_default (counts pc) q 0 + occurrences q phrases.
Proof.
  revert pc. induction phrases as [|p l IH]; intros pc Hnone q.
  - cbn [incr_phrases fst]. unfold occurrences, len. cbn. lia.
  - cbn [incr_phrases] in *.
    destruct (incr_phrase pc p) as [pc'|e] eqn:E; [|discriminate].
    rewrite (IH pc' Hnone q), occurrences_cons.
    destruct (incr_phrase_counts _ _ _ E) as [-> _].
    rewrite get_default_set.
    destruct (eqb q p) eqn:Eq; [|lia].
    apply eqb_eq in Eq. subst q. lia.
Qed.

(** On a plain [dict] that holds every phrase the loop does not raise. *)
Lemma incr_phrases_all_counted (d : dict Z) (phrases : list str) :
  (forall q, In q phrases -> get d q <> None) ->
  snd (incr_phrases (PlainDict d) phrases) = None.
Proof.
  revert d. induction phrases as [|p l IH]; intros d H; [reflexivity|].
  cbn [incr_phrases incr_phrase].
  destruct (get d p) as [c|] eqn:Ep; [|exfalso; apply (H p); [now left | exact Ep]].
  apply IH. intros q Hq. rewrite get_set.
  destruct (eqb q p); [discriminate | apply H; now right].
Qed.

(** The outcome of a call by the outcome of its loop over the phrases. *)
Lemma submit_outcome (L : ledger) (s : submission) :
  let p0 := match get (SELLER_PROFILES L) (s_company s) with
            | Some p => p
            | None => blank_profile (s_company s) (entry_of s)
            end in
  let loop := incr_phrases (recurring_phrases p0)
                (map nlp_engine.phrase (s_claims s)) in
  total_submissions p0 + 1 <> 0 ->
  snd (submit L s)
  = match snd loop with
    | Some ex => Raise ex
    | None => Ok tt
    end
  /\ (snd loop = None ->
      exists p,
        get (SELLER_PROFILES (fst (submit L s))) (s_company s) = Some p
        /\ recurring_phrases p = PlainDict (counts (fst loop))
        /\ total_submissions p = total_submissions p0 + 1
        /\ greenwashed_count p
           = greenwashed_count p0
             + (if eqb (s_verdict s) (u "GREENWASHED") then 1 else 0)
        /\ alert_level p = _compute_alert_level p
        /\ avg_risk_score p
           = Some (round (true_div (total_risk_score p0 + s_score s)
                                   (total_submissions p0 + 1)))
        /\ first_seen p = first_seen p0
        /\ last_seen p = s_now s).
Proof.
  intros p0 loop Hz. subst loop p0.
  unfold submit, record_submission, _update_seller_profile, blank_profile,
    entry_of in *.
  cbn [claim_phrases timestamp verdict risk_score] in *.
  destruct (get (SELLER_PROFILES L) (s_company s)) as [p|];
    (destruct (incr_phrases _ (map nlp_engine.phrase (s_claims s)))
       as [phrases [ex|]]; cbn [snd fst];
     [split; [reflexivity | discriminate]|]);
    cbv zeta; cbn [total_submissions] in *;
    apply Z.eqb_neq in Hz; rewrite Hz; cbn [snd fst SELLER_PROFILES];
    (split; [reflexivity|]); intros _;
    eexists; rewrite get_set, eqb_refl; (split; [reflexivity|]);
    cbn [recurring_phrases total_submissions greenwashed_count alert_level
         avg_risk_score total_risk_score first_seen last_seen];
    repeat split; reflexivity.
Qed.

(** A call that returns has not divided by zero. *)
Lemma submit_returns_no_zero_division (L : ledger) (s : submission) :
  snd (submit L s) = Ok tt ->
  total_submissions
    match get (SELLER_PROFILES L) (s_company s) with
    | Some p => p
    | None => blank_profile (s_company s) (entry_of s)
    end + 1 <> 0.
Proof.
  unfold submit, record_submission, _update_seller_profile, blank_profile,
    entry_of.
  cbn [claim_phrases timestamp verdict risk_score].
  destruct (get (SELLER_PROFILES L) (s_company s)) as [p|];
    [|intros _; cbn; lia].
  destruct (incr_phrases _ (map nlp_engine.phrase (s_claims s)))
    as [phrases [ex|]]; cbn [snd fst]; [discriminate|].
  cbv zeta. cbn [total_submissions].
  destruct (Z.eqb_spec (total_submissions p + 1) 0); cbn [snd];
    [discriminate | auto].
Qed.

Lemma round_true_div_1 (x : Z) : round (true_div x 1) = x.
Proof.
  unfold round, true_div, Qdiv, Qinv, Qmult, inject_Z. cbn [Qnum Qden].
  rewrite Z.mul_1_r. change (Z.pos (1 * 1)) with 1.
  rewrite Z.div_1_r, Z.mod_1_r. cbn. reflexivity.
Qed.

Lemma Qleb_true_div_r (a : Z) (b : positive) (g n : Z) :
  0 < n -> Qleb (a # b) (true_div g n) = (a * n <=? g * Z.pos b).
Proof.
  intros Hn. destruct n as [|p|p]; try lia.
  unfold Qleb, true_div, Qdiv, Qinv, Qmult, inject_Z. cbn [Qnum Qden].
  rewrite Z.mul_1_r, Pos.mul_1_l. reflexivity.
Qed.

Lemma alert_words_distinct :
  u "HIGH" <> u "MEDIUM" /\ u "HIGH" <> u "LOW" /\ u "MEDIUM" <> u "LOW".
Proof. repeat split; vm_compute; discriminate. Qed.

End LedgerCallFacts.

(** Extra X1.  Every call of [record_submission] appends one entry to the
    history, also a call that raises: after any sequence of calls the
    history is the list of their entries in call order, the audit log is
    that list most recent first, and the statistics count every call. *)
Theorem history_records_every_call :
  forall subs : list History.submission,
    let L := History.ledger_after subs in
    predictive_engine.SUBMISSION_HISTORY L = map entry_of subs
    /\ predictive_engine.get_all_submissions L = map entry_of (rev subs)
    /\ predictive_engine.total_scanned (predictive_engine.get_platform_stats L)
       = len subs.
Proof.
  intros subs L.
  assert (H : predictive_engine.SUBMISSION_HISTORY L = map entry_of subs).
  { subst L. unfold History.ledger_after. now rewrite fold_submit_history. }
  split; [exact H|]. split.
  - unfold predictive_engine.get_all_submissions. now rewrite H, map_rev.
  - unfold predictive_engine.get_platform_stats. rewrite H.
    destruct subs as [|s l]; [reflexivity|].
    cbn [map predictive_engine.total_scanned]. unfold len.
    now rewrite !length_cons, length_map.
Qed.

(** Extra X2.  After any sequence of calls, returned or raised, a company
    has a profile exactly when the history holds an entry of it, and the
    counters of the profile are those of its entries: their number, the
    numbers of GREENWASHED and of REVIEW_REQUIRED verdicts, all other
    verdicts under [verified_count], the sum of the scores, and the times
    of the first and of the last entry. *)
Theorem profile_counters_match_history :
  forall (subs : list History.submission) (k : str),
    let L := History.ledger_after subs in
    let mine := entries_of k (predictive_engine.SUBMISSION_HISTORY L) in
    match PyDict.get (predictive_engine.SELLER_PROFILES L) k with
    | None => mine = []
    | Some p =>
        summarises p k mine
        /\ predictive_engine.total_submissions p
           = predictive_engine.greenwashed_count p
             + predictive_engine.review_count p
             + predictive_engine.verified_count p
        /\ 1 <= predictive_engine.total_submissions p
    end.
Proof.
  intros subs k L mine.
  pose proof (ledger_after_consistent subs k) as H.
  fold L in H. fold mine in H.
  destruct (PyDict.get (predictive_engine.SELLER_PROFILES L) k) as [p|];
    [|exact H].
  split; [exact H|].
  destruct H as [Hne [_ [Ht [Hg [Hr [Hv _]]]]]].
  split; [lia|].
  rewrite Ht. destruct mine; [contradiction|]. unfold len.
  rewrite length_cons. lia.
Qed.

(** When a call returns, on a ledger that agrees with its history and
    holds plain counts. *)
Lemma submit_returns_iff_counted (L : predictive_engine.ledger)
    (s : History.submission) :
  consistent L -> plain_counts L ->
  (snd (History.submit L s) = Ok tt
   <-> match PyDict.get (predictive_engine.SELLER_PROFILES L)
               (History.s_company s) with
       | None => True
       | Some p =>
           forall c, In c (History.s_claims s) ->
                     PyDict.get (predictive_engine.counts
                                   (predictive_engine.recurring_phrases p))
                                (nlp_engine.phrase c) <> None
       end).
Proof.
  intros Hcons0 Hplain.
  pose proof (Hcons0 (History.s_company s)) as Hcons.
  pose proof (submit_outcome L s) as Hout. cbv zeta in Hout.
  destruct (PyDict.get (predictive_engine.SELLER_PROFILES L)
              (History.s_company s)) as [p|] eqn:Hget.
  - destruct (get_In _ _ _ Hget) as [k Hk].
    destruct (Hplain _ _ Hk) as [d Hd].
    assert (Hz : predictive_engine.total_submissions p + 1 <> 0).
    { destruct Hcons as [_ [_ [Ht _]]]. rewrite Ht.
      pose proof (len_nonneg
                    (entries_of (History.s_company s)
                       (predictive_engine.SUBMISSION_HISTORY L))). lia. }
    destruct (Hout Hz) as [Hsnd _]. rewrite Hsnd, Hd.
    cbn [predictive_engine.counts].
    split.
    + intros Hok c Hc Hnone.
      destruct (incr_phrases_plain d (map nlp_engine.phrase (History.s_claims s)))
        as [d' [q [Hq _]]].
      { exists (nlp_engine.phrase c). split; [now apply in_map | exact Hnone]. }
      rewrite Hq in Hok. cbn [snd] in Hok. discriminate.
    + intros Hall.
      rewrite incr_phrases_all_counted; [reflexivity|].
      intros q Hq. apply in_map_iff in Hq as [c [<- Hc]]. now apply Hall.
  - destruct (Hout ltac:(cbn; lia)) as [Hsnd _]. rewrite Hsnd.
    cbn [blank_profile predictive_engine.recurring_phrases].
    rewrite (incr_phrases_default_returns _ _ [] eq_refl).
    split; auto.
Qed.

Lemma incr_phrases_plain_cases (d : PyDict.dict Z) (phrases : list str) :
  snd (predictive_engine.incr_phrases (predictive_engine.PlainDict d) phrases)
  = None
  \/ exists q,
       In q phrases /\ PyDict.get d q = None
       /\ snd (predictive_engine.incr_phrases (predictive_engine.PlainDict d)
                 phrases) = Some (KeyError q).
Proof.
  revert d. induction phrases as [|p l IH]; intros d; [now left|].
  cbn [predictive_engine.incr_phrases predictive_engine.incr_phrase].
  destruct (PyDict.get d p) as [c|] eqn:Ep.
  - destruct (IH (PyDict.set d p (c + 1))) as [H | [q [Hq [Hnone Hex]]]];
      [now left|].
    right. exists q. split; [now right|]. split; [|exact Hex].
    rewrite get_set in Hnone. destruct (eqb q p); [discriminate | exact Hnone].
  - right. exists p. split; [now left|]. split; [exact Ep | reflexivity].
Qed.

(** A call that does not return raises [KeyError] for a phrase that the
    profile of its company does not count. *)
Lemma submit_ok_or_key_error (L : predictive_engine.ledger)
    (s : History.submission) :
  consistent L -> plain_counts L ->
  snd (History.submit L s) = Ok tt
  \/ exists p q,
       PyDict.get (predictive_engine.SELLER_PROFILES L) (History.s_company s)
       = Some p
       /\ In q (map nlp_engine.phrase (History.s_claims s))
       /\ PyDict.get (predictive_engine.counts
                        (predictive_engine.recurring_phrases p)) q = None
       /\ snd (History.submit L s) = Raise (KeyError q).
Proof.
  intros Hcons0 Hplain.
  pose proof (Hcons0 (History.s_company s)) as Hcons.
  pose proof (submit_outcome L s) as Hout. cbv zeta in Hout.
  destruct (PyDict.get (predictive_engine.SELLER_PROFILES L)
              (History.s_company s)) as [p|] eqn:Hget.
  - destruct (get_In _ _ _ Hget) as [k Hk].
    destruct (Hplain _ _ Hk) as [d Hd].
    assert (Hz : predictive_engine.total_submissions p + 1 <> 0).
    { destruct Hcons as [_ [_ [Ht _]]]. rewrite Ht.
      pose proof (len_nonneg
                    (entries_of (History.s_company s)
                       (predictive_engine.SUBMISSION_HISTORY L))). lia. }
    destruct (Hout Hz) as [Hsnd _]. rewrite Hsnd, Hd.
    destruct (incr_phrases_plain_cases d
                (map nlp_engine.phrase (History.s_claims s)))
      as [H | [q [Hq [Hnone Hex]]]].
    + left. rewrite H. reflexivity.
    + right. exists p, q. split; [reflexivity|]. split; [exact Hq|].
      rewrite Hd. cbn [predictive_engine.counts]. split; [exact Hnone|].
      rewrite Hex. reflexivity.
  - left. destruct (Hout ltac:(cbn; lia)) as [Hsnd _]. rewrite Hsnd.
    cbn [blank_profile predictive_engine.recurring_phrases].
    rewrite (incr_phrases_default_returns _ _ [] eq_refl). reflexivity.
Qed.

(** Extra X3.  After any sequence of calls, a call of [record_submission]
    returns exactly when its company has no profile yet or the profile
    already counts every phrase of the submitted claims; otherwise it
    raises [KeyError] for a phrase of the claims that the profile does not
    count. *)
Theorem submission_returns_iff_phrases_counted :
  forall (subs : list History.submission) (s : History.submission),
    let L := History.ledger_after subs in
    let stored := PyDict.get (predictive_engine.SELLER_PROFILES L)
                    (History.s_company s) in
    (snd (History.submit L s) = Ok tt
     <-> match stored with
         | None => True
         | Some p =>
             forall c, In c (History.s_claims s) ->
                       PyDict.get (predictive_engine.counts
                                     (predictive_engine.recurring_phrases p))
                                  (nlp_engine.phrase c) <> None
         end)
    /\ (snd (History.submit L s) = Ok tt
        \/ exists p q,
             stored = Some p
             /\ In q (map nlp_engine.phrase (History.s_claims s))
             /\ PyDict.get (predictive_engine.counts
                              (predictive_engine.recurring_phrases p)) q = None
             /\ snd (History.submit L s) = Raise (KeyError q)).
Proof.
  intros subs s L stored.
  pose proof (ledger_after_consistent subs) as Hcons.
  pose proof (ledger_after_plain_counts subs) as Hplain.
  split.
  - now apply submit_returns_iff_counted.
  - now apply submit_ok_or_key_error.
Qed.

(** Extra X4.  A call of [record_submission] that returns adds, for every
    phrase, the number of times the phrase occurs among the submitted
    claims to the count the profile of the company held before (0 for a
    phrase or a company not seen before), and leaves the counts in a plain
    [dict]. *)
Theorem completed_submission_counts_phrases :
  forall (L : predictive_engine.ledger) (s : History.submission),
    snd (History.submit L s) = Ok tt ->
    exists p,
      PyDict.get (predictive_engine.SELLER_PROFILES (fst (History.submit L s)))
                 (History.s_company s) = Some p
      /\ (exists d, predictive_engine.recurring_phrases p
                    = predictive_engine.PlainDict d)
      /\ forall q,
           counted p q
           = match PyDict.get (predictive_engine.SELLER_PROFILES L)
                     (History.s_company s) with
             | Some p0 => counted p0 q
             | None => 0
             end
             + occurrences q (map nlp_engine.phrase (History.s_claims s)).
Proof.
  intros L s Hok.
  destruct (submit_outcome L s (submit_returns_no_zero_division L s Hok))
    as [Hsnd Hprof].
  rewrite Hsnd in Hok.
  destruct (snd (predictive_engine.incr_phrases _ _)) as [ex|] eqn:Eloop;
    [discriminate|].
  destruct (Hprof eq_refl) as [p [Hget [Hrec _]]].
  exists p. split; [exact Hget|]. split; [eexists; exact Hrec|].
  intros q. unfold counted. rewrite Hrec. cbn [predictive_engine.counts].
  rewrite (incr_phrases_counts _ _ Eloop q).
  destruct (PyDict.get (predictive_engine.SELLER_PROFILES L)
              (History.s_company s)); reflexivity.
Qed.

(** The theorem of extra X4 at a first submission that names one phrase
    twice. *)
Lemma completed_submission_counts_phrases_witness :
  let s := {| History.s_now := u "2026-11-02T09:15:00";
              History.s_company := u "GreenWood Ltd";
              History.s_product := u "Bamboo Desk";
              History.s_verdict := u "GREENWASHED";
              History.s_score := 80;
              History.s_claims := [Samples.claim_of "eco-friendly";
                                   Samples.claim_of "eco-friendly";
                                   Samples.claim_of "zero impact"] |} in
  snd (History.submit predictive_engine.empty_ledger s) = Ok tt
  /\ exists p,
       PyDict.get (predictive_engine.SELLER_PROFILES
                     (fst (History.submit predictive_engine.empty_ledger s)))
                  (u "GreenWood Ltd") = Some p
       /\ counted p (u "eco-friendly") = 2
       /\ counted p (u "zero impact") = 1
       /\ counted p (u "organic") = 0.
Proof.
  intros s.
  assert (Hok : snd (History.submit predictive_engine.empty_ledger s) = Ok tt)
    by reflexivity.
  split; [exact Hok|].
  destruct (completed_submission_counts_phrases predictive_engine.empty_ledger s
              Hok) as [p [Hget [_ Hq]]].
  exists p. split; [exact Hget|].
  split; [exact (Hq (u "eco-friendly"))|].
  split; [exact (Hq (u "zero impact")) | exact (Hq (u "organic"))].
Defined.

(** Extra X5.  The first submission of a company always returns.  It
    leaves a profile with one submission, the score as average, both
    times at the time of the call, and the alert level HIGH when the
    verdict is GREENWASHED (the rate is then 1/1) and LOW otherwise. *)
Theorem first_submission_sets_alert_level :
  forall (L : predictive_engine.ledger) (s : History.submission),
    PyDict.get (predictive_engine.SELLER_PROFILES L) (History.s_company s)
    = None ->
    snd (History.submit L s) = Ok tt
    /\ exists p,
         PyDict.get (predictive_engine.SELLER_PROFILES
                       (fst (History.submit L s)))
                    (History.s_company s) = Some p
         /\ predictive_engine.total_submissions p = 1
         /\ predictive_engine.avg_risk_score p = Some (History.s_score s)
         /\ predictive_engine.first_seen p = History.s_now s
         /\ predictive_engine.last_seen p = History.s_now s
         /\ predictive_engine.alert_level p
            = if eqb (History.s_verdict s) (u "GREENWASHED")
              then u "HIGH" else u "LOW".
Proof.
  intros L s Hnew.
  pose proof (submit_outcome L s) as Hout. cbv zeta in Hout.
  rewrite Hnew in Hout.
  destruct (Hout ltac:(cbn; lia)) as [Hsnd Hprof]. clear Hout.
  cbn [blank_profile predictive_engine.recurring_phrases] in Hsnd, Hprof.
  rewrite (incr_phrases_default_returns _ _ [] eq_refl) in Hsnd, Hprof.
  split; [exact Hsnd|].
  destruct (Hprof eq_refl) as [p [Hget [_ [Ht [Hg [Ha [Hav [Hf Hl]]]]]]]].
  cbn [blank_profile predictive_engine.total_submissions
       predictive_engine.greenwashed_count predictive_engine.total_risk_score
       predictive_engine.first_seen] in *.
  exists p. split; [exact Hget|]. split; [exact Ht|].
  split; [rewrite Hav; cbn [Z.add]; now rewrite round_true_div_1|].
  split; [exact Hf|]. split; [exact Hl|].
  rewrite Ha. unfold predictive_engine._compute_alert_level.
  rewrite Ht, Hg.
  destruct (eqb (History.s_verdict s) (u "GREENWASHED")); reflexivity.
Qed.

(** The theorem of extra X5 at the first submission of the sample history
    of GreenWood Ltd, judged GREENWASHED. *)
Lemma first_submission_sets_alert_level_witness :
  let s := hd (History.Build_submission [] [] [] [] 0 []) Samples.greenwood in
  PyDict.get (predictive_engine.SELLER_PROFILES predictive_engine.empty_ledger)
             (History.s_company s) = None
  /\ snd (History.submit predictive_engine.empty_ledger s) = Ok tt
  /\ exists p,
       PyDict.get (predictive_engine.SELLER_PROFILES
                     (fst (History.submit predictive_engine.empty_ledger s)))
                  (u "GreenWood Ltd") = Some p
       /\ predictive_engine.alert_level p = u "HIGH".
Proof.
  intros s.
  destruct (first_submission_sets_alert_level predictive_engine.empty_ledger s
              eq_refl) as [Hok [p [Hget [_ [_ [_ [_ Ha]]]]]]].
  split; [reflexivity|]. split; [exact Hok|].
  exists p. split; [exact Hget | exact Ha].
Defined.

(** Extra X6.  The alert level in whole numbers, with [n] the number of
    submissions (at least 1): HIGH exactly when there are 3 greenwashed
    submissions or 5 times their number reaches 3 [n]; otherwise MEDIUM
    exactly when there are 2 or 10 times their number reaches 3 [n];
    otherwise LOW.  So a profile without greenwashed submission is LOW and
    one with nothing but greenwashed submissions is HIGH. *)
Theorem alert_level_thresholds :
  forall p : predictive_engine.profile,
    let g := predictive_engine.greenwashed_count p in
    let n := Z.max (predictive_engine.total_submissions p) 1 in
    let level := predictive_engine._compute_alert_level p in
    let high := 3 <= g \/ 3 * n <= 5 * g in
    let medium := 2 <= g \/ 3 * n <= 10 * g in
    (level = u "HIGH" <-> high)
    /\ (level = u "MEDIUM" <-> ~ high /\ medium)
    /\ (level = u "LOW" <-> ~ high /\ ~ medium)
    /\ (g = 0 -> level = u "LOW")
    /\ (1 <= g -> g = predictive_engine.total_submissions p -> level = u "HIGH").
Proof.
  intros p g n level high medium.
  assert (Hn : 0 < n) by (subst n; lia).
  destruct alert_words_distinct as [D1 [D2 D3]].
  assert (Hlevel : level
                   = if (6 * n <=? g * 10) || (3 <=? g) then u "HIGH"
                     else if (3 * n <=? g * 10) || (2 <=? g) then u "MEDIUM"
                     else u "LOW").
  { subst level. unfold predictive_engine._compute_alert_level.
    fold g. fold n.
    now rewrite (Qleb_true_div_r 6 10 g n Hn), (Qleb_true_div_r 3 10 g n Hn). }
  subst high medium. rewrite Hlevel.
  destruct (Z.leb_spec (6 * n) (g * 10)); destruct (Z.leb_spec 3 g);
    destruct (Z.leb_spec (3 * n) (g * 10)); destruct (Z.leb_spec 2 g);
    cbn [orb]; repeat split; intros; try lia; try congruence;
    try (subst n; lia).
Qed.

Section SortFacts.

Import predictive_engine.

Context {A : Type} (ltb : A -> A -> bool).

Lemma insert_desc_In (x a : A) (l : list A) :
  In a (insert_desc ltb x l) <-> a = x \/ In a l.
Proof.
  induction l as [|y l IH]; cbn [insert_desc].
  - simpl. intuition.
  - destruct (ltb x y); simpl; [rewrite IH|]; intuition.
Qed.

Lemma sorted_desc_In (a : A) (l : list A) :
  In a (sorted_desc ltb l) <-> In a l.
Proof.
  unfold sorted_desc. induction l as [|x l IH]; cbn [fold_right]; [reflexivity|].
  rewrite insert_desc_In, IH. simpl. intuition.
Qed.

Lemma filter_insert_desc_length (f : A -> bool) (x : A) (l : list A) :
  List.length (filter f (insert_desc ltb x l))
  = List.length (filter f (x :: l)).
Proof.
  induction l as [|y l IH]; cbn [insert_desc]; [reflexivity|].
  destruct (ltb x y); [|reflexivity].
  cbn [filter] in *. destruct (f y), (f x); cbn [List.length] in *; lia.
Qed.

Lemma filter_sorted_desc_length (f : A -> bool) (l : list A) :
  List.length (filter f (sorted_desc ltb l)) = List.length (filter f l).
Proof.
  unfold sorted_desc. induction l as [|x l IH]; cbn [fold_right]; [reflexivity|].
  rewrite filter_insert_desc_length. cbn [filter].
  destruct (f x); cbn [List.length]; lia.
Qed.

Lemma sorted_desc_length (l : list A) :
  List.length (sorted_desc ltb l) = List.length l.
Proof.
  pose proof (filter_sorted_desc_length (fun _ => true) l) as H.
  rewrite !forallb_filter_id in H by (apply forallb_forall; auto).
  exact H.
Qed.

(** With an order that is asymmetric and whose complement is transitive,
    no element of the sorted list is below a later one. *)
Hypothesis ltb_asym : forall a b, ltb a b = true -> ltb b a = false.
Hypothesis ltb_trans :
  forall a b c, ltb a b = false -> ltb b c = false -> ltb a c = false.

Lemma insert_desc_sorted (x : A) (l : list A) :
  StronglySorted (fun a b => ltb a b = false) l ->
  StronglySorted (fun a b => ltb a b = false) (insert_desc ltb x l).
Proof.
  induction 1 as [|y l Hl IH Hy]; cbn [insert_desc].
  - repeat constructor.
  - destruct (ltb x y) eqn:E.
    + constructor; [exact IH|].
      apply Forall_forall. intros a Ha. apply insert_desc_In in Ha as [-> | Ha].
      * now apply ltb_asym.
      * rewrite Forall_forall in Hy. now apply Hy.
    + constructor; [now constructor|].
      constructor; [exact E|].
      eapply Forall_impl; [|exact Hy]. intros a Ha. exact (ltb_trans _ _ _ E Ha).
Qed.

Lemma sorted_desc_sorted (l : list A) :
  StronglySorted (fun a b => ltb a b = false) (sorted_desc ltb l).
Proof.
  unfold sorted_desc. induction l as [|x l IH]; cbn [fold_right].
  - constructor.
  - now apply insert_desc_sorted.
Qed.

End SortFacts.

Lemma StronglySorted_impl {A : Type} (R S : A -> A -> Prop) (l : list A) :
  (forall a b, In a l -> In b l -> R a b -> S a b) ->
  StronglySorted R l -> StronglySorted S l.
Proof.
  intros H Hs. induction Hs as [|x l Hl IH Hx]; constructor.
  - apply IH. intros a b Ha Hb. apply H; now right.
  - rewrite Forall_forall in *. intros b Hb.
    apply H; [now left | now right | now apply Hx].
Qed.

Lemma StronglySorted_firstn {A : Type} (R : A -> A -> Prop) (n : nat)
    (l : list A) :
  StronglySorted R l -> StronglySorted R (firstn n l).
Proof.
  intros Hs. revert n. induction Hs as [|x l Hl IH Hx]; intros [|n];
    cbn [firstn]; try constructor.
  - apply IH.
  - rewrite Forall_forall in *. intros b Hb. apply Hx.
    rewrite <- (firstn_skipn n l). apply in_or_app. now left.
Qed.

Lemma StronglySorted_split {A : Type} (R : A -> A -> Prop) (n : nat)
    (l : list A) (x y : A) :
  StronglySorted R l -> In x (firstn n l) -> In y (skipn n l) -> R x y.
Proof.
  intros Hs. revert n. induction Hs as [|z l Hl IH Hz]; intros [|n];
    cbn [firstn skipn]; try contradiction.
  intros [-> | Hx] Hy.
  - rewrite Forall_forall in Hz. apply Hz.
    rewrite <- (firstn_skipn n l). apply in_or_app. now right.
  - exact (IH n Hx Hy).
Qed.

Section AlertFacts.

Import PyDict predictive_engine.

Lemma count_ltb_asym (a b : str * Z) :
  (snd a <? snd b) = true -> (snd b <? snd a) = false.
Proof. intros H. apply Z.ltb_lt in H. apply Z.ltb_ge. lia. Qed.

Lemma count_ltb_trans (a b c : str * Z) :
  (snd a <? snd b) = false -> (snd b <? snd c) = false ->
  (snd a <? snd c) = false.
Proof. rewrite !Z.ltb_ge. lia. Qed.

Lemma alert_key_ltb_false (a b : alert) :
  alert_key_ltb a b = false
  <-> (eqb (a_alert_level b) (u "HIGH") = true ->
       eqb (a_alert_level a) (u "HIGH") = true)
      /\ (eqb (a_alert_level a) (u "HIGH") = eqb (a_alert_level b) (u "HIGH") ->
          a_greenwashed_count b <= a_greenwashed_count a).
Proof.
  unfold alert_key_ltb.
  destruct (eqb (a_alert_level a) (u "HIGH")),
           (eqb (a_alert_level b) (u "HIGH"));
    cbn [negb andb orb Bool.eqb]; rewrite ?Z.ltb_ge;
    split; intros; repeat split; intros; try lia; try congruence;
    intuition (try discriminate; try lia).
Qed.

Lemma alert_key_ltb_asym (a b : alert) :
  alert_key_ltb a b = true -> alert_key_ltb b a = false.
Proof.
  unfold alert_key_ltb.
  destruct (eqb (a_alert_level a) (u "HIGH")),
           (eqb (a_alert_level b) (u "HIGH"));
    cbn [negb andb orb Bool.eqb]; rewrite ?Z.ltb_lt, ?Z.ltb_ge;
    intros; try discriminate; try reflexivity; lia.
Qed.

Lemma alert_key_ltb_trans (a b c : alert) :
  alert_key_ltb a b = false -> alert_key_ltb b c = false ->
  alert_key_ltb a c = false.
Proof.
  unfold alert_key_ltb.
  destruct (eqb (a_alert_level a) (u "HIGH")),
           (eqb (a_alert_level b) (u "HIGH")),
           (eqb (a_alert_level c) (u "HIGH"));
    cbn [negb andb orb Bool.eqb]; rewrite ?Z.ltb_ge;
    intros; try discriminate; try reflexivity; lia.
Qed.

(** The alerts before the final sort: one per profile at HIGH or MEDIUM. *)
Lemma alerts_In (profiles : dict profile) (a : alert) :
  In a (flat_map
          (fun kv : str * profile =>
             if mem (alert_level (snd kv)) [u "HIGH"; u "MEDIUM"]
             then [alert_of (fst kv) (snd kv)]
             else [])
          profiles)
  <-> exists k p, In (k, p) profiles /\ alerting p /\ a = alert_of k p.
Proof.
  rewrite in_flat_map. split.
  - intros [[k p] [Hin Ha]]. cbn [fst snd] in Ha.
    destruct (mem (alert_level p) [u "HIGH"; u "MEDIUM"]) eqn:E;
      [|contradiction].
    destruct Ha as [<- | []]. exists k, p. split; [exact Hin|].
    split; [|reflexivity].
    apply mem_In in E. unfold alerting. simpl in E. intuition.
  - intros [k [p [Hin [Hal ->]]]]. exists (k, p). split; [exact Hin|].
    cbn [fst snd].
    assert (E : mem (alert_level p) [u "HIGH"; u "MEDIUM"] = true).
    { apply mem_In. destruct Hal as [-> | ->]; simpl; auto. }
    rewrite E. now left.
Qed.

End AlertFacts.

(** Extra X7.  The early-alert list holds exactly the alerts of the
    profiles at HIGH or MEDIUM, so never a profile at LOW and never the
    action of monitoring; the action is the escalation exactly for HIGH
    and the warning notice exactly for MEDIUM; every HIGH alert comes
    before every MEDIUM alert, and within a level the greenwashed counts do
    not go up. *)
Theorem early_alerts_membership_and_order :
  forall L : predictive_engine.ledger,
    let alerts := predictive_engine.get_early_alerts L in
    (forall a,
        In a alerts
        <-> exists k p,
              In (k, p) (predictive_engine.SELLER_PROFILES L)
              /\ alerting p /\ a = predictive_engine.alert_of k p)
    /\ Forall
         (fun a =>
            (predictive_engine.a_alert_level a = u "HIGH"
             /\ predictive_engine.recommended_action a
                = u "Escalate for formal investigation — pattern of repeated greenwashing detected")
            \/ (predictive_engine.a_alert_level a = u "MEDIUM"
                /\ predictive_engine.recommended_action a
                   = u "Issue warning notice and require certification submission within 14 days"))
         alerts
    /\ StronglySorted alert_order alerts.
Proof.
  intros L alerts.
  assert (Hin : forall a,
             In a alerts
             <-> exists k p,
                   In (k, p) (predictive_engine.SELLER_PROFILES L)
                   /\ alerting p /\ a = predictive_engine.alert_of k p).
  { intros a. subst alerts. unfold predictive_engine.get_early_alerts.
    rewrite sorted_desc_In. apply alerts_In. }
  split; [exact Hin|]. split.
  - apply Forall_forall. intros a Ha.
    apply Hin in Ha as [k [p [_ [Hal ->]]]].
    unfold predictive_engine.alert_of, predictive_engine._recommend_action.
    cbn [predictive_engine.a_alert_level predictive_engine.recommended_action].
    destruct Hal as [E | E]; rewrite E; [left | right]; split; reflexivity.
  - subst alerts. unfold predictive_engine.get_early_alerts.
    eapply StronglySorted_impl;
      [|apply sorted_desc_sorted;
        [apply alert_key_ltb_asym | apply alert_key_ltb_trans]].
    intros a b _ _ Hab. apply alert_key_ltb_false in Hab as [H1 H2].
    split.
    + intros Hb. apply eqb_eq, H1, eqb_eq, Hb.
    + intros Hsame. apply H2. now rewrite Hsame.
Qed.

(** Extra X8.  The recurring patterns of an alert are at most three
    phrases of the profile, each counted more than once, in an order in
    which the counts do not go up; a phrase counted more than once that is
    left out is counted no more than any phrase that is kept. *)
Theorem alert_recurring_patterns_top_three :
  forall (k : str) (p : predictive_engine.profile),
    let stored := predictive_engine.counts
                    (predictive_engine.recurring_phrases p) in
    let kept := predictive_engine.recurring_patterns
                  (predictive_engine.alert_of k p) in
    len kept <= 3
    /\ Forall (fun pc => In pc stored /\ 1 < snd pc) kept
    /\ StronglySorted (fun x y : str * Z => snd y <= snd x) kept
    /\ (forall pc x,
           In pc stored -> 1 < snd pc -> ~ In pc kept -> In x kept ->
           snd pc <= snd x).
Proof.
  intros k p stored kept.
  set (frequent := filter (fun pc : str * Z => 1 <? snd pc) stored).
  set (sorted := predictive_engine.sorted_desc
                   (fun a b : str * Z => snd a <? snd b) frequent).
  assert (Hkept : kept = firstn 3 sorted) by reflexivity.
  assert (Hsorted : StronglySorted (fun x y : str * Z => snd y <= snd x) sorted).
  { eapply StronglySorted_impl;
      [|apply sorted_desc_sorted;
        [apply count_ltb_asym | apply count_ltb_trans]].
    intros a b _ _ H. cbv beta in H. apply Z.ltb_ge in H. exact H. }
  assert (Hmem : forall pc, In pc sorted <-> In pc stored /\ 1 < snd pc).
  { intros pc. subst sorted frequent.
    rewrite sorted_desc_In, filter_In, Z.ltb_lt. reflexivity. }
  rewrite Hkept. split; [|split; [|split]].
  - unfold len. pose proof (firstn_le_length 3 sorted). lia.
  - apply Forall_forall. intros pc Hpc. apply Hmem.
    rewrite <- (firstn_skipn 3 sorted). apply in_or_app. now left.
  - now apply StronglySorted_firstn.
  - intros pc x Hst Hcnt Hout Hx.
    assert (Hpc : In pc sorted) by (apply Hmem; auto).
    rewrite <- (firstn_skipn 3 sorted) in Hpc.
    apply in_app_or in Hpc as [Hpc | Hpc]; [contradiction|].
    exact (StronglySorted_split _ 3 sorted x pc Hsorted Hx Hpc).
Qed.

Section StatsFacts.

Import PyDict PyNum predictive_engine History.

Lemma count_verdict_cons (v : str) (e : entry) (history : list entry) :
  count_verdict v (e :: history)
  = (if eqb (verdict e) v then 1 else 0) + count_verdict v history.
Proof.
  unfold count_verdict, len. cbn [map filter].
  destruct (eqb (verdict e) v); cbn [List.length]; lia.
Qed.

Lemma three_verdicts_counted_once (v : str) :
  let g := if eqb v (u "GREENWASHED") then 1 else 0 in
  let r := if eqb v (u "REVIEW_REQUIRED") then 1 else 0 in
  let o := if eqb v (u "VERIFIED") then 1 else 0 in
  g + r + o <= 1
  /\ (In v [u "GREENWASHED"; u "REVIEW_REQUIRED"; u "VERIFIED"] ->
      g + r + o = 1).
Proof.
  cbv zeta.
  destruct (eqb v (u "GREENWASHED")) eqn:E1;
    destruct (eqb v (u "REVIEW_REQUIRED")) eqn:E2;
    destruct (eqb v (u "VERIFIED")) eqn:E3;
    try (apply eqb_eq in E1); try (apply eqb_eq in E2);
    try (apply eqb_eq in E3); subst;
    try (vm_compute in E1; discriminate);
    try (vm_compute in E2; discriminate);
    try (vm_compute in E3; discriminate);
    (split; [lia|]); intros H; try lia.
  exfalso. apply eqb_neq in E1, E2, E3.
  destruct H as [H | [H | [H | []]]]; congruence.
Qed.

Lemma verdict_counts_le (history : list entry) :
  let total := count_verdict (u "GREENWASHED") history
               + count_verdict (u "REVIEW_REQUIRED") history
               + count_verdict (u "VERIFIED") history in
  total <= len history
  /\ (Forall (fun e => In (verdict e)
                         [u "GREENWASHED"; u "REVIEW_REQUIRED"; u "VERIFIED"])
             history ->
      total = len history).
Proof.
  cbv zeta. induction history as [|e l [IH1 IH2]].
  - split; [vm_compute; discriminate | reflexivity].
  - rewrite !count_verdict_cons.
    destruct (three_verdicts_counted_once (verdict e)) as [H1 H2].
    cbv zeta in H1, H2.
    replace (len (e :: l)) with (1 + len l)
      by (unfold len; rewrite length_cons; lia).
    split; [lia|].
    intros H. inversion H as [|e' l' He Hl]; subst.
    specialize (H2 He). specialize (IH2 Hl). lia.
Qed.

(** As many profiles at HIGH as alerts at HIGH. *)
Lemma high_profiles_high_alerts (profiles : dict profile) :
  List.length (filter (fun kv : str * profile =>
                         eqb (alert_level (snd kv)) (u "HIGH")) profiles)
  = List.length
      (filter (fun a => eqb (a_alert_level a) (u "HIGH"))
         (flat_map
            (fun kv : str * profile =>
               if mem (alert_level (snd kv)) [u "HIGH"; u "MEDIUM"]
               then [alert_of (fst kv) (snd kv)]
               else [])
            profiles)).
Proof.
  induction profiles as [|[k p] l IH]; [reflexivity|].
  cbn [flat_map filter fst snd]. rewrite filter_app, length_app, <- IH.
  unfold mem. cbn [existsb].
  destruct (eqb (alert_level p) (u "HIGH")) eqn:E.
  - cbn [orb filter alert_of a_alert_level]. rewrite E. reflexivity.
  - cbn [orb]. destruct (eqb (alert_level p) (u "MEDIUM") || false);
      cbn [filter alert_of a_alert_level]; rewrite ?E; reflexivity.
Qed.

End StatsFacts.

(** Extra X9.  The platform statistics after any sequence of calls: the
    three verdict counts add up to at most the number of scanned
    submissions, and to exactly that number when every recorded verdict is
    one of GREENWASHED, REVIEW_REQUIRED, VERIFIED; the number of high-risk
    sellers is the number of HIGH entries of the early-alert list; without
    any call all six figures are 0, and otherwise the average is the
    rounded mean of all recorded scores. *)
Theorem platform_stats_agree_with_ledger :
  forall subs : list History.submission,
    let L := History.ledger_after subs in
    let st := predictive_engine.get_platform_stats L in
    predictive_engine.greenwashed st + predictive_engine.under_review st
    + predictive_engine.verified st <= predictive_engine.total_scanned st
    /\ (Forall (fun s => In (History.s_verdict s)
                           [u "GREENWASHED"; u "REVIEW_REQUIRED"; u "VERIFIED"])
               subs ->
        predictive_engine.greenwashed st + predictive_engine.under_review st
        + predictive_engine.verified st = predictive_engine.total_scanned st)
    /\ predictive_engine.high_risk_sellers st
       = len (filter (fun a => eqb (predictive_engine.a_alert_level a) (u "HIGH"))
                     (predictive_engine.get_early_alerts L))
    /\ (subs = [] ->
        st = {| predictive_engine.total_scanned := 0;
                predictive_engine.greenwashed := 0;
                predictive_engine.under_review := 0;
                predictive_engine.verified := 0;
                predictive_engine.high_risk_sellers := 0;
                predictive_engine.stats_avg_risk_score := 0 |})
    /\ (subs <> [] ->
        predictive_engine.stats_avg_risk_score st
        = PyNum.round
            (PyNum.true_div (fold_right Z.add 0 (map History.s_score subs))
                            (len subs))).
Proof.
  intros subs L st.
  assert (Hh : predictive_engine.SUBMISSION_HISTORY L = map entry_of subs).
  { subst L. unfold History.ledger_after. now rewrite fold_submit_history. }
  destruct subs as [|s subs].
  - (* no call *)
    repeat split; try reflexivity; try (vm_compute; discriminate).
  - assert (Hst : st
                  = let history := predictive_engine.SUBMISSION_HISTORY L in
                    {| predictive_engine.total_scanned := len history;
                       predictive_engine.greenwashed :=
                         predictive_engine.count_verdict (u "GREENWASHED") history;
                       predictive_engine.under_review :=
                         predictive_engine.count_verdict (u "REVIEW_REQUIRED")
                           history;
                       predictive_engine.verified :=
                         predictive_engine.count_verdict (u "VERIFIED") history;
                       predictive_engine.high_risk_sellers :=
                         len (filter
                                (fun kv : str * predictive_engine.profile =>
                                   eqb (predictive_engine.alert_level (snd kv))
                                       (u "HIGH"))
                                (predictive_engine.SELLER_PROFILES L));
                       predictive_engine.stats_avg_risk_score :=
                         PyNum.round
                           (PyNum.true_div
                              (fold_right Z.add 0
                                 (map predictive_engine.risk_score history))
                              (len history)) |}).
    { subst st. unfold predictive_engine.get_platform_stats.
      rewrite Hh. reflexivity. }
    rewrite Hst. cbv zeta.
    cbn [predictive_engine.total_scanned predictive_engine.greenwashed
         predictive_engine.under_review predictive_engine.verified
         predictive_engine.high_risk_sellers
         predictive_engine.stats_avg_risk_score].
    destruct (verdict_counts_le (predictive_engine.SUBMISSION_HISTORY L))
      as [Hle Heq].
    cbv zeta in Hle, Heq.
    split; [exact Hle|]. split; [|split; [|split]].
    + intros Hall. apply Heq. rewrite Hh. apply Forall_map.
      exact Hall.
    + unfold predictive_engine.get_early_alerts, len.
      now rewrite filter_sorted_desc_length, high_profiles_high_alerts.
    + discriminate.
    + intros _. rewrite Hh, map_map. cbn [entry_of predictive_engine.risk_score].
      unfold len. now rewrite length_map.
Qed.

Section FirstSubmissionFacts.

Import PyDict PyNum predictive_engine History.

Lemma get_set_key {V : Type} (d : dict V) (k q : str) (v : V) :
  get (set d k v) q <> None <-> q = k \/ get d q <> None.
Proof.
  rewrite get_set. destruct (eqb q k) eqn:E.
  - apply eqb_eq in E. split; [now left | discriminate].
  - apply eqb_neq in E. split; [now right | intros [H | H]; congruence].
Qed.

(** The keys the loop of lines 58-59 leaves: a [defaultdict] gains the
    phrases, a plain [dict] keeps its keys, also when the loop raises. *)
Lemma incr_phrases_keys (pc : phrase_counts) (phrases : list str) (q : str) :
  get (counts (fst (incr_phrases pc phrases))) q <> None
  <-> match pc with
      | DefaultDict d => get d q <> None \/ In q phrases
      | PlainDict d => get d q <> None
      end.
Proof.
  revert pc. induction phrases as [|p l IH]; intros pc;
    cbn [incr_phrases].
  - destruct pc; cbn [fst counts]; [|reflexivity].
    split; [now left | intros [H | []]; exact H].
  - destruct pc as [d | d]; cbn [incr_phrase].
    + rewrite IH, get_set_key. cbn [In]. split.
      * intros [[H | H] | H]; auto.
      * intros [H | [H | H]]; auto.
    + destruct (get d p) as [c|] eqn:Hp.
      * rewrite IH, get_set_key. split; [|now right].
        intros [H | H]; [subst q; congruence | exact H].
      * cbn [fst counts]. reflexivity.
Qed.

(** The counts a call leaves in the profile of its company are those of
    the loop, whether the call returns or raises. *)
Lemma update_seller_profile_phrases (profiles : dict profile) (k : str)
    (e : entry) :
  let p0 := match get profiles k with
            | Some p => p
            | None => blank_profile k e
            end in
  exists p,
    get (fst (_update_seller_profile profiles k e)) k = Some p
    /\ counts (recurring_phrases p)
       = counts (fst (incr_phrases (recurring_phrases p0) (claim_phrases e))).
Proof.
  intros p0. unfold _update_seller_profile.
  fold (blank_profile k e). fold p0.
  destruct (incr_phrases (recurring_phrases p0) (claim_phrases e))
    as [phrases [ex|]].
  - cbn [fst]. eexists. rewrite get_set, eqb_refl. split; reflexivity.
  - cbv zeta. cbn [total_submissions].
    destruct (_ =? 0); cbn [fst]; eexists; rewrite get_set, eqb_refl;
      split; reflexivity.
Qed.

Lemma submit_keys_of_first_entry (L : ledger) (s : submission) :
  consistent L -> plain_counts L -> keys_of_first_entry L ->
  keys_of_first_entry (fst (submit L s)).
Proof.
  intros Hcons Hplain Hkeys k p. rewrite submit_history, entries_of_snoc.
  cbn [entry_of e_company].
  destruct (eqb (s_company s) k) eqn:Ek.
  - apply eqb_eq in Ek. subst k.
    destruct (update_seller_profile_phrases (SELLER_PROFILES L) (s_company s)
                (entry_of s)) as [p' [Hget Hcounts]].
    assert (Hget' : get (SELLER_PROFILES (fst (submit L s))) (s_company s)
                    = Some p').
    { unfold submit, record_submission. fold (entry_of s).
      destruct (_update_seller_profile (SELLER_PROFILES L) (s_company s)
                  (entry_of s)) as [profiles outcome].
      exact Hget. }
    rewrite Hget'. intros Hp. injection Hp as <-.
    specialize (Hcons (s_company s)). specialize (Hkeys (s_company s)).
    destruct (get (SELLER_PROFILES L) (s_company s)) as [p0|] eqn:H0.
    + destruct (Hkeys p0 eq_refl) as [e0 [rest [Hmine Hq]]].
      destruct (get_In _ _ _ H0) as [k' Hk'].
      destruct (Hplain _ _ Hk') as [d Hd].
      exists e0, (rest ++ [entry_of s]). rewrite Hmine.
      split; [reflexivity|]. intros q.
      rewrite Hcounts, incr_phrases_keys, Hd, <- Hq, Hd. reflexivity.
    + exists (entry_of s), []. rewrite Hcons.
      split; [reflexivity|]. intros q.
      rewrite Hcounts, incr_phrases_keys.
      cbn [blank_profile recurring_phrases get].
      split; [intros [H | H]; [congruence | exact H] | now right].
  - apply eqb_neq in Ek. unfold submit.
    rewrite record_submission_other by congruence.
    rewrite app_nil_r. apply Hkeys.
Qed.

Lemma ledger_after_snoc (subs : list submission) (s : submission) :
  ledger_after (subs ++ [s]) = fst (submit (ledger_after subs) s).
Proof. unfold ledger_after. rewrite fold_left_app. reflexivity. Qed.

Lemma ledger_after_keys_of_first_entry (subs : list submission) :
  keys_of_first_entry (ledger_after subs).
Proof.
  induction subs as [|s l IH] using rev_ind.
  - intros k p H. discriminate.
  - rewrite ledger_after_snoc. apply submit_keys_of_first_entry.
    + apply ledger_after_consistent.
    + apply ledger_after_plain_counts.
    + exact IH.
Qed.

End FirstSubmissionFacts.

(** Extra X23.  After any sequence of calls, the phrases a profile counts
    are exactly the phrases of the first entry of its company: no later
    call adds a phrase.  So a later call for that company returns exactly
    when every phrase of its claims was a phrase of the first submission
    of the company. *)
Theorem phrase_keys_are_those_of_the_first_submission :
  forall (subs : list History.submission) (k : str)
         (p : predictive_engine.profile),
    let L := History.ledger_after subs in
    PyDict.get (predictive_engine.SELLER_PROFILES L) k = Some p ->
    exists e rest,
      entries_of k (map entry_of subs) = e :: rest
      /\ (forall q,
             PyDict.get (predictive_engine.counts
                           (predictive_engine.recurring_phrases p)) q <> None
             <-> In q (predictive_engine.claim_phrases e))
      /\ (forall s,
             History.s_company s = k ->
             (snd (History.submit L s) = Ok tt
              <-> incl (map nlp_engine.phrase (History.s_claims s))
                       (predictive_engine.claim_phrases e))).
Proof.
  intros subs k p L Hget.
  destruct (ledger_after_keys_of_first_entry subs k p Hget)
    as [e [rest [Hmine Hq]]].
  exists e, rest.
  split.
  { rewrite <- Hmine. unfold History.ledger_after.
    rewrite fold_submit_history. reflexivity. }
  split; [exact Hq|].
  intros s Hs.
  pose proof (submit_returns_iff_counted L s (ledger_after_consistent subs)
                (ledger_after_plain_counts subs)) as Hret.
  rewrite Hs, Hget in Hret. split.
  - intros Hok q Hin. apply in_map_iff in Hin as [c [<- Hc]].
    apply Hq. now apply (proj1 Hret Hok).
  - intros Hincl. apply Hret. intros c Hc. apply Hq. apply Hincl.
    now apply in_map.
Qed.

(** The theorem of extra X23 at the three submissions of GreenWood Ltd:
    the profile counts the one phrase of the first of them. *)
Lemma phrase_keys_are_those_of_the_first_submission_witness :
  exists p e rest,
    PyDict.get (predictive_engine.SELLER_PROFILES
                  (History.ledger_after Samples.greenwood))
               (u "GreenWood Ltd") = Some p
    /\ entries_of (u "GreenWood Ltd") (map entry_of Samples.greenwood)
       = e :: rest
    /\ (forall q,
           PyDict.get (predictive_engine.counts
                         (predictive_engine.recurring_phrases p)) q <> None
           <-> In q (predictive_engine.claim_phrases e)).
Proof.
  eexists.
  assert (Hget : PyDict.get (predictive_engine.SELLER_PROFILES
                               (History.ledger_after Samples.greenwood))
                            (u "GreenWood Ltd") = Some _)
    by (vm_compute; reflexivity).
  destruct (phrase_keys_are_those_of_the_first_submission Samples.greenwood
              (u "GreenWood Ltd") _ Hget) as [e [rest [Hmine [Hq _]]]].
  exists e, rest. split; [exact Hget|]. split; [exact Hmine | exact Hq].
Defined.

(* ================================================================== *)
(** * More on the risk scorer *)
(* ================================================================== *)

Section ScorerShapeFacts.

Import PyDict PyNum risk_scorer.

Variable SDG_TARGETS : dict target_data.

Lemma fold_score_claim_breakdown (claims : list nlp_engine.claim) (st : scoring) :
  len (snd (fst (fold_left (score_claim SDG_TARGETS) claims st)))
  = len (snd (fst st)) + len claims.
Proof.
  revert st. induction claims as [|c l IH]; intros st; cbn [fold_left].
  - unfold len at 3. cbn. lia.
  - rewrite IH. destruct st as [[s b] f]. unfold score_claim. cbn [fst snd].
    rewrite len_app. unfold len. cbn [List.length]. lia.
Qed.

Lemma fold_score_cert_breakdown (certs : list cert_matcher.cert_result)
    (st : Q * list breakdown_entry) :
  len (snd (fold_left (score_cert CERT_STATUS_PENALTIES) certs st))
  = len (snd st) + len (filter penalised certs).
Proof.
  revert st. induction certs as [|c l IH]; intros st; cbn [fold_left filter].
  - unfold len at 3. cbn. lia.
  - rewrite IH. destruct st as [s b]. unfold score_cert, penalised.
    rewrite cert_penalty_spec.
    destruct (0 <? spec_cert_points c); cbn [fst snd].
    + rewrite len_app. unfold len. cbn [List.length]. lia.
    + lia.
Qed.

(** The fields of the result by the accumulated state. *)
Lemma calculate_risk_score_fields claims certs flags proof ai :
  let r := calculate_risk_score SDG_TARGETS claims certs flags proof ai in
  let st := accumulate SDG_TARGETS CERT_STATUS_PENALTIES claims certs flags
              proof ai in
  risk_score r = Z.min (round (fst (fst st))) 100
  /\ verdict r = _classify_verdict (risk_score r)
  /\ visibility_impact r = _calculate_visibility_impact (risk_score r)
  /\ score_breakdown r = snd (fst st)
  /\ sdg_targets_affected r = snd st
  /\ total_claims r = len claims
  /\ total_cert_failures r
     = len (filter (fun c => negb (eqb (cert_matcher.status c)
                                       cert_matcher.VERIFIED)) certs).
Proof.
  cbv zeta. unfold calculate_risk_score, calculate_risk_score_with.
  destruct (accumulate SDG_TARGETS CERT_STATUS_PENALTIES claims certs flags
              proof ai) as [[s b] f].
  cbn. repeat split; reflexivity.
Qed.

Lemma accumulate_breakdown_length claims certs flags proof ai :
  len (snd (fst (accumulate SDG_TARGETS CERT_STATUS_PENALTIES claims certs
                   flags proof ai)))
  = len claims + len (filter penalised certs)
    + (if negb proof && negb (len claims =? 0) then 1 else 0)
    + (if len flags =? 0 then 0 else 1)
    + (if mem (nlp_engine.risk ai) [u "high"; u "medium"] then 1 else 0).
Proof.
  unfold accumulate.
  pose proof (fold_score_claim_breakdown claims (0 # 1, [], [])) as H1.
  destruct (fold_left (score_claim SDG_TARGETS) claims (0 # 1, [], []))
    as [[s1 b1] f1].
  pose proof (fold_score_cert_breakdown certs (s1, b1)) as H2.
  destruct (fold_left (score_cert CERT_STATUS_PENALTIES) certs (s1, b1))
    as [s2 b2].
  cbn [fst snd] in H1, H2. change (len (@nil breakdown_entry)) with 0 in H1.
  pose proof (len_nonneg claims) as Hc.
  pose proof (len_nonneg flags) as Hf.
  assert (E3 : (0 <? len claims) = negb (len claims =? 0)).
  { destruct (Z.ltb_spec 0 (len claims)), (Z.eqb_spec (len claims) 0);
      simpl; try reflexivity; lia. }
  assert (E4 : (0 <? len flags) = negb (len flags =? 0)).
  { destruct (Z.ltb_spec 0 (len flags)), (Z.eqb_spec (len flags) 0);
      simpl; try reflexivity; lia. }
  rewrite E3, E4. unfold get_default, mem. cbn [get existsb].
  destruct (negb proof && negb (len claims =? 0));
    destruct (len flags =? 0);
    destruct (eqb (nlp_engine.risk ai) (u "high"));
    try destruct (eqb (nlp_engine.risk ai) (u "medium"));
    try destruct (eqb (nlp_engine.risk ai) (u "low"));
    cbn [negb fst snd orb Z.ltb Z.compare];
    rewrite ?len_app; change (len [?x]) with 1;
    unfold len in *; cbn [List.length]; lia.
Qed.

Lemma round_ge (k : Z) (q : Q) : (inject_Z k <= q)%Q -> k <= round q.
Proof.
  intros H. unfold round. destruct q as [n d]. unfold Qle in H.
  cbn [Qnum Qden inject_Z] in *.
  assert (Hf : k <= n / Z.pos d).
  { apply Z.div_le_lower_bound; lia. }
  destruct (2 * (n mod Z.pos d) <? Z.pos d); [lia|].
  destruct (Z.pos d <? 2 * (n mod Z.pos d)); [lia|].
  destruct (Z.even (n / Z.pos d)); lia.
Qed.

Lemma sum_cert_points_ge (certs : list cert_matcher.cert_result)
    (c : cert_matcher.cert_result) :
  In c certs ->
  spec_cert_points c <= fold_right Z.add 0 (map spec_cert_points certs).
Proof.
  induction certs as [|x l IH]; [contradiction|].
  cbn [map fold_right]. intros [-> | H].
  - pose proof (sum_cert_points_nonneg l). lia.
  - pose proof (spec_cert_points_nonneg x). specialize (IH H). lia.
Qed.

End ScorerShapeFacts.

Section ScorerTargetFacts.

Import PyDict PyNum risk_scorer.

Variable SDG_TARGETS : dict target_data.

Lemma has_key_In {V : Type} (d : dict V) (k : str) :
  has_key d k = true <-> In k (map fst d).
Proof.
  unfold has_key. induction d as [|[k0 v0] d IH]; cbn [get map fst In].
  - split; [discriminate | contradiction].
  - destruct (eqb k k0) eqn:E.
    + apply eqb_eq in E. subst. split; auto.
    + rewrite IH. apply eqb_neq in E. split; [auto|].
      intros [H | H]; [congruence | exact H].
Qed.

Lemma set_new_key {V : Type} (d : dict V) (k : str) (v : V) :
  has_key d k = false -> set d k v = d ++ [(k, v)].
Proof.
  unfold has_key. induction d as [|[k0 v0] d IH]; cbn [get set app];
    [reflexivity|].
  destruct (eqb k k0); [discriminate|]. intros H. now rewrite IH.
Qed.

Lemma In_get {V : Type} (d : dict V) (k : str) (v : V) :
  In (k, v) d -> exists v', get d k = Some v'.
Proof.
  induction d as [|[k0 v0] d IH]; [contradiction|]. cbn [get].
  intros [H | H].
  - injection H as -> ->. rewrite eqb_refl. eauto.
  - destruct (eqb k k0); eauto.
Qed.

Lemma find_sdg_target_key (phrase : str) (h : sdg_hit) :
  _find_sdg_target SDG_TARGETS phrase = Some h ->
  exists data, get SDG_TARGETS (target h) = Some data.
Proof.
  unfold _find_sdg_target. intros H.
  apply first_some_In in H as [[id data] [Hin Hf]].
  destruct (existsb _ (keywords data)); [|discriminate].
  injection Hf as <-. cbn [target]. exact (In_get _ _ _ Hin).
Qed.

Lemma score_claim_flags (st : scoring) (c : nlp_engine.claim) :
  flags_follow_breakdown SDG_TARGETS (snd (fst st)) (snd st) ->
  flags_follow_breakdown SDG_TARGETS
                         (snd (fst (score_claim SDG_TARGETS st c)))
                         (snd (score_claim SDG_TARGETS st c)).
Proof.
  destruct st as [[s b] f]. cbn [fst snd]. intros [Hnd [Hiff Htab]].
  unfold score_claim. cbn [fst snd].
  destruct (_find_sdg_target SDG_TARGETS (nlp_engine.phrase c)) as [h|] eqn:Eh;
    cbn [option_map].
  - destruct (find_sdg_target_key _ _ Eh) as [data Hdata]. rewrite Hdata.
    destruct (has_key f (target h)) eqn:Ek.
    + split; [exact Hnd|]. split; [|exact Htab].
      intros id. rewrite Hiff. split.
      * intros [e [He Ht]]. exists e. split; [apply in_or_app; now left | exact Ht].
      * intros [e [He Ht]]. apply in_app_or in He as [He | [<- | []]].
        -- now exists e.
        -- cbn [sdg_target] in Ht. injection Ht as <-.
           apply Hiff. now apply has_key_In.
    + rewrite (set_new_key _ _ _ Ek).
      assert (Hnew : ~ In (target h) (map fst f)).
      { intros H. apply has_key_In in H. congruence. }
      split; [|split].
      * rewrite map_app. cbn [map fst].
        apply NoDup_app; [exact Hnd | repeat constructor; intros [] |].
        intros x Hx [<- | []]. contradiction.
      * intros id. rewrite map_app, in_app_iff, Hiff. cbn [map fst In]. split.
        -- intros [[e [He Ht]] | [<- | []]].
           ++ exists e. split; [apply in_or_app; now left | exact Ht].
           ++ eexists. split; [apply in_or_app; right; now left | reflexivity].
        -- intros [e [He Ht]]. apply in_app_or in He as [He | [<- | []]].
           ++ left. now exists e.
           ++ cbn [sdg_target] in Ht. injection Ht as <-. right. now left.
      * intros id d Hin. apply in_app_or in Hin as [Hin | [Hin | []]].
        -- now apply Htab.
        -- injection Hin as <- <-. exact Hdata.
  - split; [exact Hnd|]. split; [|exact Htab].
    intros id. rewrite Hiff. split.
    + intros [e [He Ht]]. exists e. split; [apply in_or_app; now left | exact Ht].
    + intros [e [He Ht]]. apply in_app_or in He as [He | [<- | []]].
      * now exists e.
      * discriminate.
Qed.

Lemma fold_score_claim_flags (claims : list nlp_engine.claim) (st : scoring) :
  flags_follow_breakdown SDG_TARGETS (snd (fst st)) (snd st) ->
  let st' := fold_left (score_claim SDG_TARGETS) claims st in
  flags_follow_breakdown SDG_TARGETS (snd (fst st')) (snd st').
Proof.
  revert st. induction claims as [|c l IH]; intros st H; [exact H|].
  cbn [fold_left]. apply IH. now apply score_claim_flags.
Qed.

(** Entries added after the claims name no target. *)
Lemma flags_follow_longer_breakdown (b tail : list breakdown_entry)
    (f : dict target_data) :
  Forall (fun e => sdg_target e = None) tail ->
  flags_follow_breakdown SDG_TARGETS b f ->
  flags_follow_breakdown SDG_TARGETS (b ++ tail) f.
Proof.
  intros Htail [Hnd [Hiff Htab]]. split; [exact Hnd|]. split; [|exact Htab].
  intros id. rewrite Hiff. split.
  - intros [e [He Ht]]. exists e. split; [apply in_or_app; now left | exact Ht].
  - intros [e [He Ht]]. apply in_app_or in He as [He | He]; [now exists e|].
    rewrite Forall_forall in Htail. rewrite (Htail e He) in Ht. discriminate.
Qed.

Lemma fold_score_cert_tail (table : dict Z)
    (certs : list cert_matcher.cert_result) (st : Q * list breakdown_entry) :
  exists tail,
    snd (fold_left (score_cert table) certs st) = snd st ++ tail
    /\ Forall (fun e => sdg_target e = None) tail.
Proof.
  revert st. induction certs as [|c l IH]; intros st; cbn [fold_left].
  - exists []. now rewrite app_nil_r.
  - destruct (IH (score_cert table st c)) as [tail [Ht Hf]].
    rewrite Ht. destruct st as [s b]. unfold score_cert.
    destruct (0 <? get_default table (cert_matcher.status c) 0); cbn [snd].
    + eexists. rewrite <- app_assoc. split; [reflexivity|].
      constructor; [reflexivity | exact Hf].
    + now exists tail.
Qed.

Lemma accumulate_flags claims certs flags proof ai :
  let st := accumulate SDG_TARGETS CERT_STATUS_PENALTIES claims certs flags
              proof ai in
  flags_follow_breakdown SDG_TARGETS (snd (fst st)) (snd st).
Proof.
  cbv zeta. unfold accumulate.
  pose proof (fold_score_claim_flags claims (0 # 1, [], [])) as H1.
  cbv zeta in H1.
  destruct (fold_left (score_claim SDG_TARGETS) claims (0 # 1, [], []))
    as [[s1 b1] f1].
  cbn [fst snd] in H1.
  assert (H0 : flags_follow_breakdown SDG_TARGETS b1 f1).
  { apply H1. split; [constructor|]. split; [|intros id d []].
    intros id. split; [intros [] | intros [e [[] _]]]. }
  destruct (fold_score_cert_tail CERT_STATUS_PENALTIES certs (s1, b1))
    as [tail [Ht Hf]].
  destruct (fold_left (score_cert CERT_STATUS_PENALTIES) certs (s1, b1))
    as [s2 b2].
  cbn [snd] in Ht. subst b2.
  pose proof (flags_follow_longer_breakdown b1 tail f1 Hf H0) as H2.
  destruct (negb proof && (0 <? len claims));
    destruct (0 <? len flags);
    destruct (0 <? get_default _ (nlp_engine.risk ai) 0);
    cbn [fst snd];
    repeat match goal with
           | |- flags_follow_breakdown _ (_ ++ [_]) _ =>
               apply flags_follow_longer_breakdown; [repeat constructor|]
           end;
    exact H2.
Qed.

End ScorerTargetFacts.

(** Extra X10.  The visibility impact always goes with the verdict: BOOST
    exactly for VERIFIED, HOLD exactly for REVIEW_REQUIRED, DEMOTE exactly
    for GREENWASHED. *)
Theorem visibility_follows_verdict :
  forall (SDG_TARGETS : PyDict.dict risk_scorer.target_data)
         (claims : list nlp_engine.claim)
         (cert_results : list cert_matcher.cert_result)
         (red_flags : list nlp_engine.red_flag)
         (has_proof_markers : bool)
         (ai_generated_risk : nlp_engine.ai_risk),
    let r := risk_scorer.calculate_risk_score SDG_TARGETS claims cert_results
               red_flags has_proof_markers ai_generated_risk in
    let act := risk_scorer.action (risk_scorer.visibility_impact r) in
    (act = u "BOOST" <-> risk_scorer.verdict r = u "VERIFIED")
    /\ (act = u "HOLD" <-> risk_scorer.verdict r = u "REVIEW_REQUIRED")
    /\ (act = u "DEMOTE" <-> risk_scorer.verdict r = u "GREENWASHED").
Proof.
  intros SDG claims certs flags proof ai r act.
  destruct (calculate_risk_score_fields SDG claims certs flags proof ai)
    as [_ [Hv [Hi _]]].
  fold r in Hv, Hi. subst act. rewrite Hv, Hi.
  unfold risk_scorer._classify_verdict, risk_scorer._calculate_visibility_impact.
  destruct (risk_scorer.risk_score r <? 20);
    [|destruct (risk_scorer.risk_score r <? 50)];
    cbn [risk_scorer.action];
    repeat split; intros H; try reflexivity;
    vm_compute in H; discriminate.
Qed.

(** Extra X11.  The breakdown has one entry per claim, one per certificate
    result that costs points, and one each for missing proof, red flags
    and AI risk when they apply.  On the results of [verify_certificates]
    the certificate entries are as many as [total_cert_failures] counts. *)
Theorem breakdown_has_one_entry_per_contribution :
  forall (SDG_TARGETS : PyDict.dict risk_scorer.target_data)
         (REGISTRY : list cert_matcher.record) (today : PyDate.date)
         (company_name : str) (claimed_certs : list str) (category : str)
         (claims : list nlp_engine.claim)
         (cert_results : list cert_matcher.cert_result)
         (red_flags : list nlp_engine.red_flag)
         (has_proof_markers : bool)
         (ai_generated_risk : nlp_engine.ai_risk),
    let extras :=
      (if negb has_proof_markers && negb (len claims =? 0) then 1 else 0)
      + (if len red_flags =? 0 then 0 else 1)
      + (if mem (nlp_engine.risk ai_generated_risk) [u "high"; u "medium"]
         then 1 else 0) in
    let r := risk_scorer.calculate_risk_score SDG_TARGETS claims cert_results
               red_flags has_proof_markers ai_generated_risk in
    let verified :=
      cert_matcher.verification_results
        (cert_matcher.verify_certificates REGISTRY today company_name
           claimed_certs category) in
    let r' := risk_scorer.calculate_risk_score SDG_TARGETS claims verified
                red_flags has_proof_markers ai_generated_risk in
    len (risk_scorer.score_breakdown r)
    = len claims + len (filter penalised cert_results) + extras
    /\ len (risk_scorer.score_breakdown r')
       = risk_scorer.total_claims r' + risk_scorer.total_cert_failures r'
         + extras.
Proof.
  intros SDG REGISTRY today company_name claimed category claims certs flags
         proof ai extras r verified r'.
  destruct (calculate_risk_score_fields SDG claims certs flags proof ai)
    as [_ [_ [_ [Hb _]]]].
  destruct (calculate_risk_score_fields SDG claims verified flags proof ai)
    as [_ [_ [_ [Hb' [_ [Hc' Hf']]]]]].
  fold r in Hb. fold r' in Hb', Hc', Hf'.
  rewrite Hb, Hb', Hc', Hf', !accumulate_breakdown_length. fold extras.
  split; [lia|].
  assert (Hsame : filter penalised verified
                  = filter (fun c => negb (eqb (cert_matcher.status c)
                                               cert_matcher.VERIFIED))
                           verified).
  { apply filter_ext_in. intros c Hc.
    pose proof (verification_results_statuses REGISTRY today company_name
                  claimed category) as Hst.
    fold verified in Hst. rewrite Forall_forall in Hst.
    unfold penalised, risk_scorer.spec_cert_points.
    destruct (Hst c Hc) as [<- | [<- | [<- | [<- | []]]]]; reflexivity. }
  rewrite Hsame. lia.
Qed.

(** Extra X12.  With multipliers of the SDG table that are not negative, a
    certificate result that is NOT_FOUND or EXPIRED brings the score to 20
    at least, so the verdict is not VERIFIED and the listing gets no
    BOOST. *)
Theorem failed_certificate_is_never_verified :
  forall (SDG_TARGETS : PyDict.dict risk_scorer.target_data)
         (claims : list nlp_engine.claim)
         (cert_results : list cert_matcher.cert_result)
         (red_flags : list nlp_engine.red_flag)
         (has_proof_markers : bool)
         (ai_generated_risk : nlp_engine.ai_risk)
         (c : cert_matcher.cert_result),
    severities_nonneg SDG_TARGETS ->
    In c cert_results ->
    cert_matcher.status c = cert_matcher.NOT_FOUND
    \/ cert_matcher.status c = cert_matcher.EXPIRED ->
    let r := risk_scorer.calculate_risk_score SDG_TARGETS claims cert_results
               red_flags has_proof_markers ai_generated_risk in
    20 <= risk_scorer.risk_score r
    /\ risk_scorer.verdict r <> u "VERIFIED"
    /\ risk_scorer.action (risk_scorer.visibility_impact r) <> u "BOOST".
Proof.
  intros SDG claims certs flags proof ai c Hsev Hc Hfail r.
  destruct (calculate_risk_score_fields SDG claims certs flags proof ai)
    as [Hs [Hv [Hi _]]].
  fold r in Hs, Hv, Hi.
  assert (Hpts : 20 <= risk_scorer.spec_cert_points c).
  { unfold risk_scorer.spec_cert_points.
    destruct Hfail as [-> | ->]; vm_compute; discriminate. }
  assert (Hacc : (inject_Z 20
                  <= risk_scorer.spec_accumulated_score SDG claims certs flags
                       proof ai)%Q).
  { unfold risk_scorer.spec_accumulated_score.
    apply (Qle_trans _ (0 + inject_Z 20)); [unfold Qle; simpl; lia|].
    apply Qplus_le_compat; [now apply sum_claim_points_nonneg|].
    rewrite <- Zle_Qle.
    pose proof (sum_cert_points_ge certs c Hc).
    pose proof (len_nonneg flags).
    assert (0 <= (if negb proof && negb (len claims =? 0) then 10 else 0))
      by (destruct (negb proof && negb (len claims =? 0)); lia).
    assert (0 <= (if eqb (nlp_engine.risk ai) (u "high") then 15
                  else if eqb (nlp_engine.risk ai) (u "medium") then 8 else 0))
      by (repeat (destruct (eqb _ _); [lia|]); lia).
    lia. }
  assert (Hscore : 20 <= risk_scorer.risk_score r).
  { rewrite Hs, (round_Qeq _ _ (accumulate_spec SDG claims certs flags proof ai)).
    pose proof (round_ge 20 _ Hacc). lia. }
  split; [exact Hscore|].
  rewrite Hv, Hi.
  unfold risk_scorer._classify_verdict, risk_scorer._calculate_visibility_impact.
  destruct (Z.ltb_spec (risk_scorer.risk_score r) 20); [lia|].
  destruct (risk_scorer.risk_score r <? 50); cbn [risk_scorer.action];
    split; intros Hx; vm_compute in Hx; discriminate.
Qed.

(** The theorem of extra X12 at the sample listing of GreenWood Ltd with
    the claimed certificate PEFC, which the sample registry holds for
    another company only. *)
Lemma failed_certificate_is_never_verified_witness :
  let ex := nlp_engine.extract_claims Samples.keywords Samples.listing in
  let certs :=
    cert_matcher.verification_results
      (cert_matcher.verify_certificates Samples.registry Samples.today
         (u "GreenWood Ltd") [u "PEFC"] (u "timber")) in
  let c := cert_matcher._verify_single_cert Samples.registry Samples.today
             (u "GreenWood Ltd") (u "PEFC") (u "timber") in
  let r := risk_scorer.calculate_risk_score Samples.sdg_table
             (nlp_engine.claims ex) certs (nlp_engine.red_flags ex)
             (nlp_engine.has_proof_markers ex)
             (nlp_engine.is_ai_generated_risk ex) in
  severities_nonneg Samples.sdg_table
  /\ In c certs
  /\ cert_matcher.status c = cert_matcher.NOT_FOUND
  /\ 20 <= risk_scorer.risk_score r
  /\ risk_scorer.verdict r <> u "VERIFIED".
Proof.
  intros ex certs c r.
  assert (Hsev : severities_nonneg Samples.sdg_table).
  { intros id data [H | [H | []]]; injection H as _ <-;
      unfold Qle; simpl; lia. }
  assert (Hin : In c certs) by (left; reflexivity).
  assert (Hst : cert_matcher.status c = cert_matcher.NOT_FOUND) by reflexivity.
  split; [exact Hsev|]. split; [exact Hin|]. split; [exact Hst|].
  destruct (failed_certificate_is_never_verified Samples.sdg_table
              (nlp_engine.claims ex) certs (nlp_engine.red_flags ex)
              (nlp_engine.has_proof_markers ex)
              (nlp_engine.is_ai_generated_risk ex) c Hsev Hin (or_introl Hst))
    as [H1 [H2 _]].
  split; [exact H1 | exact H2].
Defined.

(** Extra X13.  The SDG targets reported as affected are listed once each,
    are entries of the SDG table under their identifier, and are exactly
    the targets that the entries of the breakdown name. *)
Theorem affected_targets_are_those_of_the_breakdown :
  forall (SDG_TARGETS : PyDict.dict risk_scorer.target_data)
         (claims : list nlp_engine.claim)
         (cert_results : list cert_matcher.cert_result)
         (red_flags : list nlp_engine.red_flag)
         (has_proof_markers : bool)
         (ai_generated_risk : nlp_engine.ai_risk),
    let r := risk_scorer.calculate_risk_score SDG_TARGETS claims cert_results
               red_flags has_proof_markers ai_generated_risk in
    NoDup (map fst (risk_scorer.sdg_targets_affected r))
    /\ (forall id,
           In id (map fst (risk_scorer.sdg_targets_affected r))
           <-> exists e, In e (risk_scorer.score_breakdown r)
                         /\ risk_scorer.sdg_target e = Some id)
    /\ (forall id data,
           In (id, data) (risk_scorer.sdg_targets_affected r) ->
           PyDict.get SDG_TARGETS id = Some data).
Proof.
  intros SDG claims certs flags proof ai r.
  destruct (calculate_risk_score_fields SDG claims certs flags proof ai)
    as [_ [_ [_ [Hb [Hf _]]]]].
  fold r in Hb, Hf. rewrite Hb, Hf.
  exact (accumulate_flags SDG claims certs flags proof ai).
Qed.

(** Extra X14.  A listing with nothing to score gets nothing: without
    claims, with certificate results that are all VERIFIED, without red
    flags and with an AI risk that is neither high nor medium, the score
    is 0, the verdict VERIFIED, the action BOOST and the breakdown empty,
    whether or not the text has proof markers. *)
Theorem nothing_to_score_gives_zero :
  forall (SDG_TARGETS : PyDict.dict risk_scorer.target_data)
         (cert_results : list cert_matcher.cert_result)
         (has_proof_markers : bool)
         (ai_generated_risk : nlp_engine.ai_risk),
    Forall (fun c => cert_matcher.status c = cert_matcher.VERIFIED)
           cert_results ->
    nlp_engine.risk ai_generated_risk <> u "high" ->
    nlp_engine.risk ai_generated_risk <> u "medium" ->
    let r := risk_scorer.calculate_risk_score SDG_TARGETS [] cert_results []
               has_proof_markers ai_generated_risk in
    risk_scorer.risk_score r = 0
    /\ risk_scorer.verdict r = u "VERIFIED"
    /\ risk_scorer.action (risk_scorer.visibility_impact r) = u "BOOST"
    /\ risk_scorer.score_breakdown r = []
    /\ risk_scorer.sdg_targets_affected r = []
    /\ risk_scorer.total_cert_failures r = 0.
Proof.
  intros SDG certs proof ai Hcerts Hhigh Hmed r.
  assert (Hfold : forall st,
             fold_left (risk_scorer.score_cert risk_scorer.CERT_STATUS_PENALTIES)
                       certs st = st).
  { induction Hcerts as [|c l Hc Hl IH]; intros st; [reflexivity|].
    cbn [fold_left]. rewrite <- (IH st) at 2. f_equal.
    destruct st as [s b]. unfold risk_scorer.score_cert. rewrite Hc.
    reflexivity. }
  assert (Hfail : filter (fun c => negb (eqb (cert_matcher.status c)
                                             cert_matcher.VERIFIED)) certs = []).
  { clear Hfold. induction Hcerts as [|c l Hc Hl IH]; [reflexivity|].
    cbn [filter]. rewrite Hc, eqb_refl. exact IH. }
  apply eqb_neq in Hhigh, Hmed.
  subst r. unfold risk_scorer.calculate_risk_score,
    risk_scorer.calculate_risk_score_with, risk_scorer.accumulate.
  cbn [fold_left]. rewrite Hfold, Hfail.
  unfold PyDict.get_default. cbn [PyDict.get]. rewrite Hhigh, Hmed.
  destruct (eqb (nlp_engine.risk ai) (u "low")), proof; cbn;
    repeat split; reflexivity.
Qed.

(** The theorem of extra X14 for the empty text and the valid FSC record
    of the sample registry alone. *)
Lemma nothing_to_score_gives_zero_witness :
  let ex := nlp_engine.extract_claims Samples.keywords [] in
  let certs :=
    cert_matcher.verification_results
      (cert_matcher.verify_certificates [Samples.fsc_valid] Samples.today
         (u "GreenWood Ltd") [u "FSC"] (u "paper")) in
  let r := risk_scorer.calculate_risk_score Samples.sdg_table [] certs []
             (nlp_engine.has_proof_markers ex)
             (nlp_engine.is_ai_generated_risk ex) in
  Forall (fun c => cert_matcher.status c = cert_matcher.VERIFIED) certs
  /\ risk_scorer.risk_score r = 0
  /\ risk_scorer.verdict r = u "VERIFIED".
Proof.
  intros ex certs r.
  assert (Hcerts : Forall (fun c => cert_matcher.status c
                                    = cert_matcher.VERIFIED) certs)
    by (repeat constructor).
  split; [exact Hcerts|].
  destruct (nothing_to_score_gives_zero Samples.sdg_table certs
              (nlp_engine.has_proof_markers ex)
              (nlp_engine.is_ai_generated_risk ex) Hcerts
              ltac:(vm_compute; discriminate) ltac:(vm_compute; discriminate))
    as [H1 [H2 _]].
  split; [exact H1 | exact H2].
Defined.

Section TargetFacts.

Import PyDict PyNum risk_scorer.

Lemma existsb_related (phrase : str) (data : target_data) :
  existsb (fun keyword =>
             contains (lower keyword) (lower phrase)
             || contains (lower phrase) (lower keyword))
          (keywords data) = true
  <-> related phrase data.
Proof.
  rewrite existsb_exists. unfold related.
  split; intros [k [Hk H]]; exists k; (split; [exact Hk|]).
  - now apply orb_true_iff in H.
  - now apply orb_true_iff.
Qed.

End TargetFacts.

(** Extra X28.  [_find_sdg_target] returns the first target of the table,
    in file order, that shares a keyword with the phrase, with the label
    and the severity of that target; it returns nothing exactly when no
    target of the table shares a keyword with the phrase. *)
Theorem sdg_target_is_the_first_related :
  forall (SDG_TARGETS : PyDict.dict risk_scorer.target_data) (phrase : str),
    match risk_scorer._find_sdg_target SDG_TARGETS phrase with
    | None =>
        forall id data, In (id, data) SDG_TARGETS -> ~ related phrase data
    | Some h =>
        exists pre data post,
          SDG_TARGETS = pre ++ (risk_scorer.target h, data) :: post
          /\ (forall id d, In (id, d) pre -> ~ related phrase d)
          /\ related phrase data
          /\ risk_scorer.hit_label h = risk_scorer.label data
          /\ risk_scorer.hit_severity h = risk_scorer.severity data
    end.
Proof.
  intros SDG_TARGETS phrase. unfold risk_scorer._find_sdg_target.
  induction SDG_TARGETS as [|[id data] l IH]; cbn [PyRe.first_some].
  - intros id data [].
  - destruct (existsb _ (risk_scorer.keywords data)) eqn:E.
    + apply existsb_related in E.
      exists [], data, l. cbn [risk_scorer.target risk_scorer.hit_label
                                 risk_scorer.hit_severity app].
      split; [reflexivity|]. split; [intros ? ? []|].
      split; [exact E|]. split; reflexivity.
    + assert (Hno : ~ related phrase data).
      { intros H. apply existsb_related in H. congruence. }
      destruct (PyRe.first_some _ l) as [h|].
      * destruct IH as [pre [d [post [-> [Hpre [Hrel [Hl Hs]]]]]]].
        exists ((id, data) :: pre), d, post.
        split; [reflexivity|]. split; [|auto].
        intros id' d' [Heq | Hin]; [injection Heq as <- <-; exact Hno|].
        now apply (Hpre id' d').
      * intros id' d' [Heq | Hin]; [injection Heq as <- <-; exact Hno|].
        now apply (IH id' d').
Qed.

Section MonotoneFacts.

Import PyDict PyNum risk_scorer.

(** Rounding keeps the order. *)
Lemma round_mono (p q : Q) : (p <= q)%Q -> round p <= round q.
Proof.
  intros H. unfold round. destruct p as [n d], q as [m e].
  unfold Qle in H. cbn [Qnum Qden] in *.
  set (D := Z.pos d) in *. set (E := Z.pos e) in *.
  assert (HD : 0 < D) by (subst D; lia).
  assert (HE : 0 < E) by (subst E; lia).
  pose proof (Z.div_mod n D ltac:(lia)) as Hn.
  pose proof (Z.div_mod m E ltac:(lia)) as Hm.
  pose proof (Z.mod_pos_bound n D HD) as Hrn.
  pose proof (Z.mod_pos_bound m E HE) as Hrm.
  set (f1 := n / D) in *. set (r1 := n mod D) in *.
  set (f2 := m / E) in *. set (r2 := m mod E) in *.
  assert (Hf : f1 <= f2).
  { subst f1 f2.
    rewrite <- (Z.div_mul_cancel_r n D E) by lia.
    rewrite <- (Z.div_mul_cancel_l m E D) by lia.
    apply Z.div_le_mono; lia. }
  assert (Hcases : f1 + 1 <= f2 \/ (f1 = f2 /\ r1 * E <= r2 * D)).
  { destruct (Z.eq_dec f1 f2) as [Heq | Hne]; [right | left; lia].
    split; [exact Heq|]. rewrite Hn, Hm, Heq in H. nia. }
  destruct Hcases as [Hlt | [Heq Hr]].
  - destruct (Z.ltb_spec (2 * r1) D);
      destruct (Z.ltb_spec (2 * r2) E);
      try destruct (Z.ltb_spec D (2 * r1));
      try destruct (Z.ltb_spec E (2 * r2));
      try destruct (Z.even f1); try destruct (Z.even f2); lia.
  - rewrite <- Heq.
    destruct (Z.ltb_spec (2 * r1) D) as [H1 | H1].
    + destruct (Z.ltb_spec (2 * r2) E); [lia|].
      destruct (Z.ltb_spec E (2 * r2)); [lia|].
      destruct (Z.even f1); lia.
    + destruct (Z.ltb_spec D (2 * r1)) as [H2 | H2].
      * assert (E < 2 * r2) by nia.
        destruct (Z.ltb_spec (2 * r2) E); [lia|].
        destruct (Z.ltb_spec E (2 * r2)); lia.
      * assert (E <= 2 * r2) by nia.
        destruct (Z.ltb_spec (2 * r2) E); [lia|].
        destruct (Z.ltb_spec E (2 * r2)); [destruct (Z.even f1); lia|].
        lia.
Qed.

Variable SDG_TARGETS : dict target_data.
Hypothesis severities : severities_nonneg SDG_TARGETS.

Lemma sum_claim_points_app (l l' : list nlp_engine.claim) :
  (fold_right Qplus (0 # 1) (map (spec_claim_points SDG_TARGETS) l)
   <= fold_right Qplus (0 # 1) (map (spec_claim_points SDG_TARGETS) (l ++ l')))%Q.
Proof.
  induction l as [|c l IH]; cbn [app map fold_right].
  - now apply sum_claim_points_nonneg.
  - apply Qplus_le_compat; [apply Qle_refl | exact IH].
Qed.

Lemma sum_cert_points_app (l l' : list cert_matcher.cert_result) :
  fold_right Z.add 0 (map spec_cert_points l)
  <= fold_right Z.add 0 (map spec_cert_points (l ++ l')).
Proof.
  induction l as [|c l IH]; cbn [app map fold_right].
  - apply sum_cert_points_nonneg.
  - lia.
Qed.

(** More findings, at least as many points. *)
Lemma spec_accumulated_score_app claims claims' certs certs' flags flags'
    proof ai :
  (spec_accumulated_score SDG_TARGETS claims certs flags proof ai
   <= spec_accumulated_score SDG_TARGETS (claims ++ claims') (certs ++ certs')
        (flags ++ flags') proof ai)%Q.
Proof.
  unfold spec_accumulated_score.
  apply Qplus_le_compat; [apply sum_claim_points_app|].
  rewrite <- Zle_Qle.
  pose proof (sum_cert_points_app certs certs').
  pose proof (len_nonneg claims). pose proof (len_nonneg claims').
  pose proof (len_nonneg flags). pose proof (len_nonneg flags').
  rewrite !len_app.
  assert (Hp : (if negb proof && negb (len claims =? 0) then 10 else 0)
               <= (if negb proof && negb (len claims + len claims' =? 0)
                   then 10 else 0)).
  { destruct proof; cbn [negb andb]; [lia|].
    destruct (Z.eqb_spec (len claims) 0);
      destruct (Z.eqb_spec (len claims + len claims') 0); cbn [negb]; lia. }
  lia.
Qed.

Lemma risk_score_spec claims certs flags proof ai :
  risk_score (calculate_risk_score SDG_TARGETS claims certs flags proof ai)
  = Z.min (round (spec_accumulated_score SDG_TARGETS claims certs flags
                    proof ai)) 100.
Proof.
  destruct (calculate_risk_score_fields SDG_TARGETS claims certs flags proof ai)
    as [Hscore _].
  rewrite Hscore. f_equal. apply round_Qeq, accumulate_spec.
Qed.

End MonotoneFacts.

(** Extra X29.  With multipliers of the SDG table that are not negative,
    more findings never lower the score: with further claims, further
    certificate results and further red flags the risk score is at least
    as high, so a verdict never gets better by adding findings. *)
Theorem more_findings_never_lower_the_score :
  forall (SDG_TARGETS : PyDict.dict risk_scorer.target_data)
         (claims claims' : list nlp_engine.claim)
         (cert_results cert_results' : list cert_matcher.cert_result)
         (red_flags red_flags' : list nlp_engine.red_flag)
         (has_proof_markers : bool)
         (ai_generated_risk : nlp_engine.ai_risk),
    severities_nonneg SDG_TARGETS ->
    let r := risk_scorer.calculate_risk_score SDG_TARGETS claims cert_results
               red_flags has_proof_markers ai_generated_risk in
    let r' := risk_scorer.calculate_risk_score SDG_TARGETS (claims ++ claims')
                (cert_results ++ cert_results') (red_flags ++ red_flags')
                has_proof_markers ai_generated_risk in
    risk_scorer.risk_score r <= risk_scorer.risk_score r'
    /\ (risk_scorer.verdict r' = u "VERIFIED" ->
        risk_scorer.verdict r = u "VERIFIED")
    /\ (risk_scorer.verdict r = u "GREENWASHED" ->
        risk_scorer.verdict r' = u "GREENWASHED").
Proof.
  intros SDG claims claims' certs certs' flags flags' proof ai Hsev r r'.
  assert (Hle : risk_scorer.risk_score r <= risk_scorer.risk_score r').
  { subst r r'. rewrite !risk_score_spec.
    pose proof (round_mono _ _
                  (spec_accumulated_score_app SDG Hsev claims claims' certs
                     certs' flags flags' proof ai)).
    lia. }
  split; [exact Hle|].
  destruct (calculate_risk_score_fields SDG claims certs flags proof ai)
    as [_ [Hv _]].
  destruct (calculate_risk_score_fields SDG (claims ++ claims')
              (certs ++ certs') (flags ++ flags') proof ai) as [_ [Hv' _]].
  fold r in Hv. fold r' in Hv'. rewrite Hv, Hv'.
  destruct verdict_words_distinct as [D1 [D2 D3]].
  unfold risk_scorer._classify_verdict.
  destruct (Z.ltb_spec (risk_scorer.risk_score r) 20);
    destruct (Z.ltb_spec (risk_scorer.risk_score r') 20);
    destruct (Z.ltb_spec (risk_scorer.risk_score r) 50);
    destruct (Z.ltb_spec (risk_scorer.risk_score r') 50);
    split; intros; try reflexivity; try lia; congruence.
Qed.

(** The theorem of extra X29 at the sample table: an expired certificate
    added to an empty assessment. *)
Lemma more_findings_never_lower_the_score_witness :
  let ai := {| nlp_engine.risk := u "low"; nlp_engine.score := 0;
               nlp_engine.indicators := [] |} in
  let expired :=
    cert_matcher._verify_single_cert Samples.registry Samples.today
      (u "GreenWood Ltd") (u "FSC") (u "timber") in
  severities_nonneg Samples.sdg_table
  /\ risk_scorer.risk_score
       (risk_scorer.calculate_risk_score Samples.sdg_table [] [] [] true ai)
     <= risk_scorer.risk_score
          (risk_scorer.calculate_risk_score Samples.sdg_table [] [expired] []
             true ai).
Proof.
  intros ai expired.
  assert (Hsev : severities_nonneg Samples.sdg_table).
  { intros id data [H | [H | []]]; injection H as _ <-;
      unfold Qle; simpl; lia. }
  split; [exact Hsev|].
  destruct (more_findings_never_lower_the_score Samples.sdg_table [] []
              [] [expired] [] [] true ai Hsev) as [Hle _].
  exact Hle.
Defined.

(* ================================================================== *)
(** * More on the claim extractor *)
(* ================================================================== *)

Section ExtractionFacts.

Import PyDict PyNum nlp_engine.

Variable KEYWORDS : dict (list str).
Variable text : str.

Lemma startswith_length (p s : str) :
  startswith p s = true -> (List.length p <= List.length s)%nat.
Proof.
  revert s. induction p as [|c p IH]; intros [|d s]; simpl; try lia;
    try discriminate.
  intros H. apply andb_true_iff in H as [_ H]. specialize (IH _ H). lia.
Qed.

Lemma find_from_within (sub s : str) (i : Z) :
  0 <= i -> 0 <= find_from sub s i ->
  exists k : nat,
    find_from sub s i = i + Z.of_nat k
    /\ startswith sub (skipn k s) = true
    /\ (k <= List.length s)%nat.
Proof.
  revert i. induction s as [|c s IH]; intros i Hi; simpl.
  - destruct (startswith sub []) eqn:E.
    + intros _. exists O. split; [lia|]. split; [exact E | lia].
    + lia.
  - destruct (startswith sub (c :: s)) eqn:E.
    + intros _. exists O. split; [lia|]. split; [exact E | lia].
    + intros H. destruct (IH (i + 1)) as [k [Hk [Hs Hb]]]; [lia | exact H |].
      exists (S k). split; [lia|]. split; [exact Hs | lia].
Qed.

Lemma find_bounds (sub s : str) :
  0 <= find sub s -> find sub s + len sub <= len s.
Proof.
  intros H. unfold find in *.
  destruct (find_from_within sub s 0 (Z.le_refl 0) H) as [k [Hk [Hs Hb]]].
  apply startswith_length in Hs. rewrite length_skipn in Hs.
  rewrite Hk. unfold len. lia.
Qed.

Lemma confidence_bounds (claim_type : str) (start_idx : Z) :
  let conf :=
    round_to (fmin (base_confidence claim_type
                    + (if start_idx <? 50 then 5 # 100 else 0 # 1))
                   (99 # 100)) 2 in
  (75 # 100 <= conf)%Q /\ (conf <= 99 # 100)%Q.
Proof.
  cbv zeta. unfold base_confidence, get_default. cbn [get].
  destruct (eqb claim_type (u "absolute"));
    [|destruct (eqb claim_type (u "misleading"));
      [|destruct (eqb claim_type (u "vague"))]];
    destruct (start_idx <? 50); split; vm_compute; discriminate.
Qed.

Lemma extract_phrase_state (claim_type : str) (phrases : list str)
    (st : list claim * list str) (p : str) :
  In (claim_type, phrases) KEYWORDS -> In p phrases ->
  extraction_state KEYWORDS text st ->
  extraction_state KEYWORDS text
    (extract_phrase text (lower text) claim_type st p)
  /\ (forall q, In q (snd st) ->
                In q (snd (extract_phrase text (lower text) claim_type st p)))
  /\ (contains (lower p) (lower text) = true ->
      In p (snd (extract_phrase text (lower text) claim_type st p))).
Proof.
  intros Hkw Hp [Hrep [Hseen Hnd]]. destruct st as [detected seen].
  cbn [fst snd] in *. unfold extract_phrase.
  destruct (contains (lower p) (lower text)) eqn:Ec; cbn [andb].
  - destruct (mem p seen) eqn:Em; cbn [negb fst snd].
    + split; [split; [exact Hrep | split; [exact Hseen | exact Hnd]]|].
      split; [auto|]. intros _. now apply mem_In.
    + split; [|split; [intros q Hq; now right | intros _; now left]].
      unfold extraction_state. cbn [fst snd]. split; [|split].
      * apply Forall_app. split; [exact Hrep|]. constructor; [|constructor].
        assert (Hfound : 0 <= find (lower p) (lower text))
          by (unfold contains in Ec; now apply Z.leb_le).
        unfold reported. cbn [type phrase confidence position context].
        split; [now exists phrases|]. split; [exact Ec|].
        split; [reflexivity|]. split; [exact Hfound|].
        split; [now apply find_bounds|].
        split; [apply confidence_bounds | split;
                [apply confidence_bounds | reflexivity]].
      * rewrite map_app, rev_app_distr. cbn [map rev app phrase].
        now rewrite Hseen.
      * constructor; [|exact Hnd]. now apply mem_not_In.
  - cbn [fst snd].
    split; [split; [exact Hrep | split; [exact Hseen | exact Hnd]]|].
    split; [auto | discriminate].
Qed.

Lemma extract_phrases_state (claim_type : str) (phrases todo : list str)
    (st : list claim * list str) :
  In (claim_type, phrases) KEYWORDS -> incl todo phrases ->
  extraction_state KEYWORDS text st ->
  let st' := fold_left (extract_phrase text (lower text) claim_type) todo st in
  extraction_state KEYWORDS text st'
  /\ (forall q, In q (snd st) -> In q (snd st'))
  /\ (forall p, In p todo -> contains (lower p) (lower text) = true ->
                In p (snd st')).
Proof.
  intros Hkw. revert st. induction todo as [|p l IH]; intros st Hincl Hst.
  - cbn [fold_left]. split; [exact Hst|]. split; [auto | intros p []].
  - cbn [fold_left].
    destruct (extract_phrase_state claim_type phrases st p Hkw
                (Hincl p (or_introl eq_refl)) Hst) as [H1 [H2 H3]].
    destruct (IH _ (fun q Hq => Hincl q (or_intror Hq)) H1) as [H4 [H5 H6]].
    split; [exact H4|]. split; [intros q Hq; apply H5, H2, Hq|].
    intros q [<- | Hq] Hc; [apply H5, H3, Hc | now apply H6].
Qed.

Lemma extract_keywords_state (todo : dict (list str))
    (st : list claim * list str) :
  incl todo KEYWORDS -> extraction_state KEYWORDS text st ->
  let st' :=
    fold_left
      (fun st (kv : str * list str) =>
         fold_left (extract_phrase text (lower text) (fst kv)) (snd kv) st)
      todo st in
  extraction_state KEYWORDS text st'
  /\ (forall q, In q (snd st) -> In q (snd st'))
  /\ (forall claim_type phrases p,
         In (claim_type, phrases) todo -> In p phrases ->
         contains (lower p) (lower text) = true -> In p (snd st')).
Proof.
  revert st. induction todo as [|[t ps] l IH]; intros st Hincl Hst.
  - cbn [fold_left]. split; [exact Hst|]. split; [auto | intros ? ? ? []].
  - cbn [fold_left fst snd].
    destruct (extract_phrases_state t ps ps st (Hincl _ (or_introl eq_refl))
                (incl_refl ps) Hst) as [H1 [H2 H3]].
    destruct (IH _ (fun q Hq => Hincl q (or_intror Hq)) H1) as [H4 [H5 H6]].
    split; [exact H4|]. split; [intros q Hq; apply H5, H2, Hq|].
    intros t' ps' p [Ht | Ht] Hp Hc.
    + injection Ht as <- <-. apply H5. now apply H3.
    + exact (H6 t' ps' p Ht Hp Hc).
Qed.

End ExtractionFacts.

(** The claims of one extraction: their phrases, the phrases of the
    taxonomy that occur in the lower-cased text, and what each claim
    carries. *)
Lemma extract_claims_phrases (KEYWORDS : PyDict.dict (list str)) (text : str) :
  let ex := nlp_engine.extract_claims KEYWORDS text in
  let found := map nlp_engine.phrase (nlp_engine.claims ex) in
  NoDup found
  /\ (forall p,
         In p found
         <-> exists claim_type phrases,
               In (claim_type, phrases) KEYWORDS /\ In p phrases
               /\ contains (lower p) (lower text) = true)
  /\ Forall (reported KEYWORDS text) (nlp_engine.claims ex)
  /\ nlp_engine.claim_count ex = len (nlp_engine.claims ex).
Proof.
  intros ex found.
  pose proof (extract_keywords_state KEYWORDS text KEYWORDS ([], [])
                (incl_refl _)) as H.
  cbv zeta in H.
  assert (Hex : nlp_engine.claims ex
                = fst (fold_left
                         (fun st (kv : str * list str) =>
                            fold_left (nlp_engine.extract_phrase text (lower text)
                                         (fst kv)) (snd kv) st)
                         KEYWORDS ([], []))
                /\ nlp_engine.claim_count ex = len (nlp_engine.claims ex)).
  { subst ex. unfold nlp_engine.extract_claims.
    destruct (fold_left _ KEYWORDS ([], [])) as [detected seen].
    split; reflexivity. }
  destruct Hex as [Hclaims Hcount].
  destruct (fold_left _ KEYWORDS ([], [])) as [detected seen].
  cbn [fst snd] in *.
  destruct H as [[Hrep [Hseen Hnd]] [_ Hall]].
  { split; [constructor | split; [reflexivity | constructor]]. }
  cbn [fst snd] in *. subst found. rewrite Hclaims.
  assert (Hmem : forall p, In p (map nlp_engine.phrase detected) <-> In p seen)
    by (intros p; rewrite Hseen, <- in_rev; reflexivity).
  split; [|split; [|split; [exact Hrep | now rewrite <- Hclaims]]].
  - rewrite Hseen in Hnd. apply NoDup_rev in Hnd.
    now rewrite rev_involutive in Hnd.
  - intros p. split.
    + intros Hp. apply in_map_iff in Hp as [c [<- Hc]].
      rewrite Forall_forall in Hrep.
      destruct (Hrep c Hc) as [[ps [H1 H2]] [H3 _]].
      now exists (nlp_engine.type c), ps.
    + intros [t [ps [H1 [H2 H3]]]]. apply Hmem. exact (Hall t ps p H1 H2 H3).
Qed.

(** Extra X15.  The claims of one extraction are exactly the phrases of
    the taxonomy that occur in the lower-cased text, each phrase once even
    when the taxonomy lists it under several types; every claim carries a
    type under which the taxonomy lists its phrase, the offset of the
    phrase in the lower-cased text, a confidence between 0.75 and 0.99 and
    the context cut at that offset; [claim_count] is their number. *)
Theorem claims_are_the_taxonomy_phrases_in_the_text :
  forall (KEYWORDS : PyDict.dict (list str)) (text : str),
    let ex := nlp_engine.extract_claims KEYWORDS text in
    let found := map nlp_engine.phrase (nlp_engine.claims ex) in
    NoDup found
    /\ (forall p,
           In p found
           <-> exists claim_type phrases,
                 In (claim_type, phrases) KEYWORDS /\ In p phrases
                 /\ contains (lower p) (lower text) = true)
    /\ Forall (reported KEYWORDS text) (nlp_engine.claims ex)
    /\ nlp_engine.claim_count ex = len (nlp_engine.claims ex).
Proof. intros KEYWORDS text. apply extract_claims_phrases. Qed.

Section RedFlagFacts.

Import PyRe nlp_engine.

Lemma firstn_length_firstn {A : Type} (n : nat) (l : list A) :
  firstn (List.length (firstn n l)) l = firstn n l.
Proof.
  revert n. induction l as [|x l IH]; intros [|n]; cbn; try reflexivity.
  now rewrite IH.
Qed.

(** A match that [search_from] reports starts inside the text and is the
    text read from its start. *)
Lemma search_from_sound (p : pattern) (prev : option char) (s : str) (i j : Z)
    (g : str) :
  search_from p prev s i = Some (j, g) ->
  exists (k n : nat),
    j = i + Z.of_nat k /\ (k <= List.length s)%nat
    /\ g = firstn n (skipn k s).
Proof.
  revert prev i. induction s as [|c s IH]; intros prev i; cbn [search_from].
  - destruct (match_at p prev []) as [n|]; [|discriminate].
    intros H. injection H as <- <-. exists O, n. repeat split; cbn; lia.
  - destruct (match_at p prev (c :: s)) as [n|].
    + intros H. injection H as <- <-. exists O, n.
      split; [lia|]. split; [cbn; lia | reflexivity].
    + intros H. destruct (IH _ _ H) as [k [n [Hj [Hk Hg]]]].
      exists (S k), n. split; [lia|]. split; [cbn; lia | exact Hg].
Qed.

Lemma search_sound (p : pattern) (s : str) (j : Z) (g : str) :
  search p s = Some (j, g) ->
  0 <= j <= len s /\ slice s j (j + len g) = g.
Proof.
  unfold search. intros H.
  destruct (search_from_sound _ _ _ _ _ _ H) as [k [n [-> [Hk ->]]]].
  split; [unfold len; lia|].
  unfold slice, len.
  replace (Z.to_nat (0 + Z.of_nat k
                     + Z.of_nat (List.length (firstn n (skipn k s)))
                     - (0 + Z.of_nat k)))
    with (List.length (firstn n (skipn k s))) by lia.
  replace (Z.to_nat (0 + Z.of_nat k)) with k by lia.
  apply firstn_length_firstn.
Qed.

Lemma flags_of_facts (text_lower : str) (patterns : list (pattern * str)) :
  (List.length (flags_of text_lower patterns) <= List.length patterns)%nat
  /\ (forall f,
         In f (flags_of text_lower patterns) ->
         exists pat,
           In (pat, description f) patterns
           /\ search pat text_lower = Some (flag_position f, pattern_text f))
  /\ (NoDup (map snd patterns) ->
      NoDup (map description (flags_of text_lower patterns))).
Proof.
  induction patterns as [|[pat d] l [IH1 [IH2 IH3]]].
  - cbn. split; [lia|]. split; [intros f []| intros _; constructor].
  - unfold flags_of in *. cbn [flat_map fst snd map].
    destruct (search pat text_lower) as [[start group]|] eqn:E.
    + cbn [app List.length]. split; [lia|]. split.
      * intros f [<- | Hf]; [exists pat; split; [now left | exact E]|].
        destruct (IH2 f Hf) as [pat' [H1 H2]]. exists pat'. split; [now right | exact H2].
      * intros Hnd. inversion Hnd as [|x xs Hx Hxs]; subst.
        cbn [map description]. constructor; [|now apply IH3].
        intros Hin. apply Hx. apply in_map_iff in Hin as [f [Hd Hf]].
        destruct (IH2 f Hf) as [pat' [H1 _]]. rewrite Hd in H1.
        apply in_map_iff. now exists (pat', d).
    + cbn [app List.length]. split; [lia|]. split.
      * intros f Hf. destruct (IH2 f Hf) as [pat' [H1 H2]].
        exists pat'. split; [now right | exact H2].
      * intros Hnd. inversion Hnd; subst. now apply IH3.
Qed.

End RedFlagFacts.

(** Extra X16.  [_detect_red_flags] reports at most five flags, at most
    one per pattern and so no description twice; each flag is the
    leftmost match of its pattern in the lower-cased text, and its matched
    text stands at its position in the lower-cased text. *)
Theorem red_flags_at_most_one_per_pattern :
  forall text : str,
    let flags := nlp_engine._detect_red_flags text in
    len flags <= 5
    /\ NoDup (map nlp_engine.description flags)
    /\ Forall
         (fun f =>
            (exists pat,
                In (pat, nlp_engine.description f) nlp_engine.flag_descriptions
                /\ PyRe.search pat (lower text)
                   = Some (nlp_engine.flag_position f, nlp_engine.pattern_text f))
            /\ 0 <= nlp_engine.flag_position f <= len (lower text)
            /\ slice (lower text) (nlp_engine.flag_position f)
                 (nlp_engine.flag_position f + len (nlp_engine.pattern_text f))
               = nlp_engine.pattern_text f)
         flags.
Proof.
  intros text flags.
  destruct (flags_of_facts (lower text) nlp_engine.flag_descriptions)
    as [Hlen [Hin Hnd]].
  change (flags_of (lower text) nlp_engine.flag_descriptions) with flags in *.
  assert (Hfive : List.length nlp_engine.flag_descriptions = 5%nat)
    by reflexivity.
  split; [unfold len; lia|].
  split; [apply Hnd; vm_compute; repeat constructor; simpl; intuition discriminate|].
  apply Forall_forall. intros f Hf.
  destruct (Hin f Hf) as [pat [Hpat Hsearch]].
  split; [now exists pat|]. exact (search_sound _ _ _ _ Hsearch).
Qed.

Section ContextFacts.

Import nlp_engine.

Lemma firstn_plus {A : Type} (n m : nat) (l : list A) :
  firstn (n + m) l = firstn n l ++ firstn m (skipn n l).
Proof.
  revert l. induction n as [|n IH]; intros [|x l]; cbn;
    try reflexivity.
  - now rewrite firstn_nil.
  - now rewrite IH.
Qed.

Lemma slice_app (s : str) (a b c : Z) :
  0 <= a <= b -> b <= c -> slice s a c = slice s a b ++ slice s b c.
Proof.
  intros Hab Hbc. unfold slice.
  replace (Z.to_nat (c - a)) with (Z.to_nat (b - a) + Z.to_nat (c - b))%nat
    by lia.
  rewrite firstn_plus, skipn_skipn.
  replace (Z.to_nat (b - a) + Z.to_nat a)%nat with (Z.to_nat b) by lia.
  reflexivity.
Qed.

Lemma slice_length (s : str) (a b : Z) :
  0 <= a <= b -> b <= len s -> len (slice s a b) = b - a.
Proof.
  unfold slice, len. intros Hab Hb.
  rewrite length_firstn, length_skipn. lia.
Qed.

End ContextFacts.

(** Extra X17.  For an occurrence that lies inside the text, the context is
    the occurrence itself between the 40 code points before it and the 40
    code points after it, or as many as the text has there, closed by an
    ellipsis, and opened by one exactly when more than 40 code points
    stand before the occurrence. *)
Theorem context_shows_the_occurrence :
  forall (text : str) (start length : Z),
    0 <= start -> 0 <= length -> start + length <= len text ->
    let before := slice text (Z.max 0 (start - 40)) start in
    let after := slice text (start + length)
                   (Z.min (len text) (start + length + 40)) in
    nlp_engine._extract_context text start length
    = (if 40 <? start then u "..." else [])
      ++ before ++ slice text start (start + length) ++ after ++ u "..."
    /\ len before = Z.min start 40
    /\ len after = Z.min (len text - (start + length)) 40
    /\ len (slice text start (start + length)) = length.
Proof.
  intros text start length Hs Hl Hend before after.
  split; [|split; [|split]].
  - unfold nlp_engine._extract_context. cbv zeta.
    rewrite (slice_app text (Z.max 0 (start - 40)) start
               (Z.min (len text) (start + length + 40))) by lia.
    rewrite (slice_app text start (start + length)
               (Z.min (len text) (start + length + 40))) by lia.
    fold before. fold after.
    replace (0 <? Z.max 0 (start - 40)) with (40 <? start)
      by (destruct (Z.ltb_spec 40 start), (Z.ltb_spec 0 (Z.max 0 (start - 40)));
          try reflexivity; lia).
    destruct (40 <? start); rewrite <- ?app_assoc; reflexivity.
  - subst before. rewrite slice_length by lia. lia.
  - subst after. rewrite slice_length by lia. lia.
  - rewrite slice_length by lia. lia.
Qed.

(** The theorem of extra X17 at the phrase [sustainably sourced] of the
    sample listing, 19 code points from its start. *)
Lemma context_shows_the_occurrence_witness :
  0 <= 19 /\ 0 <= 19 /\ 19 + 19 <= len Samples.listing
  /\ nlp_engine._extract_context Samples.listing 19 19
     = u "100% eco-friendly, " ++ u "sustainably sourced"
       ++ u " timber, up to 80% recycled" ++ u "...".
Proof.
  split; [lia|]. split; [lia|].
  assert (H : 19 + 19 <= len Samples.listing) by (vm_compute; discriminate).
  split; [exact H|].
  destruct (context_shows_the_occurrence Samples.listing 19 19
              ltac:(lia) ltac:(lia) H) as [Hctx _].
  rewrite Hctx. reflexivity.
Defined.

Section AiRiskFacts.

Import PyNum nlp_engine.

Lemma assess_by_indicators (text : str) :
  split text <> [] ->
  let r := _assess_ai_generated_risk text in
  score r = (if dense text then 30 else 0) + (if uniform text then 20 else 0)
            + (if bare text then 25 else 0)
  /\ len (indicators r)
     = (if dense text then 1 else 0) + (if uniform text then 1 else 0)
       + (if bare text then 1 else 0)
  /\ risk r = (if 50 <=? score r then u "high"
               else if 25 <=? score r then u "medium" else u "low").
Proof.
  intros Hne r. subst r. unfold _assess_ai_generated_risk.
  unfold dense, uniform, bare, token_count, green_token_count, has_measurement.
  pose proof (sentence_count_pos text) as Hsent.
  unfold sentence_count, sentence_token_total in *.
  destruct (split text) as [|w ws] eqn:Hsplit; [contradiction|].
  assert (Hn : 0 < len (w :: ws)) by (unfold len; simpl; lia).
  rewrite (Qltb_true_div_r 8 100 _ _ Hn).
  rewrite Z.max_l by lia.
  change 15%Q with (15 # 1). change 22%Q with (22 # 1).
  rewrite (Qltb_true_div_r 15 1 _ _ Hsent).
  rewrite (Qltb_true_div_l 22 1 _ _ Hsent).
  rewrite !Z.mul_1_r.
  replace (8 * len (w :: ws) <? 100 * len (filter _ (w :: ws)))
    with (8 * len (w :: ws) <? len (filter (fun w0 => mem (lower w0) green_words)
                                           (w :: ws)) * 100)
    by (f_equal; lia).
  destruct (8 * len (w :: ws) <? _ * 100);
    destruct (_ && _)%bool;
    destruct (_ && _)%bool;
    cbn; repeat split; reflexivity.
Qed.

End AiRiskFacts.

(** Extra X18.  The AI risk by its three indicators, for a text with
    tokens: the score is at most 75 and there is one indicator text per
    indicator that applies; the risk is high exactly when the green
    density is over 8% together with one of the other two, low exactly
    when neither the density nor the lack of measurements applies, and
    medium in the other cases.  A text without tokens is low. *)
Theorem ai_risk_by_indicators :
  forall text : str,
    let r := nlp_engine._assess_ai_generated_risk text in
    0 <= nlp_engine.score r <= 75
    /\ In (nlp_engine.risk r) [u "low"; u "medium"; u "high"]
    /\ (split text = [] -> nlp_engine.risk r = u "low")
    /\ (split text <> [] ->
        len (nlp_engine.indicators r)
        = (if dense text then 1 else 0) + (if uniform text then 1 else 0)
          + (if bare text then 1 else 0)
        /\ (nlp_engine.risk r = u "high"
            <-> dense text = true /\ (uniform text = true \/ bare text = true))
        /\ (nlp_engine.risk r = u "low"
            <-> dense text = false /\ bare text = false)
        /\ (nlp_engine.risk r = u "medium"
            <-> (dense text = true /\ uniform text = false /\ bare text = false)
                \/ (dense text = false /\ bare text = true))).
Proof.
  intros text r.
  destruct (split text) as [|w ws] eqn:Hsplit.
  - assert (Hr : r = {| nlp_engine.risk := u "low"; nlp_engine.score := 0;
                        nlp_engine.indicators := [] |}).
    { subst r. unfold nlp_engine._assess_ai_generated_risk. now rewrite Hsplit. }
    rewrite Hr. cbn [nlp_engine.score nlp_engine.risk].
    split; [lia|]. split; [now left|]. split; [reflexivity|].
    intros H. contradiction.
  - assert (Hne : split text <> []) by (rewrite Hsplit; discriminate).
    destruct (assess_by_indicators text Hne) as [Hs [Hi Hr]].
    fold r in Hs, Hi, Hr.
    destruct risk_words_distinct as [D1 [D2 D3]].
    rewrite Hr, Hs, Hi.
    destruct (dense text), (uniform text), (bare text); cbn;
      (split; [lia|]); (split; [simpl; auto|]);
      (split; [discriminate|]); intros _;
      (split; [reflexivity|]);
      repeat split; intros; try reflexivity; try congruence;
      try (intuition congruence).
Qed.

(* ================================================================== *)
(** * More on the certificate matcher *)
(* ================================================================== *)

Section DateFacts.

Import PyDate.

Lemma month_cases (m : Z) :
  1 <= m <= 12 ->
  m = 1 \/ m = 2 \/ m = 3 \/ m = 4 \/ m = 5 \/ m = 6 \/ m = 7 \/ m = 8
  \/ m = 9 \/ m = 10 \/ m = 11 \/ m = 12.
Proof. lia. Qed.

Lemma days_before_next_year (y : Z) :
  days_before_year (y + 1)
  = days_before_year y + 365 + (if is_leap y then 1 else 0).
Proof.
  unfold days_before_year, is_leap. cbv zeta.
  replace (y + 1 - 1) with y by lia.
  destruct (Z.eqb_spec (y mod 4) 0); destruct (Z.eqb_spec (y mod 100) 0);
    destruct (Z.eqb_spec (y mod 400) 0); cbn [negb andb orb];
    Z.div_mod_to_equations; lia.
Qed.

Lemma days_before_year_mono (y z : Z) :
  y <= z -> days_before_year y <= days_before_year z.
Proof.
  unfold days_before_year. cbv zeta. intros H.
  Z.div_mod_to_equations. lia.
Qed.

(** The day of the year of a valid date is between 1 and the length of
    its year. *)
Lemma day_of_year_bounds (d : date) :
  valid_date d ->
  1 <= days_before_month (year d) (month d) + day d
    <= 365 + (if is_leap (year d) then 1 else 0).
Proof.
  intros [_ [Hm Hd]]. unfold days_in_month, days_before_month in *.
  destruct (is_leap (year d));
    destruct (month_cases _ Hm) as
      [E|[E|[E|[E|[E|[E|[E|[E|[E|[E|[E|E]]]]]]]]]]];
    rewrite E in *; table_lookup; lia.
Qed.

Lemma same_year_order (y m1 d1 m2 d2 : Z) :
  1 <= m1 <= 12 -> 1 <= m2 <= 12 ->
  1 <= d1 <= days_in_month y m1 -> 1 <= d2 <= days_in_month y m2 ->
  m1 < m2 -> days_before_month y m1 + d1 < days_before_month y m2 + d2.
Proof.
  intros H1 H2 Hd1 Hd2 Hlt. unfold days_in_month, days_before_month in *.
  destruct (is_leap y);
    destruct (month_cases _ H1) as
      [E|[E|[E|[E|[E|[E|[E|[E|[E|[E|[E|E]]]]]]]]]]];
    rewrite E in *;
    destruct (month_cases _ H2) as
      [F|[F|[F|[F|[F|[F|[F|[F|[F|[F|[F|F]]]]]]]]]]];
    rewrite F in *; table_lookup; lia.
Qed.

(** On valid dates the order of [(year, month, day)] is the order of the
    ordinals. *)
Lemma ltb_toordinal (a b : date) :
  valid_date a -> valid_date b ->
  (PyDate.ltb a b = true <-> toordinal a < toordinal b).
Proof.
  intros Ha Hb.
  pose proof (day_of_year_bounds a Ha) as Hda.
  pose proof (day_of_year_bounds b Hb) as Hdb.
  destruct Ha as [Hya [Hma Hdya]], Hb as [Hyb [Hmb Hdyb]].
  unfold PyDate.ltb, toordinal.
  destruct (Z.ltb_spec (year a) (year b)) as [Hy | Hy]; cbn [orb].
  - (* an earlier year *)
    split; [intros _ | reflexivity].
    pose proof (days_before_next_year (year a)) as Hn.
    pose proof (days_before_year_mono (year a + 1) (year b) ltac:(lia)). lia.
  - destruct (Z.eqb_spec (year a) (year b)) as [Ey | Ey]; cbn [andb].
    + rewrite Ey in *.
      destruct (Z.ltb_spec (month a) (month b)) as [Hm | Hm]; cbn [orb].
      * split; [intros _ | reflexivity].
        pose proof (same_year_order (year b) _ _ _ _ Hma Hmb Hdya Hdyb Hm). lia.
      * destruct (Z.eqb_spec (month a) (month b)) as [Em | Em]; cbn [andb].
        -- rewrite Em. rewrite Z.ltb_lt. lia.
        -- split; [discriminate|]. intros H. exfalso.
           pose proof (same_year_order (year b) _ _ _ _ Hmb Hma Hdyb Hdya
                         ltac:(lia)). lia.
    + split; [discriminate|]. intros H. exfalso.
      pose proof (days_before_next_year (year b)) as Hn.
      pose proof (days_before_year_mono (year b + 1) (year a) ltac:(lia)). lia.
Qed.

End DateFacts.

Section MatcherMoreFacts.

Import PyDict PyDate cert_matcher.

Lemma filter_head_first_matching (REGISTRY : list record)
    (company_name cert_name : str) (r : record) (rest : list record) :
  filter (record_matches company_name cert_name) REGISTRY = r :: rest ->
  first_matching REGISTRY company_name cert_name r.
Proof.
  induction REGISTRY as [|x l IH]; cbn [filter]; [discriminate|].
  destruct (record_matches company_name cert_name x) eqn:E.
  - intros H. injection H as -> _. exists [], l.
    split; [reflexivity|]. split; [constructor | now apply record_matches_iff].
  - intros H. destruct (IH H) as [pre [post [-> [Hpre Hr]]]].
    exists (x :: pre), post. split; [reflexivity|].
    split; [constructor; [now apply record_matches_false | exact Hpre] | exact Hr].
Qed.

Lemma filter_nil_no_match (REGISTRY : list record)
    (company_name cert_name : str) :
  filter (record_matches company_name cert_name) REGISTRY = [] ->
  forall r, In r REGISTRY -> ~ matches_ci company_name cert_name r.
Proof.
  intros H r Hr Hm. apply record_matches_iff in Hm.
  assert (Hin : In r (filter (record_matches company_name cert_name) REGISTRY))
    by (apply filter_In; auto).
  rewrite H in Hin. contradiction.
Qed.

Lemma first_matching_unique (REGISTRY : list record)
    (company_name cert_name : str) (r r' : record) :
  first_matching REGISTRY company_name cert_name r ->
  first_matching REGISTRY company_name cert_name r' -> r = r'.
Proof.
  intros H H'.
  destruct (filter_first_matching _ _ _ _ H) as [rest E].
  destruct (filter_first_matching _ _ _ _ H') as [rest' E'].
  congruence.
Qed.

(** Every table of recommendations names certificates with guidance, at
    most three and no certificate twice. *)
Lemma recommendations_have_guidance :
  Forall (fun kv : str * list str =>
            Forall (fun c => exists g, get CERT_GUIDANCE c = Some g /\ g <> [])
                   (snd kv)
            /\ NoDup (snd kv) /\ (List.length (snd kv) <= 3)%nat)
         recommendations.
Proof.
  unfold recommendations.
  repeat (constructor;
          [split;
           [repeat (constructor;
                    [eexists; split; [vm_compute; reflexivity | discriminate]|]);
            constructor
           |split; [repeat (constructor;
                            [simpl; intuition discriminate|]); constructor
                   |simpl; lia]]|]).
  constructor.
Qed.

Lemma filter_claimed_nil (claimed l : list str) :
  incl l claimed -> filter (fun c => negb (mem c claimed)) l = [].
Proof.
  induction l as [|c l IH]; intros Hincl; [reflexivity|].
  cbn [filter].
  assert (Hm : mem c claimed = true) by (apply mem_In, Hincl; now left).
  rewrite Hm. cbn [negb]. apply IH. intros x Hx. apply Hincl. now right.
Qed.

End MatcherMoreFacts.

(** Extra X19.  The status tells what the registry holds: NOT_FOUND
    exactly when no record matches the company and the certificate type;
    EXPIRED exactly when the first matching record has expired;
    SCOPE_MISMATCH exactly when it has not expired and does not cover the
    category; VERIFIED exactly when it has not expired and covers the
    category.  The result always names the certificate as it was claimed. *)
Theorem status_tells_the_first_matching_record :
  forall (REGISTRY : list cert_matcher.record) (today : PyDate.date)
         (company_name cert_name category : str),
    let res := cert_matcher._verify_single_cert REGISTRY today company_name
                 cert_name category in
    let expired r := PyDate.ltb (cert_matcher.expiry r) today = true in
    let first r := first_matching REGISTRY company_name cert_name r in
    (cert_matcher.status res = cert_matcher.NOT_FOUND
     <-> forall r, In r REGISTRY -> ~ matches_ci company_name cert_name r)
    /\ (cert_matcher.status res = cert_matcher.EXPIRED
        <-> exists r, first r /\ expired r)
    /\ (cert_matcher.status res = cert_matcher.SCOPE_MISMATCH
        <-> exists r, first r /\ ~ expired r /\ ~ in_scope category r)
    /\ (cert_matcher.status res = cert_matcher.VERIFIED
        <-> exists r, first r /\ ~ expired r /\ in_scope category r)
    /\ cert_matcher.cert res = cert_name
    /\ cert_matcher.registry_checked res = true.
Proof.
  intros REGISTRY today company_name cert_name category res expired first.
  pose proof (verify_single_cert_cases REGISTRY today company_name cert_name
                category) as Hcases.
  cbv zeta in Hcases. fold res in Hcases.
  assert (Hcert : cert_matcher.cert res = cert_name
                  /\ cert_matcher.registry_checked res = true).
  { subst res. unfold cert_matcher._verify_single_cert.
    destruct (filter _ REGISTRY) as [|r rest]; [split; reflexivity|].
    destruct (PyDate.ltb _ today); [split; reflexivity|].
    destruct (negb _); split; reflexivity. }
  destruct status_words_distinct
    as [D1 [D2 [D3 [_ [_ [_ [_ [D4 [D5 D6]]]]]]]]].
  destruct (filter (cert_matcher.record_matches company_name cert_name) REGISTRY)
    as [|r rest] eqn:Hfilter.
  - (* no record matches *)
    destruct Hcases as [Hs _].
    pose proof (filter_nil_no_match _ _ _ Hfilter) as Hnone.
    assert (Hnofirst : forall r', ~ first r').
    { intros r' Hf. destruct (filter_first_matching _ _ _ _ Hf) as [x Hx].
      congruence. }
    rewrite Hs.
    split; [split; auto|].
    split; [split; [congruence | intros [r' [Hf _]]; now elim (Hnofirst r')]|].
    split; [split; [congruence | intros [r' [Hf _]]; now elim (Hnofirst r')]|].
    split; [split; [congruence | intros [r' [Hf _]]; now elim (Hnofirst r')]|].
    exact Hcert.
  - pose proof (filter_head_first_matching _ _ _ _ _ Hfilter) as Hfirst.
    assert (Hsame : forall r', first r' -> r' = r)
      by (intros r' Hf; exact (first_matching_unique _ _ _ _ _ Hf Hfirst)).
    assert (Hmatch : ~ (forall x, In x REGISTRY ->
                                  ~ matches_ci company_name cert_name x)).
    { intros Hnone. rewrite (filter_no_match _ _ _ Hnone) in Hfilter.
      discriminate. }
    subst expired. cbv beta.
    destruct (PyDate.ltb (cert_matcher.expiry r) today) eqn:He.
    + destruct Hcases as [Hs _]. rewrite Hs.
      split; [split; [congruence | intros H; contradiction]|].
      split; [split; [intros _; exists r; auto | reflexivity]|].
      split; [split; [congruence|];
              intros [r' [Hf [Hne _]]]; rewrite (Hsame r' Hf) in Hne; congruence|].
      split; [split; [congruence|];
              intros [r' [Hf [Hne _]]]; rewrite (Hsame r' Hf) in Hne; congruence|].
      exact Hcert.
    + destruct (mem (lower category)
                  (map lower (cert_matcher.applicable_categories r))) eqn:Em.
      * destruct Hcases as [Hs _]. rewrite Hs.
        assert (Hin : in_scope category r) by now apply mem_In.
        split; [split; [congruence | intros H; contradiction]|].
        split; [split; [congruence|];
                intros [r' [Hf Hx]]; rewrite (Hsame r' Hf) in Hx; congruence|].
        split; [split; [congruence|];
                intros [r' [Hf [_ Hx]]]; rewrite (Hsame r' Hf) in Hx;
                contradiction|].
        split; [split; [intros _; exists r; split; [exact Hfirst|];
                        split; [congruence | exact Hin]
                       | reflexivity]|].
        exact Hcert.
      * destruct Hcases as [Hs _]. rewrite Hs.
        assert (Hout : ~ in_scope category r) by now apply mem_not_In.
        split; [split; [congruence | intros H; contradiction]|].
        split; [split; [congruence|];
                intros [r' [Hf Hx]]; rewrite (Hsame r' Hf) in Hx; congruence|].
        split; [split; [intros _; exists r; split; [exact Hfirst|];
                        split; [congruence | exact Hout]
                       | reflexivity]|].
        split; [split; [congruence|];
                intros [r' [Hf [_ Hx]]]; rewrite (Hsame r' Hf) in Hx;
                contradiction|].
        exact Hcert.
Qed.

(** Extra X20.  For a first matching record with a valid expiry date and a
    valid date of today, the result is EXPIRED exactly when the days until
    expiry are negative; so a certificate that expires today is not
    expired, and when it covers the category it is VERIFIED without expiry
    warning, the warning being given from 1 to 89 days before expiry. *)
Theorem expired_exactly_when_days_negative :
  forall (REGISTRY : list cert_matcher.record) (today : PyDate.date)
         (company_name cert_name category : str) (r : cert_matcher.record),
    first_matching REGISTRY company_name cert_name r ->
    valid_date (cert_matcher.expiry r) -> valid_date today ->
    let res := cert_matcher._verify_single_cert REGISTRY today company_name
                 cert_name category in
    let days := days_until_expiry today r in
    (cert_matcher.status res = cert_matcher.EXPIRED <-> days < 0)
    /\ (cert_matcher.status res = cert_matcher.VERIFIED ->
        0 <= days
        /\ ((exists w, cert_matcher.expiry_warning res = Some (Some w))
            <-> 1 <= days <= 89))
    /\ (cert_matcher.expiry r = today -> in_scope category r ->
        cert_matcher.status res = cert_matcher.VERIFIED
        /\ cert_matcher.expiry_warning res = Some None).
Proof.
  intros REGISTRY today company_name cert_name category r Hfirst Hve Hvt res days.
  pose proof (verify_single_cert_cases REGISTRY today company_name cert_name
                category) as Hcases.
  cbv zeta in Hcases. fold res in Hcases.
  destruct (filter_first_matching _ _ _ _ Hfirst) as [rest Hfilter].
  rewrite Hfilter in Hcases.
  pose proof (ltb_toordinal _ _ Hve Hvt) as Hord.
  fold days in Hcases.
  assert (Hdays : PyDate.ltb (cert_matcher.expiry r) today = true <-> days < 0)
    by (subst days; unfold days_until_expiry; rewrite Hord; lia).
  destruct status_words_distinct
    as [D1 [D2 [D3 [_ [_ [_ [_ [D4 [D5 D6]]]]]]]]].
  destruct (PyDate.ltb (cert_matcher.expiry r) today) eqn:He.
  - destruct Hcases as [Hs _]. rewrite Hs.
    assert (Hneg : days < 0) by now apply Hdays.
    split; [split; auto|]. split; [intros H; congruence|].
    intros Heq _. exfalso. subst days. unfold days_until_expiry in Hneg.
    rewrite Heq in Hneg. lia.
  - assert (Hnn : 0 <= days).
    { destruct (Z.lt_ge_cases days 0) as [H | H]; [|exact H].
      apply Hdays in H. discriminate. }
    destruct (mem (lower category)
                (map lower (cert_matcher.applicable_categories r))) eqn:Em.
    + destruct Hcases as [Hs [_ Hw]]. rewrite Hs, Hw.
      split; [split; [congruence | lia]|].
      split.
      * intros _. split; [exact Hnn|].
        destruct (Z.ltb_spec 0 days); destruct (Z.ltb_spec days 90);
          cbn [andb]; split;
          try (intros [w Hx]; discriminate); try lia;
          try (intros _; eexists; reflexivity).
      * intros Heq _. split; [reflexivity|].
        assert (Hz : days = 0)
          by (subst days; unfold days_until_expiry; rewrite Heq; lia).
        rewrite Hz. reflexivity.
    + destruct Hcases as [Hs _]. rewrite Hs.
      split; [split; [congruence | lia]|].
      split; [intros H; congruence|].
      intros _ Hin. apply mem_In in Hin. congruence.
Qed.

(** The theorem of extra X20 at the PEFC record of Timberline Co on the
    day of its expiry. *)
Lemma expired_exactly_when_days_negative_witness :
  let r := Samples.pefc_timberline in
  let day := cert_matcher.expiry r in
  let res := cert_matcher._verify_single_cert Samples.registry day
               (u "Timberline Co") (u "PEFC") (u "timber") in
  first_matching Samples.registry (u "Timberline Co") (u "PEFC") r
  /\ valid_date day
  /\ cert_matcher.status res = cert_matcher.VERIFIED
  /\ cert_matcher.expiry_warning res = Some None.
Proof.
  intros r day res.
  assert (Hfirst : first_matching Samples.registry (u "Timberline Co")
                     (u "PEFC") r).
  { exists [Samples.fsc_expired; Samples.fsc_valid], [].
    split; [reflexivity|]. split.
    - repeat constructor; intros [H _]; vm_compute in H; discriminate.
    - split; reflexivity. }
  assert (Hvalid : valid_date day) by (vm_compute; intuition discriminate).
  split; [exact Hfirst|]. split; [exact Hvalid|].
  destruct (expired_exactly_when_days_negative Samples.registry day
              (u "Timberline Co") (u "PEFC") (u "timber") r Hfirst Hvalid Hvalid)
    as [_ [_ Htoday]].
  exact (Htoday eq_refl (or_introl eq_refl)).
Defined.

(** Extra X21.  The certificates reported missing are the certificates
    recommended for the lower-cased category that the claimed list does
    not hold under exactly that name, in the order of the table, at most
    three and none twice; each comes with the guidance of its type, which
    is never empty.  With every recommended certificate claimed, or a
    category without recommendations, nothing is missing. *)
Theorem missing_certificates_are_the_unclaimed_recommendations :
  forall (category : str) (claimed : list str),
    let recommended :=
      PyDict.get_default cert_matcher.recommendations (lower category) [] in
    let missing := cert_matcher._identify_missing_certs category claimed in
    map cert_matcher.m_cert missing
    = filter (fun c => negb (mem c claimed)) recommended
    /\ (forall c, In c (map cert_matcher.m_cert missing)
                  <-> In c recommended /\ ~ In c claimed)
    /\ NoDup (map cert_matcher.m_cert missing)
    /\ len missing <= 3
    /\ Forall (fun m =>
                 PyDict.get cert_matcher.CERT_GUIDANCE (cert_matcher.m_cert m)
                 = Some (cert_matcher.guidance m)
                 /\ cert_matcher.guidance m <> [])
              missing
    /\ (incl recommended claimed -> missing = []).
Proof.
  intros category claimed recommended missing.
  assert (Hrec : Forall (fun c => exists g,
                           PyDict.get cert_matcher.CERT_GUIDANCE c = Some g
                           /\ g <> []) recommended
                 /\ NoDup recommended /\ (List.length recommended <= 3)%nat).
  { subst recommended. unfold PyDict.get_default.
    destruct (PyDict.get cert_matcher.recommendations (lower category))
      as [l|] eqn:E.
    - destruct (get_In _ _ _ E) as [k Hk].
      pose proof recommendations_have_guidance as Htab.
      rewrite Forall_forall in Htab. exact (Htab _ Hk).
    - split; [constructor | split; [constructor | simpl; lia]]. }
  destruct Hrec as [Hg [Hnd Hlen]].
  assert (Hmap : map cert_matcher.m_cert missing
                 = filter (fun c => negb (mem c claimed)) recommended).
  { subst missing. unfold cert_matcher._identify_missing_certs.
    fold recommended. rewrite map_map. cbn [cert_matcher.m_cert]. apply map_id. }
  split; [exact Hmap|]. split; [|split; [|split; [|split]]].
  - intros c. rewrite Hmap, filter_In, negb_true_iff, mem_not_In. reflexivity.
  - rewrite Hmap. now apply NoDup_filter.
  - unfold len. rewrite <- (length_map cert_matcher.m_cert), Hmap.
    pose proof (filter_length_le (fun c => negb (mem c claimed)) recommended).
    lia.
  - subst missing. unfold cert_matcher._identify_missing_certs.
    fold recommended. apply Forall_map. cbn [cert_matcher.m_cert
                                               cert_matcher.guidance].
    apply Forall_forall. intros c Hc. apply filter_In in Hc as [Hc _].
    rewrite Forall_forall in Hg. destruct (Hg c Hc) as [g [Hget Hne]].
    unfold PyDict.get_default. rewrite Hget. split; [reflexivity | exact Hne].
  - intros Hincl.
    assert (Hnil : map cert_matcher.m_cert missing = []).
    { rewrite Hmap. now apply filter_claimed_nil. }
    destruct missing; [reflexivity | discriminate].
Qed.

(** Extra X22.  A remediation is given exactly when the certificate is not
    VERIFIED.  For NOT_FOUND it is the guidance stored under the claimed
    name, empty for a name that is not a key of the guidance table; for
    EXPIRED and SCOPE_MISMATCH it is that guidance with the key "action"
    set: the action is always present, and every other key reads as in
    the guidance. *)
Theorem remediation_extends_the_guidance :
  forall (REGISTRY : list cert_matcher.record) (today : PyDate.date)
         (company_name cert_name category : str),
    let res := cert_matcher._verify_single_cert REGISTRY today company_name
                 cert_name category in
    let stored :=
      PyDict.get_default cert_matcher.CERT_GUIDANCE cert_name [] in
    (cert_matcher.remediation res = None
     <-> cert_matcher.status res = cert_matcher.VERIFIED)
    /\ (cert_matcher.status res = cert_matcher.NOT_FOUND ->
        cert_matcher.remediation res = Some stored)
    /\ (cert_matcher.status res = cert_matcher.EXPIRED
        \/ cert_matcher.status res = cert_matcher.SCOPE_MISMATCH ->
        exists d a,
          cert_matcher.remediation res = Some d
          /\ PyDict.get d (u "action") = Some (cert_matcher.VStr a)
          /\ forall k, k <> u "action" -> PyDict.get d k = PyDict.get stored k).
Proof.
  intros REGISTRY today company_name cert_name category res stored.
  destruct status_words_distinct
    as [D1 [D2 [D3 [_ [_ [_ [_ [D4 [D5 D6]]]]]]]]].
  assert (Hset : forall a,
             PyDict.get (PyDict.set stored (u "action") (cert_matcher.VStr a))
                        (u "action") = Some (cert_matcher.VStr a)
             /\ forall k, k <> u "action" ->
                  PyDict.get (PyDict.set stored (u "action")
                                (cert_matcher.VStr a)) k
                  = PyDict.get stored k).
  { intros a. split.
    - rewrite get_set, eqb_refl. reflexivity.
    - intros k Hk. rewrite get_set.
      destruct (eqb k (u "action")) eqn:E; [|reflexivity].
      apply eqb_eq in E. contradiction. }
  subst res stored. unfold cert_matcher._verify_single_cert.
  destruct (filter _ REGISTRY) as [|r rest];
    cbn [cert_matcher.remediation cert_matcher.status].
  - split; [split; [discriminate | congruence]|].
    split; [reflexivity|]. intros [H | H]; congruence.
  - destruct (PyDate.ltb _ today);
      cbn [cert_matcher.remediation cert_matcher.status].
    + split; [split; [discriminate | congruence]|].
      split; [congruence|]. intros _. eexists. eexists.
      split; [reflexivity|]. apply Hset.
    + destruct (negb _); cbn [cert_matcher.remediation cert_matcher.status].
      * split; [split; [discriminate | congruence]|].
        split; [congruence|]. intros _. eexists. eexists.
        split; [reflexivity|]. apply Hset.
      * split; [split; reflexivity|].
        split; [congruence|]. intros [H | H]; congruence.
Qed.

(* ================================================================== *)
(** * The routes *)
(* ================================================================== *)

Section RouteFacts.

Import PyDict PyNum predictive_engine History.

Variable D : data_files.

(** The route changes the ledger by its one call of [record_submission],
    fails when that call raises, and answers otherwise. *)
Lemma serve_submit (L : ledger) (q : request) :
  fst (serve D L q) = fst (submit L (recorded D q))
  /\ match snd (submit L (recorded D q)) with
     | Raise e => snd (serve D L q) = Raise e
     | Ok _ =>
         exists a,
           snd (serve D L q) = Ok a
           /\ main.risk_score (main.risk_assessment a)
              = risk_scorer.risk_score (assessed D q)
           /\ main.verdict (main.risk_assessment a)
              = risk_scorer.verdict (assessed D q)
           /\ main.history a
              = match get (SELLER_PROFILES L) (main.company_name (r_body q)) with
                | Some stored =>
                    let p :=
                      match get (SELLER_PROFILES (fst (submit L (recorded D q))))
                                (main.company_name (r_body q)) with
                      | Some updated => updated
                      | None => stored
                      end in
                    {| main.alert_level := alert_level p;
                       main.prior_submissions := total_submissions p;
                       main.prior_greenwash_count := greenwashed_count p |}
                | None =>
                    {| main.alert_level := u "LOW";
                       main.prior_submissions := 0;
                       main.prior_greenwash_count := 0 |}
                end
     end.
Proof.
  unfold serve, main.analyze_product, submit.
  unfold recorded.
  cbn [s_now s_company s_product s_verdict s_score s_claims].
  unfold extracted, assessed, full_text, get_seller_risk_profile.
  destruct (record_submission L (r_now q) (main.company_name (r_body q)) _ _ _ _)
    as [L' [[]|e]]; cbn [fst snd].
  - split; [reflexivity|]. eexists. split; [reflexivity|].
    cbn [main.risk_assessment main.risk_score main.verdict main.history].
    split; [reflexivity|]. split; [reflexivity|].
    destruct (get (SELLER_PROFILES L) (main.company_name (r_body q)));
      reflexivity.
  - split; reflexivity.
Qed.

Lemma served_ledger_after (reqs : list request) :
  served D reqs = ledger_after (map (recorded D) reqs).
Proof.
  unfold served, ledger_after.
  generalize empty_ledger.
  induction reqs as [|q l IH]; intros L; cbn [fold_left map]; [reflexivity|].
  rewrite (proj1 (serve_submit L q)). apply IH.
Qed.

Lemma served_consistent (reqs : list request) : consistent (served D reqs).
Proof. rewrite served_ledger_after. apply ledger_after_consistent. Qed.

Lemma served_plain_counts (reqs : list request) : plain_counts (served D reqs).
Proof. rewrite served_ledger_after. apply ledger_after_plain_counts. Qed.

End RouteFacts.

Section ServedFacts.

Import PyDict PyNum predictive_engine History.

Variable D : data_files.

Lemma round_true_div_le (a b k : Z) :
  0 < b -> a <= k * b -> round (true_div a b) <= k.
Proof.
  intros Hb Hle. unfold round, true_div, Qdiv, Qinv, Qmult, inject_Z.
  destruct b as [|d|d]; try lia. cbn [Qnum Qden].
  rewrite Z.mul_1_r, Pos.mul_1_l.
  pose proof (Z.div_mod a (Z.pos d) ltac:(lia)) as Hdm.
  pose proof (Z.mod_pos_bound a (Z.pos d) ltac:(lia)) as Hm.
  assert (Hf : a / Z.pos d <= k) by (apply Z.div_le_upper_bound; lia).
  assert (Hstep : 0 < a mod Z.pos d -> a / Z.pos d + 1 <= k).
  { intros Hr.
    assert (a / Z.pos d < k); [|lia].
    apply (Z.mul_lt_mono_pos_l (Z.pos d)); lia. }
  destruct (Z.ltb_spec (2 * (a mod Z.pos d)) (Z.pos d)); [lia|].
  destruct (Z.ltb_spec (Z.pos d) (2 * (a mod Z.pos d))); [lia|].
  destruct (Z.even (a / Z.pos d)); lia.
Qed.

Lemma round_true_div_ge (a b k : Z) :
  0 < b -> k * b <= a -> k <= round (true_div a b).
Proof.
  intros Hb Hle. apply round_ge. unfold true_div, Qdiv, Qinv, Qmult, inject_Z.
  destruct b as [|d|d]; try lia. unfold Qle. cbn [Qnum Qden]. lia.
Qed.

Lemma sum_scores_bounds (lo hi : Z) (history : list entry) :
  Forall (fun e => lo <= risk_score e <= hi) history ->
  lo * len history <= fold_right Z.add 0 (map risk_score history)
  <= hi * len history.
Proof.
  induction history as [|e l IH]; intros H.
  - unfold len. cbn. lia.
  - inversion H as [|e' l' He Hl]; subst. specialize (IH Hl).
    replace (len (e :: l)) with (1 + len l)
      by (unfold len; rewrite length_cons; lia).
    cbn [map fold_right]. lia.
Qed.

(** What the route records of a request: a score of at most 100 with its
    verdict, and phrases without repetition. *)
Lemma recorded_entry (q : request) :
  let e := entry_of (recorded D q) in
  risk_score e <= 100
  /\ verdict e = risk_scorer._classify_verdict (risk_score e)
  /\ In (verdict e) [u "GREENWASHED"; u "REVIEW_REQUIRED"; u "VERIFIED"]
  /\ NoDup (claim_phrases e)
  /\ claim_count e = len (claim_phrases e)
  /\ (forall p, In p (claim_phrases e) <-> claimed_in D q p)
  /\ (severities_nonneg (f_sdg_targets D) -> 0 <= risk_score e).
Proof.
  cbv zeta. unfold entry_of, recorded.
  cbn [risk_score verdict claim_phrases claim_count s_score s_verdict s_claims].
  unfold assessed, extracted.
  set (ex := nlp_engine.extract_claims (f_keywords D) (full_text (r_body q))).
  set (v := cert_matcher.verify_certificates _ _ _ _ _).
  destruct (calculate_risk_score_fields (f_sdg_targets D)
              (nlp_engine.claims ex) (cert_matcher.verification_results v)
              (nlp_engine.red_flags ex) (nlp_engine.has_proof_markers ex)
              (nlp_engine.is_ai_generated_risk ex))
    as [Hscore [Hverdict _]].
  destruct (extract_claims_phrases (f_keywords D) (full_text (r_body q)))
    as [Hnd [Hiff _]].
  fold ex in Hnd, Hiff.
  split; [rewrite Hscore; lia|]. split; [exact Hverdict|].
  split.
  { rewrite Hverdict. unfold risk_scorer._classify_verdict.
    destruct (_ <? 20); [simpl; auto|]. destruct (_ <? 50); simpl; auto. }
  split; [exact Hnd|].
  split; [unfold len; now rewrite length_map|].
  split; [exact Hiff|].
  intros Hsev. rewrite Hscore.
  pose proof (accumulate_spec (f_sdg_targets D) (nlp_engine.claims ex)
                (cert_matcher.verification_results v) (nlp_engine.red_flags ex)
                (nlp_engine.has_proof_markers ex)
                (nlp_engine.is_ai_generated_risk ex)) as Hspec.
  rewrite (round_Qeq _ _ Hspec).
  pose proof (round_nonneg _
                (spec_accumulated_score_nonneg (f_sdg_targets D)
                   (nlp_engine.claims ex) (cert_matcher.verification_results v)
                   (nlp_engine.red_flags ex) (nlp_engine.has_proof_markers ex)
                   (nlp_engine.is_ai_generated_risk ex) Hsev)).
  lia.
Qed.

Lemma served_history (reqs : list request) :
  SUBMISSION_HISTORY (served D reqs) = map (fun q => entry_of (recorded D q)) reqs.
Proof.
  rewrite served_ledger_after. unfold ledger_after.
  rewrite fold_submit_history, map_map. reflexivity.
Qed.

End ServedFacts.

(** Extra X24.  The seller history of an answer of [/analyze] is read
    after the submission has been recorded.  For a seller without profile
    it is LOW with 0 submissions and 0 greenwashed; for a seller with a
    profile it shows the updated profile: the alert level computed with
    this submission, the number of entries of the company with this one,
    and the greenwashed count with this verdict.  So the number of prior
    submissions is never 1. *)
Theorem seller_history_is_read_after_the_update :
  forall (D : data_files) (reqs : list request) (q : request)
         (a : main.analysis),
    let L := served D reqs in
    let k := main.company_name (r_body q) in
    let L' := fst (serve D L q) in
    snd (serve D L q) = Ok a ->
    match PyDict.get (predictive_engine.SELLER_PROFILES L) k with
    | None =>
        main.history a
        = {| main.alert_level := u "LOW";
             main.prior_submissions := 0;
             main.prior_greenwash_count := 0 |}
    | Some p0 =>
        exists p,
          PyDict.get (predictive_engine.SELLER_PROFILES L') k = Some p
          /\ main.alert_level (main.history a)
             = predictive_engine._compute_alert_level p
          /\ main.prior_submissions (main.history a)
             = predictive_engine.total_submissions p0 + 1
          /\ main.prior_submissions (main.history a)
             = len (entries_of k (predictive_engine.SUBMISSION_HISTORY L'))
          /\ main.prior_greenwash_count (main.history a)
             = predictive_engine.greenwashed_count p0
               + (if eqb (main.verdict (main.risk_assessment a))
                         (u "GREENWASHED") then 1 else 0)
    end
    /\ main.prior_submissions (main.history a) <> 1.
Proof.
  intros D reqs q a L k L' Hok.
  destruct (serve_submit D L q) as [Hfst Hsnd].
  pose proof (served_consistent D reqs) as Hcons. fold L in Hcons.
  pose proof (submit_consistent L (recorded D q) Hcons) as Hcons'.
  rewrite <- Hfst in Hcons'. fold L' in Hcons'.
  pose proof (submit_outcome L (recorded D q)) as Hout. cbv zeta in Hout.
  change (History.s_company (recorded D q)) with k in Hout.
  destruct (snd (History.submit L (recorded D q))) as [[]|e] eqn:Hsub;
    [|rewrite Hsnd in Hok; discriminate].
  destruct Hsnd as [a' [Ha [_ [Hverdict Hhist]]]].
  rewrite Ha in Hok. injection Hok as ->.
  rewrite <- Hfst in Hhist, Hout. fold L' in Hhist, Hout. fold k in Hhist.
  specialize (Hcons k). specialize (Hcons' k).
  destruct (PyDict.get (predictive_engine.SELLER_PROFILES L) k) as [p0|].
  - destruct Hcons as [Hne [_ [Ht0 _]]].
    assert (Hpos : 1 <= predictive_engine.total_submissions p0).
    { rewrite Ht0. destruct (entries_of k _); [contradiction|].
      unfold len. rewrite length_cons.
      pose proof (len_nonneg l). unfold len in *. lia. }
    destruct (Hout ltac:(lia)) as [Hres Hp].
    destruct (snd (predictive_engine.incr_phrases _ _)) as [ex|];
      [discriminate|].
    destruct (Hp eq_refl) as [p [Hget [_ [Ht [Hg [Hal _]]]]]].
    rewrite Hget in Hhist, Hcons'. cbv zeta in Hhist.
    destruct Hcons' as [_ [_ [Ht' _]]].
    rewrite Hhist.
    cbn [main.alert_level main.prior_submissions main.prior_greenwash_count].
    split; [|lia].
    exists p. split; [exact Hget|]. split; [exact Hal|].
    split; [exact Ht|]. split; [exact Ht'|].
    rewrite Hverdict. exact Hg.
  - rewrite Hhist. split; [reflexivity|]. cbn. discriminate.
Qed.

(** The theorem of extra X24 at a second request of GreenWood Ltd for the
    same listing: the answer shows 2 prior submissions. *)
Lemma seller_history_is_read_after_the_update_witness :
  exists a,
    snd (serve Samples.data (served Samples.data [Samples.desk_request])
           Samples.desk_request) = Ok a
    /\ main.prior_submissions (main.history a) = 2
    /\ main.prior_submissions (main.history a) <> 1.
Proof.
  assert (H2 : match snd (serve Samples.data
                            (served Samples.data [Samples.desk_request])
                            Samples.desk_request) with
               | Ok a => main.prior_submissions (main.history a) = 2
               | Raise _ => False
               end)
    by (vm_compute; reflexivity).
  destruct (snd (serve Samples.data
                   (served Samples.data [Samples.desk_request])
                   Samples.desk_request)) as [a|e] eqn:Hok; [|contradiction].
  exists a. split; [reflexivity|]. split; [exact H2|].
  destruct (seller_history_is_read_after_the_update Samples.data
              [Samples.desk_request] Samples.desk_request a Hok) as [_ Hne].
  exact Hne.
Defined.

(** Extra X25.  Every request of [/analyze] is recorded in the history,
    also when it fails.  The first request of a company is answered.  A
    later request of the company is answered exactly when every phrase of
    the taxonomy that its text holds was a phrase of the first entry of
    the company; otherwise it fails with [KeyError] for such a phrase
    that the first entry did not have. *)
Theorem analysis_fails_on_a_phrase_new_to_the_seller :
  forall (D : data_files) (reqs : list request) (q : request),
    let L := served D reqs in
    let k := main.company_name (r_body q) in
    let answered := exists a, snd (serve D L q) = Ok a in
    predictive_engine.SUBMISSION_HISTORY (fst (serve D L q))
    = predictive_engine.SUBMISSION_HISTORY L ++ [entry_of (recorded D q)]
    /\ match entries_of k (predictive_engine.SUBMISSION_HISTORY L) with
       | [] => answered
       | e :: _ =>
           (answered
            <-> forall p, claimed_in D q p ->
                          In p (predictive_engine.claim_phrases e))
           /\ (answered
               \/ exists p,
                    claimed_in D q p
                    /\ ~ In p (predictive_engine.claim_phrases e)
                    /\ snd (serve D L q) = Raise (KeyError p))
       end.
Proof.
  intros D reqs q L k answered.
  destruct (serve_submit D L q) as [Hfst Hsnd].
  pose proof (served_consistent D reqs) as Hcons.
  pose proof (served_plain_counts D reqs) as Hplain.
  fold L in Hcons, Hplain.
  assert (Hkeys : keys_of_first_entry L).
  { subst L. rewrite served_ledger_after.
    apply ledger_after_keys_of_first_entry. }
  split; [rewrite Hfst; apply submit_history|].
  assert (Hans : answered <-> snd (History.submit L (recorded D q)) = Ok tt).
  { subst answered.
    destruct (snd (History.submit L (recorded D q))) as [[]|e].
    - destruct Hsnd as [a [Ha _]]. split; [reflexivity | now exists a].
    - rewrite Hsnd. split; [intros [a Ha]; discriminate | discriminate]. }
  pose proof (submit_returns_iff_counted L (recorded D q) Hcons Hplain) as Hret.
  pose proof (submit_ok_or_key_error L (recorded D q) Hcons Hplain) as Hcase.
  destruct (recorded_entry D q) as [_ [_ [_ [_ [_ [Hclaimed _]]]]]].
  cbn [entry_of predictive_engine.claim_phrases] in Hclaimed.
  change (History.s_company (recorded D q)) with k in Hret, Hcase.
  specialize (Hcons k). specialize (Hkeys k).
  destruct (PyDict.get (predictive_engine.SELLER_PROFILES L) k) as [p0|].
  - destruct (Hkeys p0 eq_refl) as [e [rest [Hmine Hq]]].
    rewrite Hmine. split.
    + rewrite Hans, Hret. split.
      * intros Hall p Hp. apply Hq. apply Hclaimed in Hp.
        apply in_map_iff in Hp as [c [<- Hc]]. now apply Hall.
      * intros Hall c Hc. apply Hq. apply Hall. apply Hclaimed.
        now apply in_map.
    + destruct Hcase as [Hok | [p [x [Hp [Hin [Hnone Hraise]]]]]].
      * left. now apply Hans.
      * right. injection Hp as <-. exists x.
        split; [now apply Hclaimed|].
        split; [intros Hx; apply Hq in Hx; contradiction|].
        rewrite Hraise in Hsnd. exact Hsnd.
  - rewrite Hcons. apply Hans. now apply Hret.
Qed.

(** Extra X26.  The ledger after any sequence of requests of [/analyze]:
    every request is scanned, the three verdict counts add up to the
    number scanned, every entry holds a score of at most 100 with the
    verdict of that score and its phrases once each, and the average
    score is at most 100; with multipliers of the SDG table that are not
    negative no score and no average is negative. *)
Theorem served_ledger_statistics :
  forall (D : data_files) (reqs : list request),
    let L := served D reqs in
    let st := predictive_engine.get_platform_stats L in
    predictive_engine.total_scanned st = len reqs
    /\ predictive_engine.greenwashed st + predictive_engine.under_review st
       + predictive_engine.verified st = predictive_engine.total_scanned st
    /\ predictive_engine.stats_avg_risk_score st <= 100
    /\ Forall
         (fun e =>
            predictive_engine.risk_score e <= 100
            /\ predictive_engine.verdict e
               = risk_scorer._classify_verdict (predictive_engine.risk_score e)
            /\ NoDup (predictive_engine.claim_phrases e)
            /\ predictive_engine.claim_count e
               = len (predictive_engine.claim_phrases e))
         (predictive_engine.get_all_submissions L)
    /\ (severities_nonneg (f_sdg_targets D) ->
        0 <= predictive_engine.stats_avg_risk_score st
        /\ Forall (fun e => 0 <= predictive_engine.risk_score e)
                  (predictive_engine.get_all_submissions L)).
Proof.
  intros D reqs L st.
  pose proof (served_history D reqs) as Hh. fold L in Hh.
  assert (Hall : Forall
                   (fun e =>
                      predictive_engine.risk_score e <= 100
                      /\ predictive_engine.verdict e
                         = risk_scorer._classify_verdict
                             (predictive_engine.risk_score e)
                      /\ In (predictive_engine.verdict e)
                            [u "GREENWASHED"; u "REVIEW_REQUIRED"; u "VERIFIED"]
                      /\ NoDup (predictive_engine.claim_phrases e)
                      /\ predictive_engine.claim_count e
                         = len (predictive_engine.claim_phrases e)
                      /\ (severities_nonneg (f_sdg_targets D) ->
                          0 <= predictive_engine.risk_score e))
                   (predictive_engine.SUBMISSION_HISTORY L)).
  { rewrite Hh. apply Forall_map. apply Forall_forall. intros q _.
    destruct (recorded_entry D q) as [H1 [H2 [H3 [H4 [H5 [_ H6]]]]]].
    repeat split; assumption. }
  assert (Hlen : len (predictive_engine.SUBMISSION_HISTORY L) = len reqs)
    by (rewrite Hh; unfold len; now rewrite length_map).
  assert (Hrev : forall P : predictive_engine.entry -> Prop,
             Forall P (predictive_engine.SUBMISSION_HISTORY L) ->
             Forall P (predictive_engine.get_all_submissions L)).
  { intros P HP. unfold predictive_engine.get_all_submissions.
    apply Forall_forall. intros e He. apply in_rev in He.
    rewrite Forall_forall in HP. now apply HP. }
  destruct (verdict_counts_le (predictive_engine.SUBMISSION_HISTORY L))
    as [_ Heq].
  cbv zeta in Heq.
  subst st. unfold predictive_engine.get_platform_stats.
  destruct (predictive_engine.SUBMISSION_HISTORY L) as [|e0 l] eqn:Hhist.
  - cbn [predictive_engine.total_scanned predictive_engine.greenwashed
         predictive_engine.under_review predictive_engine.verified
         predictive_engine.stats_avg_risk_score].
    split; [rewrite <- Hlen; reflexivity|]. split; [reflexivity|].
    split; [lia|]. split; [now apply Hrev|].
    intros _. split; [lia|]. apply Hrev. constructor.
  - cbv zeta.
    cbn [predictive_engine.total_scanned predictive_engine.greenwashed
         predictive_engine.under_review predictive_engine.verified
         predictive_engine.stats_avg_risk_score].
    set (history := e0 :: l) in *.
    assert (Hpos : 0 < len history)
      by (subst history; unfold len; rewrite length_cons; lia).
    split; [exact Hlen|].
    split.
    { apply Heq. eapply Forall_impl; [|exact Hall]. cbv beta. tauto. }
    split.
    { apply round_true_div_le; [exact Hpos|].
      assert (Hb : Forall (fun e => predictive_engine.risk_score e <= 100)
                          history)
        by (eapply Forall_impl; [|exact Hall]; cbv beta; tauto).
      clear - Hb. induction Hb as [|e l' He Hl IH].
      - unfold len. cbn. lia.
      - replace (len (e :: l')) with (1 + len l')
          by (unfold len; rewrite length_cons; lia).
        cbn [map fold_right]. lia. }
    split.
    { apply Hrev. eapply Forall_impl; [|exact Hall].
      cbv beta. tauto. }
    intros Hsev.
    assert (Hb : Forall (fun e => 0 <= predictive_engine.risk_score e) history)
      by (eapply Forall_impl; [|exact Hall]; cbv beta; intros e He;
          now apply He).
    split; [|apply Hrev; exact Hb].
    apply round_true_div_ge; [exact Hpos|].
    clear - Hb. induction Hb as [|e l' He Hl IH].
    + unfold len. cbn. lia.
    + cbn [map fold_right]. lia.
Qed.

Section LiveFacts.

Import PyRe nlp_engine.

Lemma flags_of_nil (text_lower : str) (patterns : list (pattern * str)) :
  flags_of text_lower patterns = []
  <-> forall pat d, In (pat, d) patterns -> search pat text_lower = None.
Proof.
  induction patterns as [|[pat d] l IH]; unfold flags_of in *;
    cbn [flat_map fst snd].
  - split; [intros _ pat d [] | reflexivity].
  - destruct (search pat text_lower) as [[start group]|] eqn:E.
    + split; [discriminate|]. intros H.
      specialize (H pat d (or_introl eq_refl)). congruence.
    + cbn [app]. rewrite IH. split.
      * intros H pat' d' [Heq | Hin]; [congruence | now apply (H pat' d')].
      * intros H pat' d' Hin. apply (H pat' d'). now right.
Qed.

Lemma live_warning_message_cases (claim_type : str) :
  main._live_warning_message claim_type
  = u "Environmental claim detected — verification recommended"
  <-> ~ In claim_type [u "vague"; u "absolute"; u "misleading"].
Proof.
  unfold main._live_warning_message, PyDict.get_default.
  cbn [PyDict.get].
  destruct (eqb claim_type (u "vague")) eqn:E1;
    [apply eqb_eq in E1; subst;
     split; [vm_compute; discriminate | intros H; elim H; simpl; auto]|].
  destruct (eqb claim_type (u "absolute")) eqn:E2;
    [apply eqb_eq in E2; subst;
     split; [vm_compute; discriminate | intros H; elim H; simpl; auto]|].
  destruct (eqb claim_type (u "misleading")) eqn:E3;
    [apply eqb_eq in E3; subst;
     split; [vm_compute; discriminate | intros H; elim H; simpl; auto]|].
  apply eqb_neq in E1, E2, E3.
  split; [|reflexivity].
  intros _ [H | [H | [H | []]]]; congruence.
Qed.

End LiveFacts.

(** Extra X27.  The live check lists one warning per claim of the
    extraction, in the order of the claims, and then one per red flag; it
    counts them, at most five more than the claims.  It gives no warning
    exactly when the lower-cased text holds no phrase of the taxonomy and
    matches none of the five patterns.  A claim of one of the types vague,
    absolute and misleading gets the message of its type, and only a
    claim of another type gets the general message. *)
Theorem live_warnings_are_claims_then_flags :
  forall (KEYWORDS : PyDict.dict (list str)) (text : str),
    let ex := nlp_engine.extract_claims KEYWORDS text in
    let r := main.analyze_live KEYWORDS text in
    map main.w_phrase (main.warnings r)
    = map nlp_engine.phrase (nlp_engine.claims ex)
      ++ map nlp_engine.pattern_text (nlp_engine.red_flags ex)
    /\ main.warning_count r = len (main.warnings r)
    /\ main.warning_count r
       = nlp_engine.claim_count ex + len (nlp_engine.red_flags ex)
    /\ main.warning_count r <= nlp_engine.claim_count ex + 5
    /\ (main.warnings r = []
        <-> (forall claim_type phrases p,
                In (claim_type, phrases) KEYWORDS -> In p phrases ->
                contains (lower p) (lower text) = false)
            /\ (forall pat d,
                   In (pat, d) nlp_engine.flag_descriptions ->
                   PyRe.search pat (lower text) = None))
    /\ Forall
         (fun w =>
            main.w_text w
            = u "Environmental claim detected — verification recommended" ->
            ~ In (main.w_type w) [u "vague"; u "absolute"; u "misleading"])
         (main.warnings r).
Proof.
  intros KEYWORDS text ex r.
  destruct (extract_claims_phrases KEYWORDS text) as [_ [Hiff [_ Hcount]]].
  fold ex in Hiff, Hcount.
  assert (Hflags : nlp_engine.red_flags ex
                   = flags_of (lower text) nlp_engine.flag_descriptions).
  { subst ex. unfold nlp_engine.extract_claims.
    destruct (fold_left _ KEYWORDS ([], [])) as [detected seen]. reflexivity. }
  destruct (flags_of_facts (lower text) nlp_engine.flag_descriptions)
    as [Hlen _].
  rewrite <- Hflags in Hlen.
  change (List.length nlp_engine.flag_descriptions) with 5%nat in Hlen.
  assert (Hw : main.warnings r
               = map (fun c =>
                        {| main.w_phrase := nlp_engine.phrase c;
                           main.w_type := nlp_engine.type c;
                           main.w_text :=
                             main._live_warning_message (nlp_engine.type c) |})
                     (nlp_engine.claims ex)
                 ++ map (fun f =>
                           {| main.w_phrase := nlp_engine.pattern_text f;
                              main.w_type := u "linguistic_flag";
                              main.w_text := nlp_engine.description f |})
                        (nlp_engine.red_flags ex))
    by reflexivity.
  assert (Hc : main.warning_count r = len (main.warnings r)) by reflexivity.
  assert (Hn : len (main.warnings r)
               = nlp_engine.claim_count ex + len (nlp_engine.red_flags ex)).
  { rewrite Hw, Hcount. unfold len. rewrite length_app, !length_map. lia. }
  split; [rewrite Hw, map_app, !map_map; reflexivity|].
  split; [exact Hc|]. split; [congruence|].
  split; [rewrite Hc, Hn; unfold len; lia|].
  split.
  - rewrite Hw. split.
    + intros Hnil. apply app_eq_nil in Hnil as [H1 H2].
      apply map_eq_nil in H1, H2. split.
      * intros claim_type phrases p Hin Hp.
        destruct (contains (lower p) (lower text)) eqn:E; [|reflexivity].
        assert (Hfound : In p (map nlp_engine.phrase (nlp_engine.claims ex)))
          by (apply Hiff; now exists claim_type, phrases).
        rewrite H1 in Hfound. contradiction.
      * apply flags_of_nil. now rewrite <- Hflags.
    + intros [Hnone Hpat].
      assert (H1 : nlp_engine.claims ex = []).
      { destruct (nlp_engine.claims ex) as [|c l] eqn:E; [reflexivity|].
        destruct (proj1 (Hiff (nlp_engine.phrase c)) (or_introl eq_refl))
          as [t [ps [Hin [Hp Hc']]]].
        rewrite (Hnone t ps _ Hin Hp) in Hc'. discriminate. }
      assert (H2 : nlp_engine.red_flags ex = [])
        by (rewrite Hflags; now apply flags_of_nil).
      rewrite H1, H2. reflexivity.
  - rewrite Hw. apply Forall_app. split; apply Forall_map, Forall_forall.
    + intros c _. cbn [main.w_text main.w_type].
      apply live_warning_message_cases.
    + intros f _ _. cbn [main.w_type]. vm_compute.
      intros [H | [H | [H | []]]]; discriminate.
Qed.
